(** * Realtime reconciliation on the news detail page

    A shallow embedding of the article-detail screen of the news site and of
    the way it folds realtime change events (likes, comments, views) into its
    local React state.  Two copies of the screen live in the repository:

    - [Detail]: [src/pages/NewsDetailPage.tsx], the anonymous ("guest") page;
    - [DetailAuth]: the signed-in page of the [react-news] application (the
      second document stored in [react-news/src/pages/TagPage.tsx]).

    React state is modelled by explicit state passing: every handler maps the
    state before the call to the state after it, together with the requests
    it sends to the backend.  An [await] splits an async function in the part
    that runs before the request ([*_begin]) and the part that runs when the
    response arrives ([*_resolve]). *)

From Stdlib Require Import ZArith Lia.
From stdpp Require Import base option list sorting strings gmap fin_maps.

Local Open Scope Z_scope.

(** ** JavaScript values used by the page *)

(** A field of type [boolean | null]; [Undefined] is the field of a partial
    row (the [old] image of a change event) that does not carry it. *)
Inductive NullableBool := Bool (b : bool) | Null | Undefined.

Global Instance NullableBool_eq_dec : EqDecision NullableBool.
Proof. solve_decision. Defined.

(** Truthiness, as in [if (like.is_like)]. *)
Definition truthy (v : NullableBool) : bool :=
  match v with Bool true => true | _ => false end.

(** [a === b] on such fields. *)
Definition strict_eq (a b : NullableBool) : bool := bool_decide (a = b).

(** [!s] for [s : string | undefined]: undefined and the empty string are falsy. *)
Definition falsy_string (s : option string) : bool :=
  match s with
  | None => true
  | Some t => bool_decide (t = EmptyString)
  end.

(** [a ?? b]. *)
Definition nullish {A} (a b : option A) : option A :=
  match a with Some _ => a | None => b end.

(** ** Numbers

    A view count is a JavaScript Number, an IEEE 754 double.  The model
    carries the integer-valued ones as integers: an integer [z] is a Number
    when [JsNumber.roundTiesToEven z = z], which every integer of magnitude
    up to 2^53 is.  [x + y] is the exact sum rounded to the nearest double,
    ties to the even significand.  Fractions, and magnitudes from 2^1024 on
    (which the source holds as [Infinity]), are outside the model.

    The reaction counters are Numbers as well.  They start from the length
    of an array and move by one per event, so reaching 2^53, where the
    rounding begins, would take about 9 * 10^15 events; their [prev + 1] and
    [prev - 1] are written as integer arithmetic. *)

Module JsNumber.

(** The double nearest to an integer: the 53 leading bits of the magnitude,
    the rest rounded to nearest, a tie to the even significand. *)
Definition roundTiesToEven (z : Z) : Z :=
  let a := Z.abs z in
  let e := Z.log2 a - 52 in
  if e <=? 0 then z
  else
    let q := a / 2 ^ e in
    let r := a mod 2 ^ e in
    let half := 2 ^ (e - 1) in
    let q' :=
      if r <? half then q
      else if half <? r then q + 1
      else if Z.even q then q else q + 1 in
    Z.sgn z * (q' * 2 ^ e).

(** [x + y]. *)
Definition add (x y : Z) : Z := roundTiesToEven (x + y).

(** The first integer whose successor is not a Number, 2^53. *)
Definition limit : Z := 2 ^ 53.

End JsNumber.

(** ** Rows and change events *)

Record Tag := { tag_name : option string }.
Record Picture := { picture_url : option string }.

(** [created_at] is an ISO timestamp string in the source, read only through
    [new Date(created_at).getTime()]; the model carries that number (epoch
    milliseconds).  Rows whose timestamp does not parse are outside the model.
    [id] and [news_id] are optional because the rows of a change event may be
    partial. *)
Module NewsComment.
Record t := {
  id : option string;
  news_id : option string;
  user_name : option string;
  text : option string;
  created_at : Z
}.
End NewsComment.

(** [count] is a Number, integer-valued in the model, or [null]. *)
Module ViewRecord.
Record t := { news_id : option string; count : option Z }.
End ViewRecord.

Module NewsDetail.
Record t := {
  id : string;
  title : string;
  text : string;
  created_at : string;
  tags : option (list Tag);
  pictures : option (list Picture)
}.
End NewsDetail.

Inductive EventType := INSERT | UPDATE | DELETE | TRUNCATE.

(** [RealtimePostgresChangesPayload<T>]: the event kind, the row after the
    change and the row before it.  [None] is a missing row, [Some r] a row
    object, possibly with missing fields. *)
Record Payload (T : Type) := {
  eventType : EventType;
  new : option T;
  old : option T
}.
Arguments eventType {T} _.
Arguments new {T} _.
Arguments old {T} _.

(** A response of the query builder: either an error with its message or the
    data. *)
Inductive Response (T : Type) :=
| Failure (message : string)
| Success (data : T).
Arguments Failure {T} _.
Arguments Success {T} _.

(** The [views] member of the snapshot: [ViewRecord | ViewRecord[] | null]. *)
Inductive Views :=
| ViewsNull
| ViewsArray (rows : list ViewRecord.t)
| ViewsObject (row : ViewRecord.t).

(** ** Helpers shared by both pages *)

(** [[...comments].sort((a, b) => time(a) - time(b))].  [Array.prototype.sort]
    is stable and the comparator is a total preorder on the timestamps, so the
    result is the unique stable ordering; it is computed here by insertion
    from the right, which places a comment before the first later-or-equal
    one that followed it in the input. *)
Fixpoint insertByDate (c : NewsComment.t) (l : list NewsComment.t) : list NewsComment.t :=
  match l with
  | [] => [c]
  | d :: l' =>
      if NewsComment.created_at c <=? NewsComment.created_at d
      then c :: d :: l'
      else d :: insertByDate c l'
  end.

Definition sortCommentsByDate (comments : list NewsComment.t) : list NewsComment.t :=
  foldr insertByDate [] comments.

Definition coerceViewCount (views : Views) : Z :=
  match views with
  | ViewsNull => 0
  | ViewsArray rows => default 0 (head rows ≫= ViewRecord.count)
  | ViewsObject row => default 0 (ViewRecord.count row)
  end.

(** The guard every handler starts with:
    [if (!targetId || targetId !== id) return]. *)
Definition discarded (targetId id : option string) : bool :=
  falsy_string targetId || negb (bool_decide (targetId = id)).

(** The replace-by-identifier step of the comment handlers:
    [sortCommentsByDate([...prev.filter((c) => c.id !== n.id), n])]. *)
Definition upsertComment (n : NewsComment.t) (prev : list NewsComment.t) : list NewsComment.t :=
  sortCommentsByDate
    (filter (λ c, NewsComment.id c ≠ NewsComment.id n) prev ++ [n]).

Definition removeComment (o : NewsComment.t) (prev : list NewsComment.t) : list NewsComment.t :=
  filter (λ c, NewsComment.id c ≠ NewsComment.id o) prev.

(** ** The guest page: [src/pages/NewsDetailPage.tsx] *)

Module Detail.

Module LikeRecord.
Record t := {
  id : option string;
  news_id : option string;
  is_like : NullableBool
}.
End LikeRecord.

(** The row returned by the snapshot query. *)
Module NewsData.
Record t := {
  id : string;
  title : string;
  text : string;
  created_at : string;
  tags : option (list Tag);
  pictures : option (list Picture);
  comments : option (list NewsComment.t);
  likes : option (list LikeRecord.t);
  views : Views
}.
End NewsData.

(** The hooks of the component that the reconciler reads or writes
    ([useState] cells and the [hasIncrementedView] ref).  The form state
    ([commentForm], [commentError], [isLiking], [isSubmittingComment]) is
    touched by the submit handlers only and is left out. *)
Record State := {
  newsItem : option NewsDetail.t;
  comments : list NewsComment.t;
  likesCount : Z;
  dislikesCount : Z;
  viewCount : Z;
  loading : bool;
  error : option string;
  hasIncrementedView : bool
}.

(** The values the hooks are created with. *)
Definition initial : State :=
  {| newsItem := None; comments := []; likesCount := 0; dislikesCount := 0;
     viewCount := 0; loading := true; error := None;
     hasIncrementedView := false |}.

Definition setNewsItem (v : option NewsDetail.t) (s : State) : State :=
  {| newsItem := v; comments := comments s; likesCount := likesCount s;
     dislikesCount := dislikesCount s; viewCount := viewCount s;
     loading := loading s; error := error s;
     hasIncrementedView := hasIncrementedView s |}.
Definition setComments (f : list NewsComment.t → list NewsComment.t) (s : State) : State :=
  {| newsItem := newsItem s; comments := f (comments s); likesCount := likesCount s;
     dislikesCount := dislikesCount s; viewCount := viewCount s;
     loading := loading s; error := error s;
     hasIncrementedView := hasIncrementedView s |}.
Definition setLikesCount (f : Z → Z) (s : State) : State :=
  {| newsItem := newsItem s; comments := comments s; likesCount := f (likesCount s);
     dislikesCount := dislikesCount s; viewCount := viewCount s;
     loading := loading s; error := error s;
     hasIncrementedView := hasIncrementedView s |}.
Definition setDislikesCount (f : Z → Z) (s : State) : State :=
  {| newsItem := newsItem s; comments := comments s; likesCount := likesCount s;
     dislikesCount := f (dislikesCount s); viewCount := viewCount s;
     loading := loading s; error := error s;
     hasIncrementedView := hasIncrementedView s |}.
Definition setViewCount (v : Z) (s : State) : State :=
  {| newsItem := newsItem s; comments := comments s; likesCount := likesCount s;
     dislikesCount := dislikesCount s; viewCount := v;
     loading := loading s; error := error s;
     hasIncrementedView := hasIncrementedView s |}.
Definition setLoading (v : bool) (s : State) : State :=
  {| newsItem := newsItem s; comments := comments s; likesCount := likesCount s;
     dislikesCount := dislikesCount s; viewCount := viewCount s;
     loading := v; error := error s;
     hasIncrementedView := hasIncrementedView s |}.
Definition setError (v : option string) (s : State) : State :=
  {| newsItem := newsItem s; comments := comments s; likesCount := likesCount s;
     dislikesCount := dislikesCount s; viewCount := viewCount s;
     loading := loading s; error := v;
     hasIncrementedView := hasIncrementedView s |}.
Definition setHasIncrementedView (v : bool) (s : State) : State :=
  {| newsItem := newsItem s; comments := comments s; likesCount := likesCount s;
     dislikesCount := dislikesCount s; viewCount := viewCount s;
     loading := loading s; error := error s;
     hasIncrementedView := v |}.

(** Requests sent to the backend. *)
Inductive Request :=
| SelectNews (id : string)
    (** the snapshot query of [fetchDetails] *)
| UpsertView (news_id : string) (count : Z).
    (** [upsert({ news_id, count })] of [incrementView] *)

Global Instance Request_eq_dec : EqDecision Request.
Proof. solve_decision. Defined.

Section Page.
(** The route parameter, [useParams().id]. *)
Variable id : option string.

(** *** [fetchDetails] *)

Definition fetchDetails_begin (s : State) : State * list Request :=
  match id with
  | Some i =>
      if falsy_string id then (s, [])
      else (setError None (setLoading true s), [SelectNews i])
  | None => (s, [])
  end.

Definition initialLikes (likeRecords : list LikeRecord.t) : Z :=
  Z.of_nat (length (filter (λ like, truthy (LikeRecord.is_like like) = true) likeRecords)).

Definition initialDislikes (likeRecords : list LikeRecord.t) : Z :=
  Z.of_nat (length (filter (λ like, LikeRecord.is_like like = Bool false) likeRecords)).

Definition fetchDetails_resolve
    (r : Response (option NewsData.t)) (s : State) : State :=
  match r with
  | Failure message => setLoading false (setError (Some message) s)
  | Success None =>
      setLoading false (setError (Some "News article not found."%string) s)
  | Success (Some data) =>
      let s := setNewsItem (Some
                 {| NewsDetail.id := NewsData.id data;
                    NewsDetail.title := NewsData.title data;
                    NewsDetail.text := NewsData.text data;
                    NewsDetail.created_at := NewsData.created_at data;
                    NewsDetail.tags := Some (default [] (NewsData.tags data));
                    NewsDetail.pictures := Some (default [] (NewsData.pictures data)) |}) s in
      let commentRecords := default [] (NewsData.comments data) in
      let s := setComments (λ _, sortCommentsByDate commentRecords) s in
      let likeRecords := default [] (NewsData.likes data) in
      let s := setLikesCount (λ _, initialLikes likeRecords) s in
      let s := setDislikesCount (λ _, initialDislikes likeRecords) s in
      let initialViews := coerceViewCount (NewsData.views data) in
      let s := setViewCount initialViews s in
      setLoading false s
  end.

(** *** The view-increment effect and [incrementView] *)

Definition incrementView_begin (s : State) : State * list Request :=
  match id with
  | Some i =>
      if falsy_string id || loading s || hasIncrementedView s then (s, [])
      else
        let nextCount := JsNumber.add (viewCount s) 1 in
        (setHasIncrementedView true s, [UpsertView i nextCount])
  | None => (s, [])
  end.

(** [nextCount] is the constant captured when the request was sent; the
    response of [select('count').maybeSingle()] is a row with a nullable
    [count], or no row ([data?.count != null]). *)
Definition incrementView_resolve
    (nextCount : Z) (r : Response (option ViewRecord.t)) (s : State) : State :=
  match r with
  | Failure _ => s
  | Success data =>
      match data ≫= ViewRecord.count with
      | Some count => setViewCount count s
      | None => setViewCount nextCount s
      end
  end.

(** *** The stream handlers *)

Definition handleLikeChange
    (payload : Payload LikeRecord.t) (s : State) : State * list Request :=
  let newLike := new payload in
  let oldLike := old payload in
  let targetId :=
    nullish (newLike ≫= LikeRecord.news_id) (oldLike ≫= LikeRecord.news_id) in
  if discarded targetId id then (s, [])
  else
    match eventType payload, newLike, oldLike with
    | INSERT, Some newLike, _ =>
        if truthy (LikeRecord.is_like newLike)
        then (setLikesCount (λ prev, prev + 1) s, [])
        else (setDislikesCount (λ prev, prev + 1) s, [])
    | DELETE, _, Some oldLike =>
        if truthy (LikeRecord.is_like oldLike)
        then (setLikesCount (λ prev, Z.max (prev - 1) 0) s, [])
        else (setDislikesCount (λ prev, Z.max (prev - 1) 0) s, [])
    | UPDATE, Some newLike, Some oldLike =>
        if strict_eq (LikeRecord.is_like oldLike) (LikeRecord.is_like newLike)
        then (s, [])
        else if truthy (LikeRecord.is_like newLike)
        then (setDislikesCount (λ prev, Z.max (prev - 1) 0)
                (setLikesCount (λ prev, prev + 1) s), [])
        else (setLikesCount (λ prev, Z.max (prev - 1) 0)
                (setDislikesCount (λ prev, prev + 1) s), [])
    | TRUNCATE, _, _ => fetchDetails_begin s
    | _, _, _ => (s, [])
    end.

Definition handleCommentChange
    (payload : Payload NewsComment.t) (s : State) : State * list Request :=
  let newComment := new payload in
  let oldComment := old payload in
  let targetId :=
    nullish (newComment ≫= NewsComment.news_id) (oldComment ≫= NewsComment.news_id) in
  if discarded targetId id then (s, [])
  else
    match eventType payload, newComment, oldComment with
    | INSERT, Some newComment, _ => (setComments (upsertComment newComment) s, [])
    | UPDATE, Some newComment, _ => (setComments (upsertComment newComment) s, [])
    | DELETE, _, Some oldComment => (setComments (removeComment oldComment) s, [])
    | TRUNCATE, _, _ => (setComments (λ _, []) s, [])
    | _, _, _ => (s, [])
    end.

Definition handleViewChange
    (payload : Payload ViewRecord.t) (s : State) : State * list Request :=
  let newView := new payload in
  let oldView := old payload in
  let targetId :=
    nullish (newView ≫= ViewRecord.news_id) (oldView ≫= ViewRecord.news_id) in
  if discarded targetId id then (s, [])
  else
    match eventType payload with
    | TRUNCATE => (setViewCount 0 s, [])
    | _ =>
        match newView ≫= ViewRecord.count with
        | Some count => (setViewCount count s, [])
        | None => (s, [])
        end
    end.

(** *** The event loop *)

(** What can happen to a mounted page while [id] stays the same. *)
Inductive Step :=
| FetchEffect
    (** the effect that calls [fetchDetails] *)
| FetchDone (r : Response (option NewsData.t))
| Render
    (** a render followed by the view-increment effect *)
| IncrementDone (nextCount : Z) (r : Response (option ViewRecord.t))
| LikeEvent (payload : Payload LikeRecord.t)
| CommentEvent (payload : Payload NewsComment.t)
| ViewEvent (payload : Payload ViewRecord.t).

Definition step (e : Step) (s : State) : State * list Request :=
  match e with
  | FetchEffect => fetchDetails_begin s
  | FetchDone r => (fetchDetails_resolve r s, [])
  | Render => incrementView_begin s
  | IncrementDone nextCount r => (incrementView_resolve nextCount r s, [])
  | LikeEvent payload => handleLikeChange payload s
  | CommentEvent payload => handleCommentChange payload s
  | ViewEvent payload => handleViewChange payload s
  end.

(** Events are processed strictly in delivery order; the requests sent on
    the way are collected in order. *)
Fixpoint run (es : list Step) (s : State) : State * list Request :=
  match es with
  | [] => (s, [])
  | e :: es' =>
      let '(s1, out1) := step e s in
      let '(s2, out2) := run es' s1 in
      (s2, out1 ++ out2)
  end.

(** The states reached after each step, in order. *)
Fixpoint trace (es : list Step) (s : State) : list State :=
  match es with
  | [] => []
  | e :: es' =>
      let s1 := (step e s).1 in
      s1 :: trace es' s1
  end.

End Page.
End Detail.

(** ** The signed-in page: [NewsDetailPage] of the [react-news] application *)

Module DetailAuth.

Module LikeRecord.
Record t := {
  id : option string;
  news_id : option string;
  user_id : option string;
  is_like : NullableBool
}.
End LikeRecord.

Module NewsData.
Record t := {
  id : string;
  title : string;
  text : string;
  created_at : string;
  tags : option (list Tag);
  pictures : option (list Picture);
  comments : option (list NewsComment.t);
  likes : option (list LikeRecord.t);
  views : Views
}.
End NewsData.

(** [type Reaction = 'like' | 'dislike']. *)
Inductive Reaction := like | dislike.

Global Instance Reaction_eq_dec : EqDecision Reaction.
Proof. solve_decision. Defined.

(** [is_like ? 'like' : 'dislike']. *)
Definition reactionOf (is_like : NullableBool) : Reaction :=
  if truthy is_like then like else dislike.

(** The hooks read or written by the reconciler.  [fetchDetailsRef] records
    whether the ref holds [fetchDetails] (it is [null] until the first effect
    pass); the text inputs and [isLiking], [isSubmittingComment],
    [commentError] belong to the submit handlers and are left out.

    [handleCommentChange] is a [useCallback] over [[id, pendingCommentId]]:
    the callback the channel calls reads the [pendingCommentId] of the render
    that created it, not the hook.  [capturedPendingCommentId] is that value;
    it follows the hook at the next render, when the subscription effect
    replaces the callback. *)
Record State := {
  newsItem : option NewsDetail.t;
  comments : list NewsComment.t;
  likesCount : Z;
  dislikesCount : Z;
  viewCount : Z;
  userReaction : option Reaction;
  loading : bool;
  error : option string;
  isAwaitingCommentAck : bool;
  pendingCommentId : option string;
  hasIncrementedView : bool;
  fetchDetailsRef : bool;
  capturedPendingCommentId : option string
}.

Definition initial : State :=
  {| newsItem := None; comments := []; likesCount := 0; dislikesCount := 0;
     viewCount := 0; userReaction := None; loading := true; error := None;
     isAwaitingCommentAck := false; pendingCommentId := None;
     hasIncrementedView := false; fetchDetailsRef := false;
     capturedPendingCommentId := None |}.

Definition setNewsItem (v : option NewsDetail.t) (s : State) : State :=
  {| newsItem := v; comments := comments s; likesCount := likesCount s;
     dislikesCount := dislikesCount s; viewCount := viewCount s;
     userReaction := userReaction s; loading := loading s; error := error s;
     isAwaitingCommentAck := isAwaitingCommentAck s;
     pendingCommentId := pendingCommentId s;
     hasIncrementedView := hasIncrementedView s;
     fetchDetailsRef := fetchDetailsRef s;
     capturedPendingCommentId := capturedPendingCommentId s |}.
Definition setComments (f : list NewsComment.t → list NewsComment.t) (s : State) : State :=
  {| newsItem := newsItem s; comments := f (comments s); likesCount := likesCount s;
     dislikesCount := dislikesCount s; viewCount := viewCount s;
     userReaction := userReaction s; loading := loading s; error := error s;
     isAwaitingCommentAck := isAwaitingCommentAck s;
     pendingCommentId := pendingCommentId s;
     hasIncrementedView := hasIncrementedView s;
     fetchDetailsRef := fetchDetailsRef s;
     capturedPendingCommentId := capturedPendingCommentId s |}.
Definition setLikesCount (f : Z → Z) (s : State) : State :=
  {| newsItem := newsItem s; comments := comments s; likesCount := f (likesCount s);
     dislikesCount := dislikesCount s; viewCount := viewCount s;
     userReaction := userReaction s; loading := loading s; error := error s;
     isAwaitingCommentAck := isAwaitingCommentAck s;
     pendingCommentId := pendingCommentId s;
     hasIncrementedView := hasIncrementedView s;
     fetchDetailsRef := fetchDetailsRef s;
     capturedPendingCommentId := capturedPendingCommentId s |}.
Definition setDislikesCount (f : Z → Z) (s : State) : State :=
  {| newsItem := newsItem s; comments := comments s; likesCount := likesCount s;
     dislikesCount := f (dislikesCount s); viewCount := viewCount s;
     userReaction := userReaction s; loading := loading s; error := error s;
     isAwaitingCommentAck := isAwaitingCommentAck s;
     pendingCommentId := pendingCommentId s;
     hasIncrementedView := hasIncrementedView s;
     fetchDetailsRef := fetchDetailsRef s;
     capturedPendingCommentId := capturedPendingCommentId s |}.
Definition setViewCount (f : Z → Z) (s : State) : State :=
  {| newsItem := newsItem s; comments := comments s; likesCount := likesCount s;
     dislikesCount := dislikesCount s; viewCount := f (viewCount s);
     userReaction := userReaction s; loading := loading s; error := error s;
     isAwaitingCommentAck := isAwaitingCommentAck s;
     pendingCommentId := pendingCommentId s;
     hasIncrementedView := hasIncrementedView s;
     fetchDetailsRef := fetchDetailsRef s;
     capturedPendingCommentId := capturedPendingCommentId s |}.
Definition setUserReaction (v : option Reaction) (s : State) : State :=
  {| newsItem := newsItem s; comments := comments s; likesCount := likesCount s;
     dislikesCount := dislikesCount s; viewCount := viewCount s;
     userReaction := v; loading := loading s; error := error s;
     isAwaitingCommentAck := isAwaitingCommentAck s;
     pendingCommentId := pendingCommentId s;
     hasIncrementedView := hasIncrementedView s;
     fetchDetailsRef := fetchDetailsRef s;
     capturedPendingCommentId := capturedPendingCommentId s |}.
Definition setLoading (v : bool) (s : State) : State :=
  {| newsItem := newsItem s; comments := comments s; likesCount := likesCount s;
     dislikesCount := dislikesCount s; viewCount := viewCount s;
     userReaction := userReaction s; loading := v; error := error s;
     isAwaitingCommentAck := isAwaitingCommentAck s;
     pendingCommentId := pendingCommentId s;
     hasIncrementedView := hasIncrementedView s;
     fetchDetailsRef := fetchDetailsRef s;
     capturedPendingCommentId := capturedPendingCommentId s |}.
Definition setError (v : option string) (s : State) : State :=
  {| newsItem := newsItem s; comments := comments s; likesCount := likesCount s;
     dislikesCount := dislikesCount s; viewCount := viewCount s;
     userReaction := userReaction s; loading := loading s; error := v;
     isAwaitingCommentAck := isAwaitingCommentAck s;
     pendingCommentId := pendingCommentId s;
     hasIncrementedView := hasIncrementedView s;
     fetchDetailsRef := fetchDetailsRef s;
     capturedPendingCommentId := capturedPendingCommentId s |}.
Definition setIsAwaitingCommentAck (v : bool) (s : State) : State :=
  {| newsItem := newsItem s; comments := comments s; likesCount := likesCount s;
     dislikesCount := dislikesCount s; viewCount := viewCount s;
     userReaction := userReaction s; loading := loading s; error := error s;
     isAwaitingCommentAck := v;
     pendingCommentId := pendingCommentId s;
     hasIncrementedView := hasIncrementedView s;
     fetchDetailsRef := fetchDetailsRef s;
     capturedPendingCommentId := capturedPendingCommentId s |}.
Definition setPendingCommentId (v : option string) (s : State) : State :=
  {| newsItem := newsItem s; comments := comments s; likesCount := likesCount s;
     dislikesCount := dislikesCount s; viewCount := viewCount s;
     userReaction := userReaction s; loading := loading s; error := error s;
     isAwaitingCommentAck := isAwaitingCommentAck s;
     pendingCommentId := v;
     hasIncrementedView := hasIncrementedView s;
     fetchDetailsRef := fetchDetailsRef s;
     capturedPendingCommentId := capturedPendingCommentId s |}.
Definition setHasIncrementedView (v : bool) (s : State) : State :=
  {| newsItem := newsItem s; comments := comments s; likesCount := likesCount s;
     dislikesCount := dislikesCount s; viewCount := viewCount s;
     userReaction := userReaction s; loading := loading s; error := error s;
     isAwaitingCommentAck := isAwaitingCommentAck s;
     pendingCommentId := pendingCommentId s;
     hasIncrementedView := v;
     fetchDetailsRef := fetchDetailsRef s;
     capturedPendingCommentId := capturedPendingCommentId s |}.
Definition setFetchDetailsRef (v : bool) (s : State) : State :=
  {| newsItem := newsItem s; comments := comments s; likesCount := likesCount s;
     dislikesCount := dislikesCount s; viewCount := viewCount s;
     userReaction := userReaction s; loading := loading s; error := error s;
     isAwaitingCommentAck := isAwaitingCommentAck s;
     pendingCommentId := pendingCommentId s;
     hasIncrementedView := hasIncrementedView s;
     fetchDetailsRef := v;
     capturedPendingCommentId := capturedPendingCommentId s |}.
Definition setCapturedPendingCommentId (v : option string) (s : State) : State :=
  {| newsItem := newsItem s; comments := comments s; likesCount := likesCount s;
     dislikesCount := dislikesCount s; viewCount := viewCount s;
     userReaction := userReaction s; loading := loading s; error := error s;
     isAwaitingCommentAck := isAwaitingCommentAck s;
     pendingCommentId := pendingCommentId s;
     hasIncrementedView := hasIncrementedView s;
     fetchDetailsRef := fetchDetailsRef s;
     capturedPendingCommentId := v |}.

Inductive Request :=
| SelectNews (id : string)
| InvokeIncrementView (newsId : string).

Global Instance Request_eq_dec : EqDecision Request.
Proof. solve_decision. Defined.

(** The body returned by the [increment_view] function:
    [{ newsId: string; views?: number }]. *)
Record IncrementData := { newsId : string; views : option Z }.

Section Page.
(** The route parameter and the signed-in user, [user?.id ?? null]. *)
Variable id : option string.
Variable userId : option string.

(** [userId && row.user_id === userId]. *)
Definition ownedByViewer (user_id : option string) : bool :=
  negb (falsy_string userId) && bool_decide (user_id = userId).

Definition fetchDetails_begin (s : State) : State * list Request :=
  match id with
  | Some i =>
      if falsy_string id then (s, [])
      else (setError None (setLoading true s), [SelectNews i])
  | None => (s, [])
  end.

(** [userId ? likeRecords.find((like) => like.user_id === userId) : undefined]. *)
Definition userLike (likeRecords : list LikeRecord.t) : option LikeRecord.t :=
  if falsy_string userId then None
  else head (filter (λ like, LikeRecord.user_id like = userId) likeRecords).

Definition fetchDetails_resolve
    (r : Response (option NewsData.t)) (s : State) : State :=
  match r with
  | Failure message => setLoading false (setError (Some message) s)
  | Success None =>
      setLoading false (setError (Some "News article not found."%string) s)
  | Success (Some data) =>
      let s := setNewsItem (Some
                 {| NewsDetail.id := NewsData.id data;
                    NewsDetail.title := NewsData.title data;
                    NewsDetail.text := NewsData.text data;
                    NewsDetail.created_at := NewsData.created_at data;
                    NewsDetail.tags := Some (default [] (NewsData.tags data));
                    NewsDetail.pictures := Some (default [] (NewsData.pictures data)) |}) s in
      let commentRecords := default [] (NewsData.comments data) in
      let s := setComments (λ _, sortCommentsByDate commentRecords) s in
      let likeRecords := default [] (NewsData.likes data) in
      let s := setLikesCount (λ _,
                 Z.of_nat (length (filter (λ l, truthy (LikeRecord.is_like l) = true) likeRecords))) s in
      let s := setDislikesCount (λ _,
                 Z.of_nat (length (filter (λ l, LikeRecord.is_like l = Bool false) likeRecords))) s in
      let s := setUserReaction
                 (reactionOf ∘ LikeRecord.is_like <$> userLike likeRecords) s in
      let initialViews := coerceViewCount (NewsData.views data) in
      let s := setViewCount (λ _, initialViews) s in
      setLoading false s
  end.

(** [fetchDetailsRef.current?.()]. *)
Definition callFetchDetailsRef (s : State) : State * list Request :=
  if fetchDetailsRef s then fetchDetails_begin s else (s, []).

(** The view-increment effect; it calls [incrementViewCount], which sends
    the request unless [!id]. *)
Definition incrementViewCount_begin (s : State) : State * list Request :=
  match id with
  | Some i =>
      if falsy_string id || loading s || hasIncrementedView s then (s, [])
      else (setHasIncrementedView true s, [InvokeIncrementView i])
  | None => (s, [])
  end.

(** [Failure] also stands for an exception thrown by [invoke]: both paths
    only log. *)
Definition incrementViewCount_resolve
    (r : Response (option IncrementData)) (s : State) : State :=
  match r with
  | Failure _ => s
  | Success data =>
      match data ≫= views with
      | Some v => setViewCount (λ _, v) s
      | None => setViewCount (λ prev, JsNumber.add prev 1) s
      end
  end.

Definition handleLikeChange
    (payload : Payload LikeRecord.t) (s : State) : State * list Request :=
  let newLike := new payload in
  let oldLike := old payload in
  let targetId :=
    nullish (newLike ≫= LikeRecord.news_id) (oldLike ≫= LikeRecord.news_id) in
  if discarded targetId id then (s, [])
  else
    match eventType payload, newLike, oldLike with
    | INSERT, Some newLike, _ =>
        let s :=
          if truthy (LikeRecord.is_like newLike)
          then setLikesCount (λ prev, prev + 1) s
          else setDislikesCount (λ prev, prev + 1) s in
        if ownedByViewer (LikeRecord.user_id newLike)
        then (setUserReaction (Some (reactionOf (LikeRecord.is_like newLike))) s, [])
        else (s, [])
    | DELETE, _, Some oldLike =>
        let s :=
          if truthy (LikeRecord.is_like oldLike)
          then setLikesCount (λ prev, Z.max (prev - 1) 0) s
          else setDislikesCount (λ prev, Z.max (prev - 1) 0) s in
        if ownedByViewer (LikeRecord.user_id oldLike)
        then (setUserReaction None s, [])
        else (s, [])
    | UPDATE, Some newLike, Some oldLike =>
        if strict_eq (LikeRecord.is_like oldLike) (LikeRecord.is_like newLike)
        then (s, [])
        else
          let s :=
            if truthy (LikeRecord.is_like newLike)
            then setDislikesCount (λ prev, Z.max (prev - 1) 0)
                   (setLikesCount (λ prev, prev + 1) s)
            else setLikesCount (λ prev, Z.max (prev - 1) 0)
                   (setDislikesCount (λ prev, prev + 1) s) in
          if ownedByViewer (LikeRecord.user_id newLike)
          then (setUserReaction (Some (reactionOf (LikeRecord.is_like newLike))) s, [])
          else (s, [])
    | TRUNCATE, _, _ =>
        callFetchDetailsRef
          (setUserReaction None (setDislikesCount (λ _, 0) (setLikesCount (λ _, 0) s)))
    | _, _, _ => (s, [])
    end.

Definition handleCommentChange
    (payload : Payload NewsComment.t) (s : State) : State * list Request :=
  let newComment := new payload in
  let oldComment := old payload in
  let targetId :=
    nullish (newComment ≫= NewsComment.news_id) (oldComment ≫= NewsComment.news_id) in
  if discarded targetId id then (s, [])
  else
    match eventType payload, newComment, oldComment with
    | INSERT, Some newComment, _ =>
        let s1 := setComments (upsertComment newComment) s in
        let pendingCommentId := capturedPendingCommentId s in
        if negb (falsy_string pendingCommentId)
           && bool_decide (NewsComment.id newComment = pendingCommentId)
        then (setPendingCommentId None (setIsAwaitingCommentAck false s1), [])
        else (s1, [])
    | UPDATE, Some newComment, _ => (setComments (upsertComment newComment) s, [])
    | DELETE, _, Some oldComment => (setComments (removeComment oldComment) s, [])
    | TRUNCATE, _, _ =>
        (setIsAwaitingCommentAck false
           (setPendingCommentId None (setComments (λ _, []) s)), [])
    | _, _, _ => (s, [])
    end.

Definition handleViewChange
    (payload : Payload ViewRecord.t) (s : State) : State * list Request :=
  let newView := new payload in
  let oldView := old payload in
  let targetId :=
    nullish (newView ≫= ViewRecord.news_id) (oldView ≫= ViewRecord.news_id) in
  if discarded targetId id then (s, [])
  else
    match eventType payload with
    | TRUNCATE => (setViewCount (λ _, 0) s, [])
    | _ =>
        match newView ≫= ViewRecord.count with
        | Some count => (setViewCount (λ _, count) s, [])
        | None => (s, [])
        end
    end.

(** The effects of a render, in the order of the source: the view-increment
    effect, then the subscription effect, which hands the channel the
    callbacks of this render. *)
Definition commit (s : State) : State * list Request :=
  let '(s1, out) := incrementViewCount_begin s in
  (setCapturedPendingCommentId (pendingCommentId s1) s1, out).

Inductive Step :=
| RefEffect
    (** [fetchDetailsRef.current = fetchDetails] *)
| FetchEffect
    (** [fetchDetailsRef.current?.()] on mount *)
| FetchDone (r : Response (option NewsData.t))
| Render
    (** a render followed by its effects *)
| IncrementDone (r : Response (option IncrementData))
| LikeEvent (payload : Payload LikeRecord.t)
| CommentEvent (payload : Payload NewsComment.t)
| ViewEvent (payload : Payload ViewRecord.t).

Definition step (e : Step) (s : State) : State * list Request :=
  match e with
  | RefEffect => (setFetchDetailsRef true s, [])
  | FetchEffect =>
      if falsy_string id then (s, []) else callFetchDetailsRef s
  | FetchDone r => (fetchDetails_resolve r s, [])
  | Render => commit s
  | IncrementDone r => (incrementViewCount_resolve r s, [])
  | LikeEvent payload => handleLikeChange payload s
  | CommentEvent payload => handleCommentChange payload s
  | ViewEvent payload => handleViewChange payload s
  end.

Fixpoint run (es : list Step) (s : State) : State * list Request :=
  match es with
  | [] => (s, [])
  | e :: es' =>
      let '(s1, out1) := step e s in
      let '(s2, out2) := run es' s1 in
      (s2, out1 ++ out2)
  end.

End Page.
End DetailAuth.

(** ** The [likes] relation behind the reaction stream

    Follows the spec's words: reactions are rows with distinct identifiers,
    each tied to one article and carrying a boolean polarity; a row is live
    from its insert to its delete.  Every committed change is published once,
    as an event carrying the row after the change and the row before it. *)

Module Likes.

Record Row := { news_id : string; is_like : bool }.

Inductive Change :=
| Insert (id : string) (row : Row)
| Update (id : string) (is_like : bool)
| Delete (id : string).

(** The row as it appears in an event. *)
Definition image (id : string) (row : Row) : Detail.LikeRecord.t :=
  {| Detail.LikeRecord.id := Some id;
     Detail.LikeRecord.news_id := Some (news_id row);
     Detail.LikeRecord.is_like := Bool (is_like row) |}.

(** One committed change: the new table and the event published for it.
    Inserting an identifier that is live, or updating or deleting one that is
    not, is not a change of the relation. *)
Definition commit (c : Change) (table : gmap string Row)
    : option (gmap string Row * Payload Detail.LikeRecord.t) :=
  match c with
  | Insert i row =>
      match table !! i with
      | None =>
          Some (<[i:=row]> table,
                {| eventType := INSERT; new := Some (image i row); old := None |})
      | Some _ => None
      end
  | Update i b =>
      match table !! i with
      | Some row =>
          let row' := {| news_id := news_id row; is_like := b |} in
          Some (<[i:=row']> table,
                {| eventType := UPDATE; new := Some (image i row');
                   old := Some (image i row) |})
      | None => None
      end
  | Delete i =>
      match table !! i with
      | Some row =>
          Some (delete i table,
                {| eventType := DELETE; new := None; old := Some (image i row) |})
      | None => None
      end
  end.

Fixpoint history (cs : list Change) (table : gmap string Row)
    : option (gmap string Row * list (Payload Detail.LikeRecord.t)) :=
  match cs with
  | [] => Some (table, [])
  | c :: cs' =>
      '(table1, event) ← commit c table;
      '(table2, events) ← history cs' table1;
      Some (table2, event :: events)
  end.

(** The number of live rows of an article with a given polarity. *)
Definition live (article : string) (polarity : bool) (table : gmap string Row) : Z :=
  Z.of_nat (size (filter (λ kv, news_id kv.2 = article ∧ is_like kv.2 = polarity) table)).

End Likes.

(** ** Folding a stream of events of one relation *)

Definition byDate (a b : NewsComment.t) : Prop :=
  NewsComment.created_at a ≤ NewsComment.created_at b.

Definition commentIds (l : list NewsComment.t) : list (option string) :=
  NewsComment.id <$> l.

Definition foldLikes (id : option string)
    (events : list (Payload Detail.LikeRecord.t)) (s : Detail.State) : Detail.State :=
  (Detail.run id (Detail.LikeEvent <$> events) s).1.

Definition foldComments (id : option string)
    (events : list (Payload NewsComment.t)) (s : Detail.State) : Detail.State :=
  (Detail.run id (Detail.CommentEvent <$> events) s).1.

(** The states after each event of a reaction stream, in order. *)
Definition traceLikes (id : option string)
    (events : list (Payload Detail.LikeRecord.t)) (s : Detail.State) : list Detail.State :=
  Detail.trace id (Detail.LikeEvent <$> events) s.

(** The article identifier embedded in an event, as the handlers read it:
    [payload.new?.news_id ?? payload.old?.news_id]. *)
Definition likeTarget (payload : Payload Detail.LikeRecord.t) : option string :=
  nullish (new payload ≫= Detail.LikeRecord.news_id)
          (old payload ≫= Detail.LikeRecord.news_id).

Definition commentTarget (payload : Payload NewsComment.t) : option string :=
  nullish (new payload ≫= NewsComment.news_id) (old payload ≫= NewsComment.news_id).

Definition viewTarget (payload : Payload ViewRecord.t) : option string :=
  nullish (new payload ≫= ViewRecord.news_id) (old payload ≫= ViewRecord.news_id).

(** The embedded article identifier of a stream event; the other steps of
    the event loop are not change events. *)
Definition eventTarget (e : Detail.Step) : option (option string) :=
  match e with
  | Detail.LikeEvent payload => Some (likeTarget payload)
  | Detail.CommentEvent payload => Some (commentTarget payload)
  | Detail.ViewEvent payload => Some (viewTarget payload)
  | _ => None
  end.

(** The updater the comment handler passes to [setComments]. *)
Definition commentUpdate (id : option string) (payload : Payload NewsComment.t)
    : list NewsComment.t → list NewsComment.t :=
  if discarded (commentTarget payload) id then λ prev, prev
  else
    match eventType payload, new payload, old payload with
    | INSERT, Some n, _ | UPDATE, Some n, _ => upsertComment n
    | DELETE, _, Some o => removeComment o
    | TRUNCATE, _, _ => λ _, []
    | _, _, _ => λ prev, prev
    end.

(** The number of view-increment requests among the requests sent. *)
Definition isUpsertView (r : Detail.Request) : bool :=
  match r with Detail.UpsertView _ _ => true | _ => false end.

Definition viewIncrements (requests : list Detail.Request) : nat :=
  length (filter (λ r, isUpsertView r = true) requests).

(** Both reaction counters are at least 0. *)
Definition nonneg (s : Detail.State) : Prop :=
  0 ≤ Detail.likesCount s ∧ 0 ≤ Detail.dislikesCount s.

(** How many view-increment requests the page may still send. *)
Definition budget (s : Detail.State) : nat :=
  if Detail.hasIncrementedView s then 0%nat else 1%nat.

(** The counters agree with the live rows of the viewed article. *)
Definition agrees (article : string) (table : gmap string Likes.Row) (s : Detail.State) : Prop :=
  Detail.likesCount s = Likes.live article true table
  ∧ Detail.dislikesCount s = Likes.live article false table.

(** What one row contributes to the number of live rows of an article with a
    given polarity. *)
Definition counted (article : string) (polarity : bool) (row : Likes.Row) : Z :=
  if decide (Likes.news_id row = article ∧ Likes.is_like row = polarity) then 1 else 0.

(** The embedded article identifier of a reaction event of the signed-in page. *)
Definition authLikeTarget (payload : Payload DetailAuth.LikeRecord.t) : option string :=
  nullish (new payload ≫= DetailAuth.LikeRecord.news_id)
          (old payload ≫= DetailAuth.LikeRecord.news_id).

(** ** Sample data *)

Module Sample.

Definition article : string := "A".

Definition comment (id : string) (time : Z) : NewsComment.t :=
  {| NewsComment.id := Some id; NewsComment.news_id := Some article;
     NewsComment.user_name := None; NewsComment.text := None;
     NewsComment.created_at := time |}.

Definition insertComment (c : NewsComment.t) : Payload NewsComment.t :=
  {| eventType := INSERT; new := Some c; old := None |}.

Definition reaction (id : string) (is_like : NullableBool) : Detail.LikeRecord.t :=
  {| Detail.LikeRecord.id := Some id; Detail.LikeRecord.news_id := Some article;
     Detail.LikeRecord.is_like := is_like |}.

Definition insertLike (r : Detail.LikeRecord.t) : Payload Detail.LikeRecord.t :=
  {| eventType := INSERT; new := Some r; old := None |}.

Definition deleteLike (r : Detail.LikeRecord.t) : Payload Detail.LikeRecord.t :=
  {| eventType := DELETE; new := None; old := Some r |}.

(** A TRUNCATE payload with a row that names the article: the only kind the
    guard of the handlers lets through to their TRUNCATE branch. *)
Definition truncateLikes : Payload Detail.LikeRecord.t :=
  {| eventType := TRUNCATE; new := None; old := Some (reaction "r0" Undefined) |}.

(** The bulk clear of the stream: the kind alone, without a row; and the
    same with empty objects in the place of the rows. *)
Definition bulkClear {T} : Payload T :=
  {| eventType := TRUNCATE; new := None; old := None |}.

Definition emptyLike : Detail.LikeRecord.t :=
  {| Detail.LikeRecord.id := None; Detail.LikeRecord.news_id := None;
     Detail.LikeRecord.is_like := Undefined |}.

Definition bulkClearEmptyRows : Payload Detail.LikeRecord.t :=
  {| eventType := TRUNCATE; new := Some emptyLike; old := Some emptyLike |}.

(** The guest page after a snapshot with the given tallies and comments. *)
Definition loaded (likes dislikes views : Z) (l : list NewsComment.t) : Detail.State :=
  {| Detail.newsItem := None; Detail.comments := l; Detail.likesCount := likes;
     Detail.dislikesCount := dislikes; Detail.viewCount := views;
     Detail.loading := false; Detail.error := None;
     Detail.hasIncrementedView := false |}.

Definition authReaction (id user : string) (is_like : NullableBool)
    : DetailAuth.LikeRecord.t :=
  {| DetailAuth.LikeRecord.id := Some id;
     DetailAuth.LikeRecord.news_id := Some article;
     DetailAuth.LikeRecord.user_id := Some user;
     DetailAuth.LikeRecord.is_like := is_like |}.

Definition authLoaded (likes dislikes : Z) (mine : option DetailAuth.Reaction)
    : DetailAuth.State :=
  {| DetailAuth.newsItem := None; DetailAuth.comments := [];
     DetailAuth.likesCount := likes; DetailAuth.dislikesCount := dislikes;
     DetailAuth.viewCount := 0; DetailAuth.userReaction := mine;
     DetailAuth.loading := false; DetailAuth.error := None;
     DetailAuth.isAwaitingCommentAck := false; DetailAuth.pendingCommentId := None;
     DetailAuth.hasIncrementedView := true; DetailAuth.fetchDetailsRef := true;
     DetailAuth.capturedPendingCommentId := None |}.

Definition snapshot (likes : list Detail.LikeRecord.t) : Detail.NewsData.t :=
  {| Detail.NewsData.id := article; Detail.NewsData.title := "t";
     Detail.NewsData.text := "b"; Detail.NewsData.created_at := "2024-01-01";
     Detail.NewsData.tags := None; Detail.NewsData.pictures := None;
     Detail.NewsData.comments := None; Detail.NewsData.likes := Some likes;
     Detail.NewsData.views := ViewsNull |}.

(** A snapshot whose [views] member is one row with the given count. *)
Definition viewed (count : Z) : Detail.NewsData.t :=
  {| Detail.NewsData.id := article; Detail.NewsData.title := "t";
     Detail.NewsData.text := "b"; Detail.NewsData.created_at := "2024-01-01";
     Detail.NewsData.tags := None; Detail.NewsData.pictures := None;
     Detail.NewsData.comments := None; Detail.NewsData.likes := None;
     Detail.NewsData.views :=
       ViewsObject {| ViewRecord.news_id := None; ViewRecord.count := Some count |} |}.

End Sample.

(** ** The signed-in page seen as the guest page

    Forgetting the owner of a reaction and the hooks only the signed-in page
    has. *)

Definition eraseLike (r : DetailAuth.LikeRecord.t) : Detail.LikeRecord.t :=
  {| Detail.LikeRecord.id := DetailAuth.LikeRecord.id r;
     Detail.LikeRecord.news_id := DetailAuth.LikeRecord.news_id r;
     Detail.LikeRecord.is_like := DetailAuth.LikeRecord.is_like r |}.

Definition erasePayload (p : Payload DetailAuth.LikeRecord.t) : Payload Detail.LikeRecord.t :=
  {| eventType := eventType p; new := eraseLike <$> new p; old := eraseLike <$> old p |}.

Definition eraseData (d : DetailAuth.NewsData.t) : Detail.NewsData.t :=
  {| Detail.NewsData.id := DetailAuth.NewsData.id d;
     Detail.NewsData.title := DetailAuth.NewsData.title d;
     Detail.NewsData.text := DetailAuth.NewsData.text d;
     Detail.NewsData.created_at := DetailAuth.NewsData.created_at d;
     Detail.NewsData.tags := DetailAuth.NewsData.tags d;
     Detail.NewsData.pictures := DetailAuth.NewsData.pictures d;
     Detail.NewsData.comments := DetailAuth.NewsData.comments d;
     Detail.NewsData.likes := fmap (M:=list) eraseLike <$> DetailAuth.NewsData.likes d;
     Detail.NewsData.views := DetailAuth.NewsData.views d |}.

Definition eraseResponse (r : Response (option DetailAuth.NewsData.t))
    : Response (option Detail.NewsData.t) :=
  match r with
  | Failure message => Failure message
  | Success data => Success (eraseData <$> data)
  end.

Definition erase (s : DetailAuth.State) : Detail.State :=
  {| Detail.newsItem := DetailAuth.newsItem s;
     Detail.comments := DetailAuth.comments s;
     Detail.likesCount := DetailAuth.likesCount s;
     Detail.dislikesCount := DetailAuth.dislikesCount s;
     Detail.viewCount := DetailAuth.viewCount s;
     Detail.loading := DetailAuth.loading s;
     Detail.error := DetailAuth.error s;
     Detail.hasIncrementedView := DetailAuth.hasIncrementedView s |}.

(** ** Text typed by the user

    The text of the two form inputs is only ever trimmed and tested for
    emptiness, so it is modelled as the page holds it: a sequence of UTF-16
    code units. *)

Module JsString.

Definition t := list N.

(** The code units [String.prototype.trim] strips: ECMAScript WhiteSpace
    (TAB, VT, FF, ZWNBSP and the Unicode space separators) and
    LineTerminator (LF, CR, LS, PS). *)
Definition isWhiteSpace (c : N) : bool :=
  ((c =? 9) || (c =? 10) || (c =? 11) || (c =? 12) || (c =? 13) || (c =? 32)
   || (c =? 160) || (c =? 5760) || ((8192 <=? c) && (c <=? 8202))
   || (c =? 8232) || (c =? 8233) || (c =? 8239) || (c =? 8287)
   || (c =? 12288) || (c =? 65279))%N.

Fixpoint trimStart (s : t) : t :=
  match s with
  | c :: s' => if isWhiteSpace c then trimStart s' else s
  | [] => []
  end.

Definition trimEnd (s : t) : t := reverse (trimStart (reverse s)).

Definition trim (s : t) : t := trimEnd (trimStart s).

(** [!s]. *)
Definition falsy (s : t) : bool :=
  match s with [] => true | _ => false end.

End JsString.

(** ** The guest page: what the reader does

    [handleCommentInput], [generateUserId], [handleLikeAction] and
    [handleCommentSubmit] of [src/pages/NewsDetailPage.tsx], over the hooks of
    the reconciler and the form hooks. *)

Module Forms.

Record CommentForm := { userName : JsString.t; text : JsString.t }.

Record Form := {
  commentError : option string;
  isLiking : bool;
  isSubmittingComment : bool;
  commentForm : CommentForm
}.

Definition initial : Form :=
  {| commentError := None; isLiking := false; isSubmittingComment := false;
     commentForm := {| userName := []; text := [] |} |}.

Definition setCommentError (v : option string) (f : Form) : Form :=
  {| commentError := v; isLiking := isLiking f;
     isSubmittingComment := isSubmittingComment f; commentForm := commentForm f |}.
Definition setIsLiking (v : bool) (f : Form) : Form :=
  {| commentError := commentError f; isLiking := v;
     isSubmittingComment := isSubmittingComment f; commentForm := commentForm f |}.
Definition setIsSubmittingComment (v : bool) (f : Form) : Form :=
  {| commentError := commentError f; isLiking := isLiking f;
     isSubmittingComment := v; commentForm := commentForm f |}.
Definition setCommentForm (g : CommentForm → CommentForm) (f : Form) : Form :=
  {| commentError := commentError f; isLiking := isLiking f;
     isSubmittingComment := isSubmittingComment f; commentForm := g (commentForm f) |}.

(** The writes the page sends. *)
Inductive Mutation :=
| InsertLike (news_id : string) (is_like : bool) (user_id : string)
| InsertComment (news_id : string) (user_name text : JsString.t).

(** [{ ...prev, [name]: value }]: a name other than the two fields adds a
    property nothing reads. *)
Definition handleCommentInput (name : string) (value : JsString.t) (f : Form) : Form :=
  setCommentForm (λ prev,
    if bool_decide (name = "userName"%string)
    then {| userName := value; text := text prev |}
    else if bool_decide (name = "text"%string)
    then {| userName := userName prev; text := value |}
    else prev) f.

(** [`guest-${...}`]; [fresh] is the UUID, or the clock reading, the call
    draws. *)
Definition generateUserId (fresh : string) : string := "guest-" +:+ fresh.

Section Page.
Variable id : option string.

Definition handleLikeAction_begin (isLike : bool) (fresh : string)
    (p : Detail.State * Form) : (Detail.State * Form) * list Mutation :=
  match id with
  | Some i =>
      if falsy_string id then (p, [])
      else ((Detail.setError None p.1, setIsLiking true p.2),
            [InsertLike i isLike (generateUserId fresh)])
  | None => (p, [])
  end.

Definition handleLikeAction_resolve (r : Response ())
    (p : Detail.State * Form) : Detail.State * Form :=
  match r with
  | Failure message => (Detail.setError (Some message) p.1, setIsLiking false p.2)
  | Success _ => (p.1, setIsLiking false p.2)
  end.

Definition handleCommentSubmit_begin
    (p : Detail.State * Form) : (Detail.State * Form) * list Mutation :=
  match id with
  | Some i =>
      if falsy_string id then (p, [])
      else
        let form := commentForm p.2 in
        if JsString.falsy (JsString.trim (userName form))
           || JsString.falsy (JsString.trim (text form))
        then ((p.1, setCommentError (Some "Please enter your name and comment."%string) p.2), [])
        else ((p.1, setIsSubmittingComment true (setCommentError None p.2)),
              [InsertComment i (JsString.trim (userName form))
                               (JsString.trim (text form))])
  | None => (p, [])
  end.

Definition handleCommentSubmit_resolve (r : Response ())
    (p : Detail.State * Form) : Detail.State * Form :=
  match r with
  | Failure message =>
      (p.1, setIsSubmittingComment false (setCommentError (Some message) p.2))
  | Success _ =>
      (p.1, setIsSubmittingComment false
              (setCommentForm (λ _, {| userName := []; text := [] |}) p.2))
  end.

(** What the component returns. *)
Inductive View :=
| InvalidIdentifier
| Spinner
| ErrorAlert (message : string)
| Blank
| Article (item : NewsDetail.t) (warning : option string)
    (views likes dislikes : Z) (comments : list NewsComment.t).

Definition render (s : Detail.State) : View :=
  if falsy_string id then InvalidIdentifier
  else if Detail.loading s then Spinner
  else
    match Detail.newsItem s with
    | None =>
        if falsy_string (Detail.error s) then Blank
        else ErrorAlert (default EmptyString (Detail.error s))
    | Some item =>
        Article item
          (if falsy_string (Detail.error s) then None else Detail.error s)
          (Detail.viewCount s) (Detail.likesCount s) (Detail.dislikesCount s)
          (Detail.comments s)
    end.

End Page.
End Forms.

(** ** View events in sequence *)

(** The value a view event sets, if it sets one: [None] when the handler
    returns without calling [setViewCount]. *)
Definition viewUpdate (id : option string) (payload : Payload ViewRecord.t) : option Z :=
  if discarded (viewTarget payload) id then None
  else
    match eventType payload with
    | TRUNCATE => Some 0
    | _ => new payload ≫= ViewRecord.count
    end.

Definition foldViews (id : option string)
    (events : list (Payload ViewRecord.t)) (s : Detail.State) : Detail.State :=
  (Detail.run id (Detail.ViewEvent <$> events) s).1.

(** ** The paragraphs of the article

    [newsItem.text.split(/\n+/).filter(Boolean)], on the characters of the
    text.  (A line feed is one character in every encoding of the text, so
    the model does not depend on the encoding.) *)

Definition lineFeed : Ascii.ascii := Ascii.ascii_of_nat 10.

Definition isLineFeed (c : Ascii.ascii) : bool := bool_decide (c = lineFeed).

(** [split(/\n+/)]: the pieces between maximal runs of line feeds; [inRun]
    tells that the previous character was a line feed, so that the piece
    after the run is already open. *)
Fixpoint splitLineFeeds (inRun : bool) (l : list Ascii.ascii) : list (list Ascii.ascii) :=
  match l with
  | [] => [[]]
  | c :: l' =>
      if isLineFeed c
      then if inRun then splitLineFeeds true l' else [] :: splitLineFeeds true l'
      else
        match splitLineFeeds false l' with
        | piece :: pieces => (c :: piece) :: pieces
        | [] => [[c]]
        end
  end.

(** [filter(Boolean)] drops the empty pieces. *)
Definition paragraphsOf (l : list Ascii.ascii) : list (list Ascii.ascii) :=
  filter (λ piece, piece ≠ []) (splitLineFeeds false l).

Definition paragraphs (text : string) : list string :=
  String.string_of_list_ascii <$> paragraphsOf (String.list_ascii_of_string text).

(** Joining paragraphs by single line feeds, as a writer would type them. *)
Fixpoint joinLineFeed (ps : list (list Ascii.ascii)) : list Ascii.ascii :=
  match ps with
  | [] => []
  | [p] => p
  | p :: ps' => p ++ lineFeed :: joinLineFeed ps'
  end.

(** ** Vocabulary for the reader's actions *)

Definition blank (s : JsString.t) : Prop :=
  Forall (λ c, JsString.isWhiteSpace c = true) s.

(** [n] is [s] without the white space around it. *)
Definition trimmedFrom (n s : JsString.t) : Prop :=
  (∃ pre post, s = pre ++ n ++ post ∧ blank pre ∧ blank post)
  ∧ (∀ c, head n = Some c → JsString.isWhiteSpace c = false)
  ∧ (∀ c, last n = Some c → JsString.isWhiteSpace c = false).

(** The data the reconciler keeps; [loading] and [error] are not part of it. *)
Definition sameData (s s' : Detail.State) : Prop :=
  Detail.newsItem s' = Detail.newsItem s
  ∧ Detail.comments s' = Detail.comments s
  ∧ Detail.likesCount s' = Detail.likesCount s
  ∧ Detail.dislikesCount s' = Detail.dislikesCount s
  ∧ Detail.viewCount s' = Detail.viewCount s
  ∧ Detail.hasIncrementedView s' = Detail.hasIncrementedView s.

(** ** Display names: [react-news/src/utils/userProfile.ts] *)

Module UserProfile.

(** The fields of the signed-in user the helpers read; [full_name] and
    [avatar_url] are the members of [user_metadata] when they are strings. *)
Record User := {
  id : JsString.t;
  email : option JsString.t;
  phone : option JsString.t;
  full_name : option JsString.t;
  avatar_url : option JsString.t
}.

(** A value that is a non-empty string, for [a || b]. *)
Definition truthyString (s : option JsString.t) : option JsString.t :=
  match s with
  | Some (c :: s') => Some (c :: s')
  | _ => None
  end.

(** ['User '] and ['Anonymous']. *)
Definition userPrefix : JsString.t := [85; 115; 101; 114; 32]%N.
Definition anonymous : JsString.t := [65; 110; 111; 110; 121; 109; 111; 117; 115]%N.

Definition extractName (user : option User) : option JsString.t :=
  match user with
  | None => None
  | Some u =>
      let metadataName := full_name u in
      let displayName :=
        nullish (truthyString (JsString.trim <$> metadataName))
          (nullish (truthyString (email u)) (truthyString (phone u))) in
      match displayName with
      | Some d => Some d
      | None => Some (userPrefix ++ take 6 (id u))
      end
  end.

Definition getUserDisplayName (user : option User) (fallback : JsString.t) : JsString.t :=
  default fallback (extractName user).

Section Avatar.
(** [generateAvatarUrl] builds a URL with [URLSearchParams]; the helpers
    below only pass a name to it. *)
Variable generateAvatarUrl : JsString.t → JsString.t.

Definition getUserAvatarUrl (user : option User) : option JsString.t :=
  match user with
  | None => None
  | Some u =>
      match truthyString (avatar_url u) with
      | Some metadataUrl => Some metadataUrl
      | None =>
          match truthyString (extractName user) with
          | Some name => Some (generateAvatarUrl name)
          | None => None
          end
      end
  end.

Definition getAvatarUrlFromName (name : option JsString.t) : JsString.t :=
  match truthyString (JsString.trim <$> name) with
  | Some safeName => generateAvatarUrl safeName
  | None => generateAvatarUrl anonymous
  end.

End Avatar.
End UserProfile.

(** ** The signed-in page: what the reader does

    [handleLikeAction] and [handleCommentSubmit] of the signed-in page.  Each
    [await] ends a phase; a phase takes the hooks as they are when it
    runs. *)

Module AuthForms.

Record Form := {
  commentError : option string;
  isLiking : bool;
  isSubmittingComment : bool;
  commentText : JsString.t;
  guestName : JsString.t
}.

Definition setCommentError (v : option string) (f : Form) : Form :=
  {| commentError := v; isLiking := isLiking f;
     isSubmittingComment := isSubmittingComment f;
     commentText := commentText f; guestName := guestName f |}.
Definition setIsLiking (v : bool) (f : Form) : Form :=
  {| commentError := commentError f; isLiking := v;
     isSubmittingComment := isSubmittingComment f;
     commentText := commentText f; guestName := guestName f |}.
Definition setIsSubmittingComment (v : bool) (f : Form) : Form :=
  {| commentError := commentError f; isLiking := isLiking f;
     isSubmittingComment := v;
     commentText := commentText f; guestName := guestName f |}.
Definition setCommentText (v : JsString.t) (f : Form) : Form :=
  {| commentError := commentError f; isLiking := isLiking f;
     isSubmittingComment := isSubmittingComment f;
     commentText := v; guestName := guestName f |}.
Definition setGuestName (v : JsString.t) (f : Form) : Form :=
  {| commentError := commentError f; isLiking := isLiking f;
     isSubmittingComment := isSubmittingComment f;
     commentText := commentText f; guestName := v |}.

(** The row of [select('id, is_like')]. *)
Record ExistingLike := { existing_id : string; existing_is_like : NullableBool }.

Inductive Mutation :=
| SelectLike (news_id user_id : string)
| DeleteLike (id : string)
| UpdateLike (id : string) (is_like : bool)
| InsertLike (news_id user_id : string) (is_like : bool)
| InsertComment (news_id : string) (user_name text : JsString.t).

(** The request [handleLikeAction] waits for after the lookup. *)
Inductive Pending := AwaitDelete | AwaitWrite.

Definition reactionOfBool (isLike : bool) : DetailAuth.Reaction :=
  if isLike then DetailAuth.like else DetailAuth.dislike.

Section Page.
Variable id : option string.
Variable userId : option string.
Variable user : option UserProfile.User.

Definition handleLikeAction_begin
    (p : DetailAuth.State * Form) : (DetailAuth.State * Form) * list Mutation :=
  match id, userId with
  | Some i, Some u =>
      if falsy_string id then (p, [])
      else if falsy_string userId
      then ((DetailAuth.setError
               (Some "Please sign in to react to this article."%string) p.1, p.2), [])
      else ((DetailAuth.setError None p.1, setIsLiking true p.2), [SelectLike i u])
  | Some i, None =>
      if falsy_string id then (p, [])
      else ((DetailAuth.setError
               (Some "Please sign in to react to this article."%string) p.1, p.2), [])
  | None, _ => (p, [])
  end.

Definition handleLikeAction_lookup (isLike : bool)
    (r : Response (option ExistingLike)) (p : DetailAuth.State * Form)
    : (DetailAuth.State * Form) * option Pending * list Mutation :=
  match r, id, userId with
  | Failure message, _, _ =>
      ((DetailAuth.setError (Some message) p.1, setIsLiking false p.2), None, [])
  | Success (Some existing), _, _ =>
      if strict_eq (existing_is_like existing) (Bool isLike)
      then (p, Some AwaitDelete, [DeleteLike (existing_id existing)])
      else (p, Some AwaitWrite, [UpdateLike (existing_id existing) isLike])
  | Success None, Some i, Some u => (p, Some AwaitWrite, [InsertLike i u isLike])
  | Success None, _, _ => (p, None, [])
  end.

Definition handleLikeAction_deleted (r : Response ())
    (p : DetailAuth.State * Form) : DetailAuth.State * Form :=
  match r with
  | Failure message => (DetailAuth.setError (Some message) p.1, setIsLiking false p.2)
  | Success _ => (DetailAuth.setUserReaction None p.1, setIsLiking false p.2)
  end.

Definition handleLikeAction_written (isLike : bool) (r : Response ())
    (p : DetailAuth.State * Form) : DetailAuth.State * Form :=
  match r with
  | Failure message => (DetailAuth.setError (Some message) p.1, setIsLiking false p.2)
  | Success _ =>
      (DetailAuth.setUserReaction (Some (reactionOfBool isLike)) p.1,
       setIsLiking false p.2)
  end.

(** The whole function when nothing else runs between its phases: the
    responses of the lookup and of the write are given. *)
Definition handleLikeAction (isLike : bool)
    (lookup : Response (option ExistingLike)) (write : Response ())
    (p : DetailAuth.State * Form) : (DetailAuth.State * Form) * list Mutation :=
  let '(p1, out1) := handleLikeAction_begin p in
  match out1 with
  | [] => (p1, [])
  | _ =>
      let '(p2, pending, out2) := handleLikeAction_lookup isLike lookup p1 in
      match pending with
      | None => (p2, out1 ++ out2)
      | Some AwaitDelete => (handleLikeAction_deleted write p2, out1 ++ out2)
      | Some AwaitWrite => (handleLikeAction_written isLike write p2, out1 ++ out2)
      end
  end.

(** [user ? userDisplayName : guestName.trim()]. *)
Definition resolvedName (f : Form) : JsString.t :=
  match user with
  | Some _ => UserProfile.getUserDisplayName user UserProfile.anonymous
  | None => JsString.trim (guestName f)
  end.

Definition handleCommentSubmit_begin
    (p : DetailAuth.State * Form) : (DetailAuth.State * Form) * list Mutation :=
  match id with
  | Some i =>
      if falsy_string id then (p, [])
      else
        let trimmedText := JsString.trim (commentText p.2) in
        if JsString.falsy (resolvedName p.2)
        then ((p.1, setCommentError
                      (Some "Please provide your name to comment."%string) p.2), [])
        else if JsString.falsy trimmedText
        then ((p.1, setCommentError
                      (Some "Please enter a comment before submitting."%string) p.2), [])
        else ((DetailAuth.setIsAwaitingCommentAck true p.1,
               setIsSubmittingComment true (setCommentError None p.2)),
              [InsertComment i (resolvedName p.2) trimmedText])
  | None => (p, [])
  end.

(** The response of [insert(...).select(...).single()]: the inserted row. *)
Definition handleCommentSubmit_resolve (r : Response (option NewsComment.t))
    (p : DetailAuth.State * Form) : DetailAuth.State * Form :=
  match r with
  | Failure message =>
      (DetailAuth.setPendingCommentId None
         (DetailAuth.setIsAwaitingCommentAck false p.1),
       setIsSubmittingComment false (setCommentError (Some message) p.2))
  | Success (Some inserted) =>
      (DetailAuth.setComments (upsertComment inserted)
         (DetailAuth.setPendingCommentId (NewsComment.id inserted) p.1),
       setIsSubmittingComment false
         (match user with
          | Some _ => setCommentText [] p.2
          | None => setCommentText [] (setGuestName [] p.2)
          end))
  | Success None => (p.1, setIsSubmittingComment false p.2)
  end.


End Page.
End AuthForms.

(** The number of view-increment calls among the requests of the signed-in
    page, and how many it may still send. *)
Definition isInvoke (r : DetailAuth.Request) : bool :=
  match r with DetailAuth.InvokeIncrementView _ => true | _ => false end.

Definition authViewIncrements (requests : list DetailAuth.Request) : nat :=
  length (filter (λ r, isInvoke r = true) requests).

Definition authBudget (s : DetailAuth.State) : nat :=
  if DetailAuth.hasIncrementedView s then 0%nat else 1%nat.

(** * Properties *)

(** ** Number arithmetic *)

Section Numbers.
Import JsNumber.

(** Integers of magnitude up to 2^53 are Numbers. *)
Lemma roundTiesToEven_exact z :
  - limit ≤ z ≤ limit → roundTiesToEven z = z.
Proof.
  unfold limit. intros Hz.
  destruct (decide (Z.abs z = 2 ^ 53)) as [Heq|Hne].
  - assert (z = 2 ^ 53 ∨ z = - 2 ^ 53) as [-> | ->] by lia; reflexivity.
  - unfold roundTiesToEven.
    assert (Z.log2 (Z.abs z) < 53) as Hlog.
    { destruct (decide (Z.abs z = 0)) as [->|Hnz]; [done|].
      apply Z.log2_lt_pow2; lia. }
    destruct (Z.leb_spec (Z.log2 (Z.abs z) - 52) 0); [done|lia].
Qed.

(** Below 2^53 adding 1 is exact. *)
Lemma add_one_exact x :
  - limit ≤ x < limit → add x 1 = x + 1.
Proof. intros Hx. unfold add. apply roundTiesToEven_exact. lia. Qed.

(** At 2^53 it is not: 2^53 + 1 lies midway between two doubles and rounds
    back to 2^53. *)
Lemma add_one_limit : add limit 1 = limit.
Proof. reflexivity. Qed.

End Numbers.

(** ** Sorting *)

Section Sorting.
Implicit Types (c d : NewsComment.t) (l : list NewsComment.t).

Lemma insertByDate_perm c l : insertByDate c l ≡ₚ c :: l.
Proof.
  induction l as [|d l IH]; simpl; [done|].
  case_match; [done|]. rewrite IH. apply Permutation_swap.
Qed.

Lemma sortCommentsByDate_perm l : sortCommentsByDate l ≡ₚ l.
Proof.
  induction l as [|c l IH]; simpl; [done|].
  rewrite insertByDate_perm. by f_equiv.
Qed.

Lemma insertByDate_sorted c l :
  StronglySorted byDate l → StronglySorted byDate (insertByDate c l).
Proof.
  induction 1 as [|d l Hs IH Hd]; simpl.
  - repeat constructor.
  - destruct (Z.leb_spec (NewsComment.created_at c) (NewsComment.created_at d)).
    + constructor; [by constructor|].
      constructor; [done|].
      eapply Forall_impl; [exact Hd|]. unfold byDate. intros; lia.
    + constructor; [done|].
      rewrite insertByDate_perm. constructor; [|done]. unfold byDate; lia.
Qed.

Lemma sortCommentsByDate_sorted l : StronglySorted byDate (sortCommentsByDate l).
Proof.
  induction l; simpl; [constructor|]. by apply insertByDate_sorted.
Qed.

(** Stability: comments with the same timestamp keep their input order. *)
Lemma insertByDate_stable t c l :
  filter (λ d, NewsComment.created_at d = t) (insertByDate c l)
  = filter (λ d, NewsComment.created_at d = t) (c :: l).
Proof.
  induction l as [|d l IH]; simpl; [done|].
  destruct (Z.leb_spec (NewsComment.created_at c) (NewsComment.created_at d)); [done|].
  rewrite filter_cons, IH, !filter_cons.
  repeat case_decide; try done; lia.
Qed.

Lemma sortCommentsByDate_stable t l :
  filter (λ d, NewsComment.created_at d = t) (sortCommentsByDate l)
  = filter (λ d, NewsComment.created_at d = t) l.
Proof.
  induction l as [|c l IH]; simpl; [done|].
  rewrite insertByDate_stable, !filter_cons, IH. done.
Qed.

Lemma filter_sorted (P : NewsComment.t → Prop) `{!∀ c, Decision (P c)} l :
  StronglySorted byDate l → StronglySorted byDate (filter P l).
Proof.
  induction 1 as [|c l Hs IH Hc]; [constructor|].
  rewrite filter_cons. case_decide; [|done].
  constructor; [done|].
  apply Forall_forall. intros d [_ Hd]%list_elem_of_filter.
  rewrite Forall_forall in Hc. by apply Hc.
Qed.

Lemma insertByDate_head_le c l :
  StronglySorted byDate l →
  Forall (λ d, NewsComment.created_at c ≤ NewsComment.created_at d) l →
  insertByDate c l = c :: l.
Proof.
  destruct l as [|d l]; simpl; [done|].
  intros _ Hall. apply Forall_cons in Hall as [Hle _].
  apply Z.leb_le in Hle. by rewrite Hle.
Qed.

(** Filtering commutes with insertion into a sorted list. *)
Lemma insertByDate_filter (P : NewsComment.t → Prop) `{!∀ c, Decision (P c)} c l :
  StronglySorted byDate l →
  filter P (insertByDate c l)
  = if decide (P c) then insertByDate c (filter P l) else filter P l.
Proof.
  induction 1 as [|d l Hs IH Hd]; simpl.
  - rewrite filter_cons. by case_decide.
  - destruct (Z.leb_spec (NewsComment.created_at c) (NewsComment.created_at d)) as [Hle|Hlt].
    + rewrite !filter_cons.
      destruct (decide (P c)), (decide (P d)); simpl; try done.
      * apply Z.leb_le in Hle. by rewrite Hle.
      * symmetry. apply insertByDate_head_le.
        { by apply filter_sorted. }
        apply Forall_forall. intros e [_ He]%list_elem_of_filter.
        rewrite Forall_forall in Hd. specialize (Hd e He). unfold byDate in Hd. lia.
    + rewrite !filter_cons, IH.
      destruct (decide (P c)), (decide (P d)); simpl; try done.
      destruct (Z.leb_spec (NewsComment.created_at c) (NewsComment.created_at d)); [lia|done].
Qed.

Lemma sortCommentsByDate_filter (P : NewsComment.t → Prop) `{!∀ c, Decision (P c)} l :
  filter P (sortCommentsByDate l) = sortCommentsByDate (filter P l).
Proof.
  induction l as [|c l IH]; simpl; [done|].
  rewrite insertByDate_filter by apply sortCommentsByDate_sorted.
  rewrite filter_cons, IH. by case_decide.
Qed.

(** Two insertions commute when the timestamps differ. *)
Lemma insertByDate_comm c d l :
  NewsComment.created_at d < NewsComment.created_at c →
  insertByDate d (insertByDate c l) = insertByDate c (insertByDate d l).
Proof.
  intros Hlt. induction l as [|e l IH]; simpl.
  - destruct (Z.leb_spec (NewsComment.created_at d) (NewsComment.created_at c)),
      (Z.leb_spec (NewsComment.created_at c) (NewsComment.created_at d)); done || lia.
  - destruct (Z.leb_spec (NewsComment.created_at c) (NewsComment.created_at e)),
      (Z.leb_spec (NewsComment.created_at d) (NewsComment.created_at e)); simpl;
    repeat match goal with
      | |- context [?a <=? ?b] => destruct (Z.leb_spec a b)
      end; try lia; try done.
    by rewrite IH.
Qed.

(** Sorting a list whose front part is already inserted in place. *)
Lemma sortCommentsByDate_insert_app c l1 l2 :
  sortCommentsByDate (insertByDate c l1 ++ l2)
  = insertByDate c (sortCommentsByDate (l1 ++ l2)).
Proof.
  induction l1 as [|d l1 IH]; simpl; [done|].
  destruct (Z.leb_spec (NewsComment.created_at c) (NewsComment.created_at d)); simpl; [done|].
  rewrite IH. by apply insertByDate_comm.
Qed.

Lemma sortCommentsByDate_sort_app l1 l2 :
  sortCommentsByDate (sortCommentsByDate l1 ++ l2) = sortCommentsByDate (l1 ++ l2).
Proof.
  induction l1 as [|c l1 IH]; simpl; [done|].
  by rewrite sortCommentsByDate_insert_app, IH.
Qed.

Lemma sortCommentsByDate_id l :
  StronglySorted byDate l → sortCommentsByDate l = l.
Proof.
  induction 1 as [|c l Hs IH Hc]; simpl; [done|].
  rewrite IH. by apply insertByDate_head_le.
Qed.

End Sorting.

(** ** The comment list *)

Section Comments.
Implicit Types (n o : NewsComment.t) (l : list NewsComment.t).

Lemma upsertComment_sorted n l : StronglySorted byDate (upsertComment n l).
Proof. apply sortCommentsByDate_sorted. Qed.

Lemma removeComment_sorted o l :
  StronglySorted byDate l → StronglySorted byDate (removeComment o l).
Proof. apply filter_sorted; apply _. Qed.

Lemma commentIds_filter_NoDup (P : NewsComment.t → Prop) `{!∀ c, Decision (P c)} l :
  NoDup (commentIds l) → NoDup (commentIds (filter P l)).
Proof.
  unfold commentIds. intros Hl.
  eapply sublist_NoDup; [exact Hl|].
  apply fmap_sublist, sublist_filter.
Qed.

Lemma upsertComment_NoDup n l :
  NoDup (commentIds l) → NoDup (commentIds (upsertComment n l)).
Proof.
  intros Hl. unfold upsertComment, commentIds.
  rewrite sortCommentsByDate_perm, fmap_app. simpl.
  apply NoDup_app. split_and!.
  - by apply commentIds_filter_NoDup.
  - intros i [c [-> [Hc _]%list_elem_of_filter]]%list_elem_of_fmap.
    rewrite list_elem_of_singleton. done.
  - apply NoDup_singleton.
Qed.

Lemma removeComment_NoDup o l :
  NoDup (commentIds l) → NoDup (commentIds (removeComment o l)).
Proof. apply commentIds_filter_NoDup; apply _. Qed.

(** After an upsert the identifier occurs exactly once, whatever the list was. *)
Lemma upsertComment_once n l :
  filter (λ c, NewsComment.id c = NewsComment.id n) (upsertComment n l) = [n].
Proof.
  unfold upsertComment.
  rewrite sortCommentsByDate_filter by apply _.
  rewrite filter_app, list_filter_filter.
  rewrite (filter_cons _ n), decide_True by done. simpl.
  replace (filter _ l) with (@nil NewsComment.t); [done|].
  symmetry. induction l as [|c l IH]; [done|].
  rewrite filter_cons. case_decide; [tauto|done].
Qed.

Lemma upsertComment_idemp n l :
  upsertComment n (upsertComment n l) = upsertComment n l.
Proof.
  unfold upsertComment at 1. unfold upsertComment at 1.
  rewrite sortCommentsByDate_filter by apply _.
  rewrite filter_app, list_filter_filter.
  rewrite (filter_cons _ n), decide_False by tauto.
  rewrite app_nil_r, sortCommentsByDate_sort_app.
  unfold upsertComment. do 2 f_equal.
  apply list_filter_iff. tauto.
Qed.

Lemma removeComment_idemp o l :
  removeComment o (removeComment o l) = removeComment o l.
Proof.
  unfold removeComment. rewrite list_filter_filter.
  apply list_filter_iff. tauto.
Qed.

End Comments.

(** ** The guest page *)

Section GuestPage.
Import Detail.
Variable id : option string.
Implicit Types (s : State).

Lemma state_eta s :
  {| newsItem := newsItem s; comments := comments s; likesCount := likesCount s;
     dislikesCount := dislikesCount s; viewCount := viewCount s;
     loading := loading s; error := error s;
     hasIncrementedView := hasIncrementedView s |} = s.
Proof. by destruct s. Qed.

(** The comment handler changes the list and nothing else. *)
Lemma handleCommentChange_commentUpdate payload s :
  handleCommentChange id payload s = (setComments (commentUpdate id payload) s, []).
Proof.
  unfold handleCommentChange, commentUpdate, commentTarget.
  destruct (discarded _ _); [by rewrite <- (state_eta s) at 1|].
  destruct (eventType payload), (new payload), (old payload);
    try done; by rewrite <- (state_eta s) at 1.
Qed.

Lemma commentUpdate_sorted payload l :
  StronglySorted byDate l → StronglySorted byDate (commentUpdate id payload l).
Proof.
  intros Hl. unfold commentUpdate.
  destruct (discarded _ _); [done|].
  destruct (eventType payload), (new payload), (old payload);
    auto using upsertComment_sorted, removeComment_sorted, SSorted_nil.
Qed.

Lemma commentUpdate_NoDup payload l :
  NoDup (commentIds l) → NoDup (commentIds (commentUpdate id payload l)).
Proof.
  intros Hl. unfold commentUpdate.
  destruct (discarded _ _); [done|].
  destruct (eventType payload), (new payload), (old payload);
    auto using upsertComment_NoDup, removeComment_NoDup, NoDup_nil_2.
Qed.

Lemma commentUpdate_idemp payload l :
  commentUpdate id payload (commentUpdate id payload l) = commentUpdate id payload l.
Proof.
  unfold commentUpdate.
  destruct (discarded _ _); [done|].
  destruct (eventType payload), (new payload), (old payload);
    auto using upsertComment_idemp, removeComment_idemp.
Qed.

Lemma foldComments_cons payload events s :
  foldComments id (payload :: events) s
  = foldComments id events (setComments (commentUpdate id payload) s).
Proof.
  unfold foldComments. simpl.
  rewrite handleCommentChange_commentUpdate.
  by destruct (run id _ _).
Qed.

(** *** Events for another article *)

(** C3.  A change event of any of the three relations whose embedded article
    identifier differs from the viewed article's leaves the whole local state
    as it was and sends nothing. *)
Theorem foreign_event_discarded (e : Step) (target : option string) s :
  eventTarget e = Some target →
  target ≠ id →
  step id e s = (s, []).
Proof.
  intros He Hne.
  assert (discarded target id = true) as Hd.
  { unfold discarded. rewrite bool_decide_eq_false_2 by done.
    apply orb_true_r. }
  destruct e; simplify_eq/=;
    unfold handleLikeChange, handleCommentChange, handleViewChange;
    unfold likeTarget, commentTarget, viewTarget in Hd; by rewrite Hd.
Qed.

(** *** Reaction counters *)

Lemma step_nonneg (e : Step) s : nonneg s → nonneg (step id e s).1.
Proof.
  unfold nonneg. intros [Hl Hd].
  destruct e as [|r| |n r|p|p|p]; simpl.
  - unfold fetchDetails_begin. destruct id; [|done]. by case_match.
  - destruct r as [|[data|]]; simpl; [done| |done].
    unfold initialLikes, initialDislikes. lia.
  - unfold incrementView_begin. destruct id; [|done]. by case_match.
  - by destruct r as [|[[? [c|]]|]].
  - unfold handleLikeChange. case_match; [done|].
    destruct (eventType p), (new p), (old p); simpl;
      repeat case_match; simpl; try lia;
      unfold fetchDetails_begin in *; repeat case_match; simplify_eq/=; lia.
  - by rewrite handleCommentChange_commentUpdate.
  - unfold handleViewChange. repeat case_match; done.
Qed.

Lemma trace_nonneg (es : list Step) s :
  nonneg s → Forall nonneg (trace id es s).
Proof.
  revert s. induction es as [|e es IH]; intros s Hs; simpl; [done|].
  constructor; [by apply step_nonneg|]. by apply IH, step_nonneg.
Qed.

(** C4.  Folding any sequence of reaction events, deletes without a matching
    insert included, from counters that are not negative: after every event
    both counters are still at least 0. *)
Theorem counters_never_negative (events : list (Payload LikeRecord.t)) s :
  0 ≤ likesCount s →
  0 ≤ dislikesCount s →
  Forall (λ s', 0 ≤ likesCount s' ∧ 0 ≤ dislikesCount s') (traceLikes id events s).
Proof. intros Hl Hd. by apply trace_nonneg. Qed.

(** *** Comments *)

Lemma foldComments_sorted events s :
  StronglySorted byDate (comments s) →
  StronglySorted byDate (comments (foldComments id events s)).
Proof.
  revert s. induction events as [|p events IH]; intros s Hs; [done|].
  rewrite foldComments_cons. apply IH. simpl. by apply commentUpdate_sorted.
Qed.

Lemma foldComments_NoDup events s :
  NoDup (commentIds (comments s)) →
  NoDup (commentIds (comments (foldComments id events s))).
Proof.
  revert s. induction events as [|p events IH]; intros s Hs; [done|].
  rewrite foldComments_cons. apply IH. simpl. by apply commentUpdate_NoDup.
Qed.

(** C5, as amended.  Starting from a comment list that is sorted by creation
    timestamp and has no two entries with the same identifier, the list after
    any sequence of comment events is sorted ascending by creation timestamp
    and has no two entries with the same identifier. *)
Theorem comments_sorted_and_unique (events : list (Payload NewsComment.t)) s :
  StronglySorted byDate (comments s) →
  NoDup (commentIds (comments s)) →
  StronglySorted byDate (comments (foldComments id events s))
  ∧ NoDup (commentIds (comments (foldComments id events s))).
Proof. intros Hs Hd. split; [by apply foldComments_sorted|by apply foldComments_NoDup]. Qed.

(** Redelivery of a comment event of any kind changes nothing. *)
Lemma comment_event_idempotent (payload : Payload NewsComment.t) s :
  comments (foldComments id [payload; payload] s)
  = comments (foldComments id [payload] s).
Proof. rewrite !foldComments_cons. simpl. apply commentUpdate_idemp. Qed.

(** C6.  Delivering the same comment insert event twice leaves the same
    comment list, entry for entry and in the same order, as delivering it
    once. *)
Theorem comment_insert_idempotent (payload : Payload NewsComment.t) s :
  eventType payload = INSERT →
  comments (foldComments id [payload; payload] s)
  = comments (foldComments id [payload] s).
Proof. intros _. apply comment_event_idempotent. Qed.

(** *** The snapshot *)

(** C10.  When the snapshot query fails, [fetchDetails] as a whole (the part
    before the request, then the error branch) records the error message and
    stops loading; the article, the comments, both reaction counters and the
    view counter are what they were before the call. *)
Theorem fetch_error_keeps_state (message : string) s :
  let s1 := (fetchDetails_begin id s).1 in
  let s2 := fetchDetails_resolve (Failure message) s1 in
  error s2 = Some message
  ∧ loading s2 = false
  ∧ newsItem s2 = newsItem s
  ∧ comments s2 = comments s
  ∧ likesCount s2 = likesCount s
  ∧ dislikesCount s2 = dislikesCount s
  ∧ viewCount s2 = viewCount s.
Proof.
  unfold fetchDetails_begin. destruct id as [i|]; [|done].
  by destruct (falsy_string _).
Qed.

(** The same holds when the rest of the event loop ran between the request
    and its failure: the error branch itself touches [error] and [loading]
    only. *)
Lemma fetch_error_resolve (message : string) s :
  fetchDetails_resolve (Failure message) s
  = setLoading false (setError (Some message) s).
Proof. done. Qed.

(** A null-polarity row is counted by neither tally of the snapshot. *)
Lemma snapshot_skips_null (r : LikeRecord.t) (rows : list LikeRecord.t) :
  LikeRecord.is_like r = Null →
  initialLikes (r :: rows) = initialLikes rows
  ∧ initialDislikes (r :: rows) = initialDislikes rows.
Proof.
  intros Hr. unfold initialLikes, initialDislikes.
  rewrite !filter_cons, Hr. by repeat case_decide.
Qed.

(** C9.  For the viewed article, an INSERT event whose row has a null
    polarity adds 1 to the dislike counter and leaves the like counter, while
    a snapshot counts such a row in neither tally: its counters are those of
    the other rows. *)
Theorem null_polarity_stream_vs_snapshot
    (article : string) (payload : Payload LikeRecord.t) (r : LikeRecord.t)
    (rows : list LikeRecord.t) (data : NewsData.t) s :
  id = Some article →
  article ≠ EmptyString →
  eventType payload = INSERT →
  new payload = Some r →
  LikeRecord.news_id r = Some article →
  LikeRecord.is_like r = Null →
  NewsData.likes data = Some (r :: rows) →
  let streamed := (handleLikeChange id payload s).1 in
  let fetched := fetchDetails_resolve (Success (Some data)) s in
  dislikesCount streamed = dislikesCount s + 1
  ∧ likesCount streamed = likesCount s
  ∧ dislikesCount fetched = initialDislikes rows
  ∧ likesCount fetched = initialLikes rows.
Proof.
  intros Hid Ha He Hn Hr Hl Hd. simpl.
  unfold handleLikeChange. rewrite He, Hn. simpl. rewrite Hr, Hid. simpl.
  unfold discarded. simpl.
  rewrite bool_decide_eq_false_2 by done.
  rewrite bool_decide_eq_true_2 by done. simpl.
  rewrite Hl, Hd. simpl.
  destruct (snapshot_skips_null r rows Hl) as [-> ->]. done.
Qed.

(** *** The view-increment request *)

Lemma fetchDetails_begin_increments s :
  hasIncrementedView (fetchDetails_begin id s).1 = hasIncrementedView s
  ∧ viewIncrements (fetchDetails_begin id s).2 = 0%nat.
Proof.
  unfold fetchDetails_begin. destruct id; [|done]. by destruct (falsy_string _).
Qed.

Lemma handleLikeChange_increments payload s :
  hasIncrementedView (handleLikeChange id payload s).1 = hasIncrementedView s
  ∧ viewIncrements (handleLikeChange id payload s).2 = 0%nat.
Proof.
  unfold handleLikeChange. destruct (discarded _ _); [done|].
  destruct (eventType payload), (new payload), (old payload);
    repeat case_match; try done; apply fetchDetails_begin_increments.
Qed.

Lemma handleViewChange_increments payload s :
  hasIncrementedView (handleViewChange id payload s).1 = hasIncrementedView s
  ∧ viewIncrements (handleViewChange id payload s).2 = 0%nat.
Proof. unfold handleViewChange. by repeat case_match. Qed.

Lemma step_budget (e : Step) s :
  (viewIncrements (step id e s).2 + budget (step id e s).1 ≤ budget s)%nat.
Proof.
  unfold budget. destruct e as [|r| |n r|p|p|p]; simpl.
  - destruct (fetchDetails_begin_increments s) as [-> ->]. simpl. lia.
  - destruct r as [|[data|]]; simpl; lia.
  - unfold incrementView_begin. destruct id; [|done].
    destruct (falsy_string _), (loading s), (hasIncrementedView s) eqn:Hf;
      simpl; rewrite ?Hf; lia.
  - destruct r as [|[[? [c|]]|]]; simpl; lia.
  - destruct (handleLikeChange_increments p s) as [-> ->]. simpl. lia.
  - rewrite handleCommentChange_commentUpdate. simpl. lia.
  - destruct (handleViewChange_increments p s) as [-> ->]. simpl. lia.
Qed.

Lemma viewIncrements_app (out1 out2 : list Request) :
  viewIncrements (out1 ++ out2) = (viewIncrements out1 + viewIncrements out2)%nat.
Proof. unfold viewIncrements. by rewrite filter_app, length_app. Qed.

Lemma run_budget (es : list Step) s :
  (viewIncrements (run id es s).2 + budget (run id es s).1 ≤ budget s)%nat.
Proof.
  revert s. induction es as [|e es IH]; intros s; simpl; [lia|].
  pose proof (step_budget e s) as He.
  destruct (step id e s) as [s1 out1]. specialize (IH s1).
  destruct (run id es s1) as [s2 out2]. simpl in *.
  rewrite viewIncrements_app. lia.
Qed.

Lemma incrementView_begin_count s0 s1 article nextCount :
  incrementView_begin id s0 = (s1, [UpsertView article nextCount]) →
  nextCount = JsNumber.add (viewCount s0) 1 ∧ viewCount s1 = viewCount s0.
Proof.
  unfold incrementView_begin. destruct id; [|done].
  destruct (_ || _); intros ?; by simplify_eq.
Qed.

(** C8, as amended.  While the article identifier stays the same, whatever
    the page does (re-renders, stream events, responses), it sends at most
    one view-increment request.  A response that carries a count replaces
    [viewCount] by it.  A response without a count sets [viewCount] to the
    count the request carried, whatever the stream delivered between the
    request and the response.  That count is the Number sum of 1 and the
    [viewCount] read when the request was sent: that value plus 1 as long as
    it lies below 2^53. *)
Theorem view_increment_once (es : list Step) s :
  (viewIncrements (run id es s).2 ≤ 1)%nat
  ∧ (∀ nextCount row count s',
       ViewRecord.count row = Some count →
       viewCount (incrementView_resolve nextCount (Success (Some row)) s') = count)
  ∧ (∀ s0 s1 article nextCount between data,
       incrementView_begin id s0 = (s1, [UpsertView article nextCount]) →
       data ≫= ViewRecord.count = None →
       viewCount (incrementView_resolve nextCount (Success data) (run id between s1).1)
       = nextCount
       ∧ nextCount = JsNumber.add (viewCount s0) 1
       ∧ (- JsNumber.limit ≤ viewCount s0 < JsNumber.limit →
          nextCount = viewCount s0 + 1)).
Proof.
  split_and!.
  - pose proof (run_budget es s). unfold budget in *.
    destruct (hasIncrementedView s); lia.
  - intros n row c s' Hc. simpl. by rewrite Hc.
  - intros s0 s1 a n between data Hb Hd.
    destruct (incrementView_begin_count _ _ _ _ Hb) as [-> _].
    split_and!; [simpl; by rewrite Hd|done|apply add_one_exact].
Qed.

(** With nothing in between, the count of the fallback is the Number sum of
    1 and the value just before the response. *)
Lemma view_increment_fallback_prompt s0 s1 article nextCount data :
  incrementView_begin id s0 = (s1, [UpsertView article nextCount]) →
  data ≫= ViewRecord.count = None →
  viewCount (incrementView_resolve nextCount (Success data) s1)
  = JsNumber.add (viewCount s1) 1.
Proof.
  intros Hb Hd. destruct (incrementView_begin_count _ _ _ _ Hb) as [-> ->].
  simpl. by rewrite Hd.
Qed.

(** The request is sent at the first render after loading has finished. *)
Lemma view_increment_sent (article : string) s :
  id = Some article → article ≠ EmptyString →
  loading s = false → hasIncrementedView s = false →
  incrementView_begin id s
  = (setHasIncrementedView true s,
     [UpsertView article (JsNumber.add (viewCount s) 1)]).
Proof.
  intros -> Ha Hl Hf. unfold incrementView_begin. simpl.
  by rewrite bool_decide_eq_false_2, Hl, Hf.
Qed.

End GuestPage.

(** ** Reaction counters against the [likes] relation *)

Section LiveRows.
Import Detail.
Variable article : string.
Hypothesis article_nonempty : article ≠ EmptyString.
Implicit Types (table : gmap string Likes.Row) (row : Likes.Row) (s : State).

Lemma live_insert polarity i row table :
  table !! i = None →
  Likes.live article polarity (<[i:=row]> table)
  = Likes.live article polarity table + counted article polarity row.
Proof.
  intros Hi. unfold Likes.live, counted.
  rewrite map_filter_insert. simpl. case_decide.
  - rewrite map_size_insert_None; [lia|].
    apply map_lookup_filter_None. by left.
  - rewrite delete_id by done. lia.
Qed.

Lemma live_delete polarity i row table :
  table !! i = Some row →
  Likes.live article polarity (delete i table) + counted article polarity row
  = Likes.live article polarity table.
Proof.
  intros Hi.
  rewrite <- (insert_delete_id table i row) at 2 by done.
  rewrite live_insert by apply lookup_delete_eq. done.
Qed.

Lemma live_update polarity i row row' table :
  table !! i = Some row →
  Likes.live article polarity (<[i:=row']> table) + counted article polarity row
  = Likes.live article polarity table + counted article polarity row'.
Proof.
  intros Hi. rewrite <- (live_delete polarity i row table Hi).
  rewrite <- insert_delete_eq.
  rewrite live_insert by apply lookup_delete_eq. lia.
Qed.

Lemma live_nonneg polarity table : 0 ≤ Likes.live article polarity table.
Proof. unfold Likes.live. lia. Qed.

Lemma discarded_image row :
  discarded (Some (Likes.news_id row)) (Some article)
  = negb (bool_decide (Likes.news_id row = article)).
Proof.
  unfold discarded. simpl.
  destruct (decide (Likes.news_id row = article)) as [->|Hne].
  - rewrite (bool_decide_eq_false_2 (article = EmptyString)) by done.
    by rewrite !bool_decide_eq_true_2 by done.
  - rewrite (bool_decide_eq_false_2 (Some _ = Some _)) by congruence.
    rewrite (bool_decide_eq_false_2 (_ = article)) by done.
    apply orb_true_r.
Qed.

(** One committed change, folded: the counters follow the relation. *)
Lemma commit_agrees (c : Likes.Change) table table' event s :
  Likes.commit c table = Some (table', event) →
  agrees article table s →
  agrees article table' (handleLikeChange (Some article) event s).1.
Proof.
  unfold agrees. intros Hc [Hl Hd].
  destruct c as [i row|i b|i]; simpl in Hc;
    destruct (table !! i) as [row0|] eqn:Hi; simplify_eq/=.
  - (* insert *)
    pose proof (live_insert true i row table Hi) as Ht.
    pose proof (live_insert false i row table Hi) as Hf.
    unfold handleLikeChange; simpl. rewrite discarded_image by done.
    unfold counted in *. destruct row as [a [|]]; simpl in *;
      repeat case_decide; repeat case_bool_decide; simpl;
      destruct_and?; simplify_eq/=; try tauto; lia.
  - (* update *)
    pose proof (live_update true i row0
      {| Likes.news_id := Likes.news_id row0; Likes.is_like := b |} table Hi) as Ht.
    pose proof (live_update false i row0
      {| Likes.news_id := Likes.news_id row0; Likes.is_like := b |} table Hi) as Hf.
    pose proof (live_nonneg true (<[i:={| Likes.news_id := Likes.news_id row0; Likes.is_like := b |}]> table)).
    pose proof (live_nonneg false (<[i:={| Likes.news_id := Likes.news_id row0; Likes.is_like := b |}]> table)).
    unfold handleLikeChange; simpl. rewrite discarded_image by done.
    unfold counted, strict_eq in *. destruct row0 as [a [|]], b; simpl in *;
      repeat case_decide; repeat case_bool_decide; simpl;
      destruct_and?; simplify_eq/=; try tauto; lia.
  - (* delete *)
    pose proof (live_delete true i row0 table Hi) as Ht.
    pose proof (live_delete false i row0 table Hi) as Hf.
    pose proof (live_nonneg true (delete i table)).
    pose proof (live_nonneg false (delete i table)).
    unfold handleLikeChange; simpl. rewrite discarded_image by done.
    unfold counted in *. destruct row0 as [a [|]]; simpl in *;
      repeat case_decide; repeat case_bool_decide; simpl;
      destruct_and?; simplify_eq/=; try tauto; lia.
Qed.

Lemma foldLikes_cons event events s :
  foldLikes (Some article) (event :: events) s
  = foldLikes (Some article) events (handleLikeChange (Some article) event s).1.
Proof.
  unfold foldLikes. simpl.
  destruct (handleLikeChange _ _ _) as [s1 out1]. by destruct (run _ _ _).
Qed.

Lemma history_agrees (changes : list Likes.Change) table table' events s :
  Likes.history changes table = Some (table', events) →
  agrees article table s →
  agrees article table' (foldLikes (Some article) events s).
Proof.
  revert table events s.
  induction changes as [|c changes IH]; intros table events s Hh Hs; simpl in Hh.
  - by simplify_eq.
  - destruct (Likes.commit c table) as [[table1 event]|] eqn:Hc; [|done].
    simpl in Hh.
    destruct (Likes.history changes table1) as [[table2 events2]|] eqn:Hh2; [|done].
    simplify_eq/=. rewrite foldLikes_cons.
    eapply IH; [done|]. by eapply commit_agrees.
Qed.

Lemma agrees_empty s :
  likesCount s = 0 → dislikesCount s = 0 → agrees article ∅ s.
Proof.
  intros Hl Hd. unfold agrees, Likes.live.
  by rewrite !map_filter_empty, map_size_empty.
Qed.

(** C2.  Let the reaction rows change by any sequence of inserts, updates
    and deletes in which every identifier is inserted before it is updated or
    deleted and is never live twice, each change being published exactly
    once.  Folding the published events from zero counters leaves
    [likesCount] and [dislikesCount] equal to the number of live rows of the
    viewed article whose polarity is like, respectively dislike. *)
Theorem counters_match_live_rows
    (changes : list Likes.Change) table (events : list (Payload LikeRecord.t)) s :
  likesCount s = 0 →
  dislikesCount s = 0 →
  Likes.history changes ∅ = Some (table, events) →
  likesCount (foldLikes (Some article) events s) = Likes.live article true table
  ∧ dislikesCount (foldLikes (Some article) events s) = Likes.live article false table.
Proof.
  intros Hl Hd Hh.
  by apply (history_agrees changes ∅ table events s Hh), agrees_empty.
Qed.

End LiveRows.

(** ** Bulk clears and the viewer's own reaction *)

Section BulkClear.
Variable article : string.
Hypothesis article_nonempty : article ≠ EmptyString.

Lemma discarded_article : discarded (Some article) (Some article) = false.
Proof.
  unfold discarded. simpl.
  rewrite bool_decide_eq_false_2 by done.
  by rewrite bool_decide_eq_true_2.
Qed.

(** C1.  The code misses what the claim says.  A bulk clear carries no row,
    so the handler finds no article identifier in it and its guard returns
    before the TRUNCATE branch: whatever the page shows, the event changes
    nothing and starts no re-fetch, be the rows missing or empty objects.  A
    guest page that shows 3 likes and 2 dislikes of the article shows them
    still, and has sent nothing.  The same guard stops the event on the
    signed-in page. *)
Theorem bulk_clear_discarded (id userId : option string) :
  (∀ s, Detail.handleLikeChange id Sample.bulkClear s = (s, []))
  ∧ (∀ s, Detail.handleLikeChange id Sample.bulkClearEmptyRows s = (s, []))
  ∧ (∀ s, DetailAuth.handleLikeChange id userId Sample.bulkClear s = (s, []))
  ∧ (let s := Sample.loaded 3 2 0 [] in
     let after := Detail.handleLikeChange (Some Sample.article) Sample.bulkClear s in
     Detail.likesCount after.1 = 3
     ∧ Detail.dislikesCount after.1 = 2
     ∧ after.2 = []).
Proof. by split_and!. Qed.

(** The TRUNCATE branches themselves, reached only by an event that names
    the viewed article in a row.  The guest page starts a full re-fetch of
    the snapshot and nothing else: both counters keep their values until the
    snapshot arrives and replaces them by its tallies.  The signed-in page
    resets both counters to 0, clears [userReaction] and starts the
    re-fetch. *)
Lemma truncate_triggers_refetch :
  (∀ (payload : Payload Detail.LikeRecord.t) (s : Detail.State),
     eventType payload = TRUNCATE →
     likeTarget payload = Some article →
     Detail.handleLikeChange (Some article) payload s
     = (Detail.setError None (Detail.setLoading true s), [Detail.SelectNews article]))
  ∧ (∀ (data : Detail.NewsData.t) (s : Detail.State),
     let fetched := Detail.fetchDetails_resolve (Success (Some data)) s in
     Detail.likesCount fetched
       = Detail.initialLikes (default [] (Detail.NewsData.likes data))
     ∧ Detail.dislikesCount fetched
       = Detail.initialDislikes (default [] (Detail.NewsData.likes data)))
  ∧ (∀ (userId : option string) (payload : Payload DetailAuth.LikeRecord.t)
       (s : DetailAuth.State),
     eventType payload = TRUNCATE →
     authLikeTarget payload = Some article →
     DetailAuth.fetchDetailsRef s = true →
     let after := DetailAuth.handleLikeChange (Some article) userId payload s in
     DetailAuth.likesCount after.1 = 0
     ∧ DetailAuth.dislikesCount after.1 = 0
     ∧ DetailAuth.userReaction after.1 = None
     ∧ after.2 = [DetailAuth.SelectNews article]).
Proof.
  split_and!.
  - intros payload s He Ht. unfold Detail.handleLikeChange.
    unfold likeTarget in Ht. rewrite Ht, discarded_article, He.
    unfold Detail.fetchDetails_begin. simpl.
    rewrite bool_decide_eq_false_2 by done.
    by destruct (new payload), (old payload).
  - done.
  - intros userId payload s He Ht Hr. unfold DetailAuth.handleLikeChange.
    unfold authLikeTarget in Ht. rewrite Ht, discarded_article, He.
    assert (∀ s', DetailAuth.fetchDetailsRef s' = true →
      DetailAuth.callFetchDetailsRef (Some article) s'
      = (DetailAuth.setError None (DetailAuth.setLoading true s'),
         [DetailAuth.SelectNews article])) as Hcall.
    { intros s' Hs'. unfold DetailAuth.callFetchDetailsRef. rewrite Hs'.
      unfold DetailAuth.fetchDetails_begin. simpl.
      by rewrite bool_decide_eq_false_2. }
    destruct (new payload), (old payload); by rewrite Hcall.
Qed.

(** C7, as amended.  The signed-in page keeps a [userReaction]: an INSERT
    event for the viewed article whose [user_id] is the signed-in viewer's
    sets it to the event's polarity ([dislike] unless [is_like] is true), and
    an event none of whose rows belongs to the viewer never sets it to a
    polarity: it leaves it as it was, or clears it when the event is a
    TRUNCATE. *)
Theorem userReaction_follows_viewer (viewer : string) :
  viewer ≠ EmptyString →
  (∀ (payload : Payload DetailAuth.LikeRecord.t) (row : DetailAuth.LikeRecord.t)
      (s : DetailAuth.State),
     eventType payload = INSERT →
     new payload = Some row →
     DetailAuth.LikeRecord.news_id row = Some article →
     DetailAuth.LikeRecord.user_id row = Some viewer →
     DetailAuth.userReaction
       (DetailAuth.handleLikeChange (Some article) (Some viewer) payload s).1
     = Some (DetailAuth.reactionOf (DetailAuth.LikeRecord.is_like row)))
  ∧ (∀ (id userId : option string) (payload : Payload DetailAuth.LikeRecord.t)
       (s : DetailAuth.State),
     (∀ row, new payload = Some row ∨ old payload = Some row →
             DetailAuth.LikeRecord.user_id row ≠ userId) →
     let s' := (DetailAuth.handleLikeChange id userId payload s).1 in
     DetailAuth.userReaction s' = DetailAuth.userReaction s
     ∨ (eventType payload = TRUNCATE ∧ DetailAuth.userReaction s' = None)).
Proof.
  intros Hv. split.
  - intros payload row s He Hn Ha Hu. unfold DetailAuth.handleLikeChange.
    rewrite He, Hn. simpl. rewrite Ha. simpl. rewrite discarded_article.
    unfold DetailAuth.ownedByViewer. rewrite Hu. simpl.
    rewrite bool_decide_eq_false_2 by done.
    rewrite bool_decide_eq_true_2 by done. simpl.
    by destruct (truthy (DetailAuth.LikeRecord.is_like row)).
  - intros id userId payload s Hrows. simpl.
    assert (∀ row, new payload = Some row ∨ old payload = Some row →
      DetailAuth.ownedByViewer userId (DetailAuth.LikeRecord.user_id row) = false) as Hown.
    { intros row Hrow. unfold DetailAuth.ownedByViewer.
      rewrite (bool_decide_eq_false_2 (_ = userId)) by by apply Hrows.
      apply andb_false_r. }
    unfold DetailAuth.handleLikeChange.
    destruct (discarded _ _); [by left|].
    destruct (eventType payload) eqn:He, (new payload) as [n|] eqn:Hn,
      (old payload) as [o|] eqn:Ho; simpl;
      rewrite ?(Hown n) by auto; rewrite ?(Hown o) by auto;
      repeat case_match; simpl; try (by left);
      right; (split; [done|]);
      unfold DetailAuth.callFetchDetailsRef, DetailAuth.fetchDetails_begin;
      repeat case_match; done.
Qed.

End BulkClear.

(** ** The two pages agree on what they share *)

Section Agreement.
Variable id : option string.
Variable userId : option string.
Implicit Types (s : DetailAuth.State).

(** Reaction events other than a bulk clear move the counters of both pages
    alike. *)
Lemma handleLikeChange_erase (payload : Payload DetailAuth.LikeRecord.t) s :
  eventType payload ≠ TRUNCATE →
  erase (DetailAuth.handleLikeChange id userId payload s).1
  = (Detail.handleLikeChange id (erasePayload payload) (erase s)).1.
Proof.
  intros He. unfold DetailAuth.handleLikeChange, Detail.handleLikeChange.
  destruct payload as [k [n|] [o|]]; simpl in *;
    repeat match goal with
      | |- context [discarded ?t ?i] => destruct (discarded t i)
      end; try done;
    destruct k; try done; simpl;
    repeat case_match; done.
Qed.

Lemma handleCommentChange_erase (payload : Payload NewsComment.t) s :
  erase (DetailAuth.handleCommentChange id payload s).1
  = (Detail.handleCommentChange id payload (erase s)).1.
Proof.
  unfold DetailAuth.handleCommentChange, Detail.handleCommentChange.
  destruct (discarded _ _); [done|].
  destruct (eventType payload), (new payload), (old payload);
    try done; by case_match.
Qed.

Lemma handleViewChange_erase (payload : Payload ViewRecord.t) s :
  erase (DetailAuth.handleViewChange id payload s).1
  = (Detail.handleViewChange id payload (erase s)).1.
Proof.
  unfold DetailAuth.handleViewChange, Detail.handleViewChange.
  by repeat case_match.
Qed.

Lemma filter_eraseLike (P : NullableBool → Prop) `{!∀ v, Decision (P v)}
    (rows : list DetailAuth.LikeRecord.t) :
  length (filter (λ r, P (Detail.LikeRecord.is_like r)) (eraseLike <$> rows))
  = length (filter (λ r, P (DetailAuth.LikeRecord.is_like r)) rows).
Proof.
  induction rows as [|r rows IH]; [done|].
  rewrite fmap_cons, !filter_cons. simpl.
  case_decide; simpl; by rewrite IH.
Qed.

Lemma fetchDetails_resolve_erase (r : Response (option DetailAuth.NewsData.t)) s :
  erase (DetailAuth.fetchDetails_resolve userId r s)
  = Detail.fetchDetails_resolve (eraseResponse r) (erase s).
Proof.
  destruct r as [message|[data|]]; try done. simpl.
  unfold erase, Detail.initialLikes, Detail.initialDislikes. simpl.
  destruct (DetailAuth.NewsData.likes data) as [rows|]; simpl; [|done].
  pose proof (filter_eraseLike (λ v, truthy v = true) rows) as Hlikes.
  pose proof (filter_eraseLike (λ v, v = Bool false) rows) as Hdislikes.
  unfold Detail.setLoading, Detail.setViewCount, Detail.setDislikesCount,
    Detail.setLikesCount, Detail.setComments, Detail.setNewsItem. simpl.
  by rewrite Hlikes, Hdislikes.
Qed.

(** The fallback of the signed-in page adds 1 to the count it finds when the
    response arrives. *)
Lemma incrementViewCount_fallback (data : option DetailAuth.IncrementData) s :
  data ≫= DetailAuth.views = None →
  DetailAuth.viewCount (DetailAuth.incrementViewCount_resolve (Success data) s)
  = JsNumber.add (DetailAuth.viewCount s) 1.
Proof. intros Hd. simpl. by rewrite Hd. Qed.

End Agreement.

(** ** Worked instances *)

Section Instances.
Import Sample.

Lemma foreign_event_discarded_witness :
  let e := Detail.CommentEvent
             {| eventType := INSERT;
                new := Some {| NewsComment.id := Some "c9"%string;
                               NewsComment.news_id := Some "B"%string;
                               NewsComment.user_name := None;
                               NewsComment.text := None;
                               NewsComment.created_at := 5 |};
                old := None |} in
  let s := loaded 3 2 7 [comment "c1" 1] in
  eventTarget e = Some (Some "B"%string)
  ∧ Some "B"%string ≠ Some article
  ∧ Detail.step (Some article) e s = (s, []).
Proof.
  intros e s.
  assert (eventTarget e = Some (Some "B"%string)) as H1 by reflexivity.
  assert (Some "B"%string ≠ Some article) as H2 by (vm_compute; discriminate).
  exact (conj H1 (conj H2
    (foreign_event_discarded (Some article) e (Some "B"%string) s H1 H2))).
Defined.

Lemma counters_never_negative_witness :
  let events := [deleteLike (reaction "r1" (Bool true));
                 deleteLike (reaction "r2" (Bool false));
                 insertLike (reaction "r3" (Bool true))] in
  0 ≤ Detail.likesCount Detail.initial
  ∧ 0 ≤ Detail.dislikesCount Detail.initial
  ∧ Forall (λ s', 0 ≤ Detail.likesCount s' ∧ 0 ≤ Detail.dislikesCount s')
      (traceLikes (Some article) events Detail.initial).
Proof.
  intros events.
  assert (0 ≤ Detail.likesCount Detail.initial) as H1 by (simpl; lia).
  assert (0 ≤ Detail.dislikesCount Detail.initial) as H2 by (simpl; lia).
  exact (conj H1 (conj H2
    (counters_never_negative (Some article) events Detail.initial H1 H2))).
Defined.

(** Deleting before any insert leaves 0, and the insert that follows counts. *)
Example delete_before_insert :
  (λ s, (Detail.likesCount s, Detail.dislikesCount s)) <$>
    traceLikes (Some article)
      [deleteLike (reaction "r1" (Bool true)); deleteLike (reaction "r2" (Bool false));
       insertLike (reaction "r3" (Bool true))] Detail.initial
  = [(0, 0); (0, 0); (1, 0)].
Proof. reflexivity. Qed.

(** C5, as stated, fails: a sorted list that holds an identifier twice keeps
    it twice when an event for another comment is folded. *)
Lemma comments_duplicate_survives :
  let s := loaded 0 0 0 [comment "c1" 1; comment "c1" 2] in
  let s' := foldComments (Some article) [insertComment (comment "c2" 3)] s in
  StronglySorted byDate (Detail.comments s)
  ∧ Detail.comments s' = [comment "c1" 1; comment "c1" 2; comment "c2" 3]
  ∧ ¬ (StronglySorted byDate (Detail.comments s')
       ∧ NoDup (commentIds (Detail.comments s'))).
Proof.
  intros s s'.
  assert (Detail.comments s' = [comment "c1" 1; comment "c1" 2; comment "c2" 3]) as Hs'
    by reflexivity.
  split_and!; [|done|].
  - repeat constructor; unfold byDate; simpl; lia.
  - rewrite Hs'. intros [_ Hd]. simpl in Hd.
    apply NoDup_cons in Hd as [Hd _]. apply Hd. by left.
Qed.

Lemma comments_sorted_and_unique_witness :
  let s := loaded 0 0 0 [comment "c1" 10] in
  let events := [insertComment (comment "c2" 0); insertComment (comment "c1" 10)] in
  StronglySorted byDate (Detail.comments s)
  ∧ NoDup (commentIds (Detail.comments s))
  ∧ StronglySorted byDate (Detail.comments (foldComments (Some article) events s))
  ∧ NoDup (commentIds (Detail.comments (foldComments (Some article) events s))).
Proof.
  intros s events.
  assert (StronglySorted byDate (Detail.comments s)) as H1
    by (repeat constructor).
  assert (NoDup (commentIds (Detail.comments s))) as H2
    by (simpl; apply NoDup_singleton).
  exact (conj H1 (conj H2
    (comments_sorted_and_unique (Some article) events s H1 H2))).
Defined.

(** The scenario of the spec: a later insert with an earlier timestamp goes
    first. *)
Example comments_ordered_by_time :
  Detail.comments
    (foldComments (Some article)
       [insertComment (comment "c1" 10); insertComment (comment "c2" 0)]
       Detail.initial)
  = [comment "c2" 0; comment "c1" 10].
Proof. reflexivity. Qed.

Lemma comment_insert_idempotent_witness :
  let payload := insertComment (comment "c2" 5) in
  let s := loaded 0 0 0 [comment "c1" 1; comment "c2" 5; comment "c3" 5] in
  eventType payload = INSERT
  ∧ Detail.comments (foldComments (Some article) [payload; payload] s)
    = Detail.comments (foldComments (Some article) [payload] s).
Proof.
  intros payload s.
  assert (eventType payload = INSERT) as H1 by reflexivity.
  exact (conj H1 (comment_insert_idempotent (Some article) payload s H1)).
Defined.

Lemma counters_match_live_rows_witness :
  let changes :=
    [Likes.Insert "r1" {| Likes.news_id := article; Likes.is_like := true |};
     Likes.Insert "r2" {| Likes.news_id := article; Likes.is_like := false |};
     Likes.Insert "r3" {| Likes.news_id := "B"; Likes.is_like := true |};
     Likes.Update "r1" false;
     Likes.Insert "r4" {| Likes.news_id := article; Likes.is_like := true |};
     Likes.Delete "r2"] in
  article ≠ EmptyString
  ∧ match Likes.history changes ∅ with
    | Some (table, events) =>
        Detail.likesCount (foldLikes (Some article) events Detail.initial)
          = Likes.live article true table
        ∧ Detail.dislikesCount (foldLikes (Some article) events Detail.initial)
          = Likes.live article false table
    | None => False
    end.
Proof.
  intros changes.
  assert (article ≠ EmptyString) as Ha by (vm_compute; discriminate).
  split; [exact Ha|].
  destruct (Likes.history changes ∅) as [[table events]|] eqn:Hh.
  - exact (counters_match_live_rows article Ha changes table events Detail.initial
             eq_refl eq_refl Hh).
  - vm_compute in Hh. discriminate Hh.
Defined.

(** The same history, evaluated: one like and one dislike are live. *)
Example counters_after_history :
  (λ r, (λ s, (Detail.likesCount s, Detail.dislikesCount s))
          (foldLikes (Some article) r.2 Detail.initial)) <$>
    Likes.history
      [Likes.Insert "r1" {| Likes.news_id := article; Likes.is_like := true |};
       Likes.Insert "r2" {| Likes.news_id := article; Likes.is_like := false |};
       Likes.Insert "r3" {| Likes.news_id := "B"; Likes.is_like := true |};
       Likes.Update "r1" false;
       Likes.Insert "r4" {| Likes.news_id := article; Likes.is_like := true |};
       Likes.Delete "r2"] ∅
  = Some (1, 1).
Proof. vm_compute. reflexivity. Qed.

(** C8, as stated, fails on the guest page.  The snapshot brings the count
    5 and the request goes out with the count 6; the stream then delivers the
    count 10; the response without a count puts 6 back, not 10 plus 1.  And
    after a snapshot with the count 2^53, with nothing in between, the
    request and the fallback carry 2^53 again, not 2^53 plus 1. *)
Lemma view_fallback_not_prior_plus_one :
  let viewEvent := Detail.ViewEvent
    {| eventType := UPDATE;
       new := Some {| ViewRecord.news_id := Some article; ViewRecord.count := Some 10 |};
       old := None |} in
  let load count :=
    [Detail.FetchEffect; Detail.FetchDone (Success (Some (viewed count))); Detail.Render] in
  let sent := Detail.run (Some article) (load 5 ++ [viewEvent]) Detail.initial in
  let after := Detail.incrementView_resolve 6 (Success None) sent.1 in
  let big := Detail.run (Some article) (load (2 ^ 53)) Detail.initial in
  let afterBig := Detail.incrementView_resolve (2 ^ 53) (Success None) big.1 in
  sent.2 = [Detail.SelectNews article; Detail.UpsertView article 6]
  ∧ Detail.viewCount sent.1 = 10
  ∧ Detail.viewCount after = 6
  ∧ Detail.viewCount after ≠ Detail.viewCount sent.1 + 1
  ∧ big.2 = [Detail.SelectNews article; Detail.UpsertView article (2 ^ 53)]
  ∧ Detail.viewCount big.1 = 2 ^ 53
  ∧ Detail.viewCount afterBig = 2 ^ 53
  ∧ Detail.viewCount afterBig ≠ Detail.viewCount big.1 + 1.
Proof.
  intros viewEvent load sent after big afterBig.
  split_and!; try (vm_compute; reflexivity); vm_compute; discriminate.
Qed.

Lemma view_increment_once_witness :
  let s0 := loaded 0 0 5 [] in
  let s1 := Detail.setHasIncrementedView true s0 in
  let viewEvent := Detail.ViewEvent
    {| eventType := UPDATE;
       new := Some {| ViewRecord.news_id := Some article; ViewRecord.count := Some 10 |};
       old := None |} in
  let es := [Detail.Render; Detail.Render; viewEvent; Detail.Render] in
  (viewIncrements (Detail.run (Some article) es s0).2 ≤ 1)%nat
  ∧ Detail.viewCount
      (Detail.incrementView_resolve 6
         (Success (Some {| ViewRecord.news_id := None; ViewRecord.count := Some 42 |})) s1)
    = 42
  ∧ Detail.viewCount
      (Detail.incrementView_resolve 6 (Success None)
         (Detail.run (Some article) [viewEvent] s1).1)
    = 6
  ∧ 6 = JsNumber.add (Detail.viewCount s0) 1
  ∧ 6 = Detail.viewCount s0 + 1.
Proof.
  intros s0 s1 viewEvent es.
  pose proof (view_increment_once (Some article) es s0) as (H1 & H2 & H3).
  destruct (H3 s0 s1 article 6 [viewEvent] None eq_refl eq_refl) as (H4 & H5 & H6).
  split_and!.
  - exact H1.
  - exact (H2 6 {| ViewRecord.news_id := None; ViewRecord.count := Some 42 |} 42 s1 eq_refl).
  - exact H4.
  - exact H5.
  - apply H6. vm_compute. split; [discriminate|reflexivity].
Defined.

(** In that run exactly one request goes out, whatever the number of
    renders. *)
Example view_increment_interleaved :
  let s0 := loaded 0 0 5 [] in
  let viewEvent := Detail.ViewEvent
    {| eventType := UPDATE;
       new := Some {| ViewRecord.news_id := Some article; ViewRecord.count := Some 10 |};
       old := None |} in
  (Detail.run (Some article) [Detail.Render; Detail.Render; viewEvent; Detail.Render] s0).2
  = [Detail.UpsertView article 6].
Proof. reflexivity. Qed.

Lemma null_polarity_stream_vs_snapshot_witness :
  let r := reaction "r1" Null in
  let s := Detail.initial in
  let streamed := (Detail.handleLikeChange (Some article) (insertLike r) s).1 in
  let fetched := Detail.fetchDetails_resolve (Success (Some (snapshot [r]))) s in
  article ≠ EmptyString
  ∧ Detail.dislikesCount streamed = Detail.dislikesCount s + 1
  ∧ Detail.likesCount streamed = Detail.likesCount s
  ∧ Detail.dislikesCount fetched = Detail.initialDislikes []
  ∧ Detail.likesCount fetched = Detail.initialLikes [].
Proof.
  intros r s streamed fetched.
  assert (article ≠ EmptyString) as Ha by (vm_compute; discriminate).
  split; [exact Ha|].
  exact (null_polarity_stream_vs_snapshot (Some article) article (insertLike r) r []
           (snapshot [r]) s eq_refl Ha eq_refl eq_refl eq_refl eq_refl eq_refl).
Defined.

(** Evaluated: the stream counts the null row as a dislike, the snapshot as
    nothing. *)
Example null_polarity_counts :
  let r := reaction "r1" Null in
  let streamed := (Detail.handleLikeChange (Some article) (insertLike r) Detail.initial).1 in
  let fetched :=
    Detail.fetchDetails_resolve (Success (Some (snapshot [r]))) Detail.initial in
  (Detail.likesCount streamed, Detail.dislikesCount streamed) = (0, 1)
  ∧ (Detail.likesCount fetched, Detail.dislikesCount fetched) = (0, 0).
Proof. split; reflexivity. Qed.

(** Past the guard, the TRUNCATE branch of the guest page leaves the counters
    at 3 and 2 and only asks for the snapshot again. *)
Example truncate_keeps_guest_counters :
  let s := loaded 3 2 0 [] in
  let after := Detail.handleLikeChange (Some article) truncateLikes s in
  Detail.likesCount after.1 = 3
  ∧ Detail.dislikesCount after.1 = 2
  ∧ after.2 = [Detail.SelectNews article]
  ∧ ¬ (Detail.likesCount after.1 = 0 ∧ Detail.dislikesCount after.1 = 0).
Proof.
  intros s after. split_and!; try reflexivity.
  intros [H _]. vm_compute in H. discriminate H.
Qed.

Example truncate_branches_reached :
  let s := loaded 3 2 0 [] in
  let auth := authLoaded 3 2 (Some DetailAuth.like) in
  let authTruncate : Payload DetailAuth.LikeRecord.t :=
    {| eventType := TRUNCATE; new := None;
       old := Some (authReaction "r0" "u1" Undefined) |} in
  let after := DetailAuth.handleLikeChange (Some article) (Some "u1"%string) authTruncate auth in
  article ≠ EmptyString
  ∧ Detail.handleLikeChange (Some article) truncateLikes s
    = (Detail.setError None (Detail.setLoading true s), [Detail.SelectNews article])
  ∧ DetailAuth.likesCount after.1 = 0
  ∧ DetailAuth.dislikesCount after.1 = 0
  ∧ DetailAuth.userReaction after.1 = None
  ∧ after.2 = [DetailAuth.SelectNews article].
Proof.
  intros s auth authTruncate after.
  assert (article ≠ EmptyString) as Ha by (vm_compute; discriminate).
  pose proof (truncate_triggers_refetch article Ha) as (H1 & _ & H3).
  split; [exact Ha|]. split.
  - exact (H1 truncateLikes s eq_refl eq_refl).
  - exact (H3 (Some "u1"%string) authTruncate auth eq_refl eq_refl eq_refl).
Qed.

(** C7, as stated, fails on the guest page: its events carry no owner and
    its state after an insert is the same whoever sent it, so no reading of
    the state is a [userReaction] that follows the viewer's inserts and
    ignores everybody else's. *)
Lemma guest_page_has_no_userReaction :
  ¬ ∃ userReaction : Detail.State → option DetailAuth.Reaction,
      ∀ (viewer owner : string) (is_like : bool) (s : Detail.State),
        let s' := (Detail.handleLikeChange (Some article)
                     (insertLike (reaction "r1" (Bool is_like))) s).1 in
        (owner = viewer →
         userReaction s' = Some (DetailAuth.reactionOf (Bool is_like)))
        ∧ (owner ≠ viewer → userReaction s' = userReaction s).
Proof.
  intros [userReaction H].
  destruct (H "u1"%string "u1"%string true Detail.initial) as [Hmine _].
  destruct (H "u1"%string "u2"%string true Detail.initial) as [_ Hother].
  destruct (H "u1"%string "u1"%string false Detail.initial) as [Hmine' _].
  destruct (H "u1"%string "u2"%string false Detail.initial) as [_ Hother'].
  specialize (Hmine eq_refl). specialize (Hmine' eq_refl).
  assert ("u2"%string ≠ "u1"%string) as Hne by discriminate.
  specialize (Hother Hne). specialize (Hother' Hne).
  rewrite Hmine in Hother. rewrite Hmine' in Hother'.
  rewrite <- Hother in Hother'. discriminate Hother'.
Qed.

Lemma userReaction_follows_viewer_witness :
  let s := authLoaded 0 0 None in
  let mine : Payload DetailAuth.LikeRecord.t :=
    {| eventType := INSERT; new := Some (authReaction "r1" "u1" (Bool true));
       old := None |} in
  let other : Payload DetailAuth.LikeRecord.t :=
    {| eventType := INSERT; new := Some (authReaction "r2" "u2" (Bool false));
       old := None |} in
  let s1 := (DetailAuth.handleLikeChange (Some article) (Some "u1"%string) mine s).1 in
  let s2 := (DetailAuth.handleLikeChange (Some article) (Some "u1"%string) other s1).1 in
  article ≠ EmptyString
  ∧ "u1"%string ≠ EmptyString
  ∧ DetailAuth.userReaction s1 = Some DetailAuth.like
  ∧ (DetailAuth.userReaction s2 = DetailAuth.userReaction s1
     ∨ (eventType other = TRUNCATE ∧ DetailAuth.userReaction s2 = None)).
Proof.
  intros s mine other s1 s2.
  assert (article ≠ EmptyString) as Ha by (vm_compute; discriminate).
  assert ("u1"%string ≠ EmptyString) as Hv by discriminate.
  pose proof (userReaction_follows_viewer article Ha "u1"%string Hv) as [H1 H2].
  split; [exact Ha|]. split; [exact Hv|]. split.
  - exact (H1 mine (authReaction "r1" "u1" (Bool true)) s
             eq_refl eq_refl eq_refl eq_refl).
  - apply (H2 (Some article) (Some "u1"%string) other s1).
    intros row [Hrow|Hrow]; [|discriminate Hrow].
    injection Hrow as <-. simpl. discriminate.
Defined.

(** The scenario of the spec on the signed-in page: the viewer's like, then
    its update to a dislike. *)
Example viewer_like_then_dislike :
  let s1 := (DetailAuth.handleLikeChange (Some article) (Some "u1"%string)
               {| eventType := INSERT; new := Some (authReaction "r1" "u1" (Bool true));
                  old := None |} (authLoaded 0 0 None)).1 in
  let s2 := (DetailAuth.handleLikeChange (Some article) (Some "u1"%string)
               {| eventType := UPDATE; new := Some (authReaction "r1" "u1" (Bool false));
                  old := Some (authReaction "r1" "u1" (Bool true)) |} s1).1 in
  (DetailAuth.likesCount s1, DetailAuth.dislikesCount s1, DetailAuth.userReaction s1)
  = (1, 0, Some DetailAuth.like)
  ∧ (DetailAuth.likesCount s2, DetailAuth.dislikesCount s2, DetailAuth.userReaction s2)
  = (0, 1, Some DetailAuth.dislike).
Proof. split; reflexivity. Qed.

End Instances.

(** * Further properties of the guest page *)

(** ** Sorting the comments *)

Section SortingMore.
Implicit Types (c d : NewsComment.t) (l : list NewsComment.t).

(** X1.  [sortCommentsByDate] returns the comments it was given, each as
    often as it occurred, in ascending order of creation time; comments
    created at the same instant come out in the order they came in; and a
    list already in order is returned as it is. *)
Theorem sortCommentsByDate_spec l :
  StronglySorted byDate (sortCommentsByDate l)
  ∧ sortCommentsByDate l ≡ₚ l
  ∧ (∀ time, filter (λ d, NewsComment.created_at d = time) (sortCommentsByDate l)
             = filter (λ d, NewsComment.created_at d = time) l)
  ∧ (StronglySorted byDate l → sortCommentsByDate l = l).
Proof.
  split_and!.
  - apply sortCommentsByDate_sorted.
  - apply sortCommentsByDate_perm.
  - intros time. apply sortCommentsByDate_stable.
  - apply sortCommentsByDate_id.
Qed.

End SortingMore.

(** ** Replacing and removing a comment *)

Section CommentsMore.
Implicit Types (n o c : NewsComment.t) (l : list NewsComment.t).

Lemma filter_id_self n l :
  filter (λ c, NewsComment.id c ≠ NewsComment.id n)
    (filter (λ c, NewsComment.id c ≠ NewsComment.id n) l ++ [n])
  = filter (λ c, NewsComment.id c ≠ NewsComment.id n) l.
Proof.
  rewrite filter_app, list_filter_filter.
  rewrite (filter_cons _ n), decide_False by tauto.
  rewrite app_nil_r. apply list_filter_iff. tauto.
Qed.

Lemma removeComment_upsertComment n l :
  removeComment n (upsertComment n l) = sortCommentsByDate (removeComment n l).
Proof.
  unfold removeComment, upsertComment.
  rewrite sortCommentsByDate_filter by apply _. by rewrite filter_id_self.
Qed.

(** X2.  Whatever the list held before, after the insert or update of a
    comment the list holds that comment exactly once under its identifier,
    and every entry with another identifier as often as before. *)
Theorem upsertComment_replaces n l :
  filter (λ c, NewsComment.id c = NewsComment.id n) (upsertComment n l) = [n]
  ∧ upsertComment n l ≡ₚ n :: filter (λ c, NewsComment.id c ≠ NewsComment.id n) l.
Proof.
  split; [apply upsertComment_once|].
  unfold upsertComment. rewrite sortCommentsByDate_perm.
  by rewrite Permutation_app_comm.
Qed.

(** X3.  Last write wins: a second insert or update under the same
    identifier leaves the list the first one had never been delivered. *)
Theorem upsertComment_last_wins n n' l :
  NewsComment.id n = NewsComment.id n' →
  upsertComment n' (upsertComment n l) = upsertComment n' l.
Proof.
  intros Hid. unfold upsertComment at 1. rewrite <- Hid.
  fold (removeComment n (upsertComment n l)).
  rewrite removeComment_upsertComment, sortCommentsByDate_sort_app.
  unfold upsertComment, removeComment. by rewrite Hid.
Qed.

Lemma removeComment_absent o l :
  NewsComment.id o ∉ commentIds l → removeComment o l = l.
Proof.
  unfold removeComment. intros Hnot. induction l as [|c l IH]; [done|].
  rewrite filter_cons. simpl in Hnot. rewrite not_elem_of_cons in Hnot.
  destruct Hnot as [Hc Hl]. rewrite decide_True by done. f_equal. by apply IH.
Qed.

(** X4.  Removing a comment deletes every entry with its identifier and
    nothing else; when no entry has that identifier the list is returned
    unchanged. *)
Theorem removeComment_removes o l :
  Forall (λ c, NewsComment.id c ≠ NewsComment.id o) (removeComment o l)
  ∧ filter (λ c, NewsComment.id c ≠ NewsComment.id o) (removeComment o l)
    = filter (λ c, NewsComment.id c ≠ NewsComment.id o) l
  ∧ (NewsComment.id o ∉ commentIds l → removeComment o l = l).
Proof.
  unfold removeComment. split_and!.
  - apply Forall_forall. by intros c [Hc _]%list_elem_of_filter.
  - rewrite list_filter_filter. apply list_filter_iff. tauto.
  - apply removeComment_absent.
Qed.

(** X5.  On a sorted list, inserting a comment and then deleting it gives
    the list without the entries of that identifier; if the identifier was
    new, the list is back as it was. *)
Theorem insert_then_delete n l :
  StronglySorted byDate l →
  removeComment n (upsertComment n l) = removeComment n l
  ∧ (NewsComment.id n ∉ commentIds l → removeComment n (upsertComment n l) = l).
Proof.
  intros Hl.
  assert (removeComment n (upsertComment n l) = removeComment n l) as Heq.
  { rewrite removeComment_upsertComment.
    apply sortCommentsByDate_id, removeComment_sorted, Hl. }
  split; [done|]. intros Hnot. rewrite Heq.
  by apply removeComment_absent.
Qed.

End CommentsMore.

(** ** The event loop of the guest page *)

Section LoopMore.
Import Detail.
Variable id : option string.
Implicit Types (s : State) (e : Step) (es : list Step).

Lemma run_cons e es s :
  run id (e :: es) s
  = ((run id es (step id e s).1).1, (step id e s).2 ++ (run id es (step id e s).1).2).
Proof.
  simpl. destruct (step id e s) as [s1 out1]. simpl.
  by destruct (run id es s1) as [s2 out2].
Qed.

Lemma run_invariant (P : State → Prop) :
  (∀ e s, P s → P (step id e s).1) →
  ∀ es s, P s → P (run id es s).1.
Proof.
  intros Hstep es. induction es as [|e es IH]; intros s Hs; [done|].
  rewrite run_cons. simpl. by apply IH, Hstep.
Qed.

Lemma fetchDetails_begin_data s :
  let s' := (fetchDetails_begin id s).1 in
  newsItem s' = newsItem s ∧ comments s' = comments s
  ∧ likesCount s' = likesCount s ∧ dislikesCount s' = dislikesCount s
  ∧ viewCount s' = viewCount s ∧ hasIncrementedView s' = hasIncrementedView s.
Proof.
  unfold fetchDetails_begin. destruct id; [|done]. by destruct (falsy_string _).
Qed.

Lemma handleLikeChange_comments payload s :
  comments (handleLikeChange id payload s).1 = comments s.
Proof.
  unfold handleLikeChange. destruct (discarded _ _); [done|].
  destruct (eventType payload), (new payload), (old payload);
    repeat case_match; try done; apply fetchDetails_begin_data.
Qed.

Lemma step_sorted e s :
  StronglySorted byDate (comments s) →
  StronglySorted byDate (comments (step id e s).1).
Proof.
  intros Hs. destruct e as [|r| |n r|p|p|p]; simpl.
  - by destruct (fetchDetails_begin_data s) as (_ & -> & _).
  - destruct r as [|[data|]]; simpl; [done| |done].
    apply sortCommentsByDate_sorted.
  - unfold incrementView_begin. destruct id; [|done]. by case_match.
  - by destruct r as [|[[? [c|]]|]].
  - by rewrite handleLikeChange_comments.
  - rewrite handleCommentChange_commentUpdate. simpl. by apply commentUpdate_sorted.
  - unfold handleViewChange. by repeat case_match.
Qed.

(** X6.  In every state the page reaches from its initial hooks, whatever
    arrives in whatever order (snapshots, renders, responses, events of the
    three relations), the comments are in ascending order of creation time
    and neither reaction counter is negative. *)
Theorem reachable_sorted_nonnegative es :
  let s := (run id es initial).1 in
  StronglySorted byDate (comments s) ∧ 0 ≤ likesCount s ∧ 0 ≤ dislikesCount s.
Proof.
  simpl. split.
  - apply (run_invariant (λ s, StronglySorted byDate (comments s))).
    + apply step_sorted.
    + constructor.
  - apply (run_invariant nonneg).
    + apply step_nonneg.
    + by split.
Qed.

Lemma fetchDetails_begin_requests s r :
  r ∈ (fetchDetails_begin id s).2 →
  ∃ i, id = Some i ∧ i ≠ EmptyString ∧ r = SelectNews i.
Proof.
  unfold fetchDetails_begin. destruct id as [i|]; simpl; [|by intros ?%elem_of_nil].
  case_bool_decide; simpl; [by intros ?%elem_of_nil|].
  intros ->%list_elem_of_singleton. eauto.
Qed.

Lemma step_requests e s r :
  r ∈ (step id e s).2 →
  ∃ i, id = Some i ∧ i ≠ EmptyString
       ∧ (r = SelectNews i ∨ ∃ count, r = UpsertView i count).
Proof.
  destruct e as [|resp| |n resp|p|p|p]; simpl.
  - intros (i & ? & ? & ?)%fetchDetails_begin_requests. eauto 6.
  - by intros ?%elem_of_nil.
  - unfold incrementView_begin. destruct id as [i|]; simpl; [|by intros ?%elem_of_nil].
    case_bool_decide; simpl; [by intros ?%elem_of_nil|].
    destruct (loading s || hasIncrementedView s); simpl; [by intros ?%elem_of_nil|].
    intros ->%list_elem_of_singleton. eauto 7.
  - by intros ?%elem_of_nil.
  - unfold handleLikeChange. destruct (discarded _ _); [by intros ?%elem_of_nil|].
    destruct (eventType p), (new p), (old p); repeat case_match; simpl;
      try (by intros ?%elem_of_nil);
      intros (i & ? & ? & ?)%fetchDetails_begin_requests; eauto 6.
  - rewrite handleCommentChange_commentUpdate. by intros ?%elem_of_nil.
  - unfold handleViewChange. repeat case_match; by intros ?%elem_of_nil.
Qed.

(** X7.  Every request the page sends is for the article of the route: the
    snapshot query of that article or the view upsert of that article.  A
    page without an identifier, or with an empty one, sends nothing. *)
Theorem requests_only_for_viewed_article es s :
  (∀ r, r ∈ (run id es s).2 →
        ∃ i, id = Some i ∧ i ≠ EmptyString
             ∧ (r = SelectNews i ∨ ∃ count, r = UpsertView i count))
  ∧ (falsy_string id = true → (run id es s).2 = []).
Proof.
  assert (∀ r, r ∈ (run id es s).2 →
        ∃ i, id = Some i ∧ i ≠ EmptyString
             ∧ (r = SelectNews i ∨ ∃ count, r = UpsertView i count)) as Hall.
  { revert s. induction es as [|e es IH]; intros s r; [by intros ?%elem_of_nil|].
    rewrite run_cons. simpl. rewrite elem_of_app.
    intros [Hr|Hr]; [by eapply step_requests|by eapply IH]. }
  split; [done|]. intros Hid.
  apply elem_of_nil_inv. intros r Hr.
  destruct (Hall r Hr) as (i & Hi & Hne & _). rewrite Hi in Hid.
  simpl in Hid. by case_bool_decide.
Qed.

(** X8.  A change event that carries no article identifier at all (neither
    row, or rows without [news_id], or an empty one) is discarded by each of
    the three handlers, whatever its kind and whatever the page shows. *)
Theorem event_without_article_discarded e (target : option string) s :
  eventTarget e = Some target →
  falsy_string target = true →
  step id e s = (s, []).
Proof.
  intros He Hf.
  assert (discarded target id = true) as Hd by (unfold discarded; by rewrite Hf).
  destruct e; simplify_eq/=;
    unfold handleLikeChange, handleCommentChange, handleViewChange;
    unfold likeTarget, commentTarget, viewTarget in Hd; by rewrite Hd.
Qed.

Lemma step_loading e s :
  (∀ r, e ≠ FetchDone r) →
  loading s = true →
  loading (step id e s).1 = true ∧ viewIncrements (step id e s).2 = 0%nat.
Proof.
  intros He Hl. destruct e as [|r| |n r|p|p|p]; simpl.
  - unfold fetchDetails_begin. destruct id; [|done]. by destruct (falsy_string _).
  - by destruct (He r).
  - unfold incrementView_begin. destruct id; [|done]. rewrite Hl.
    by rewrite orb_true_r.
  - by destruct r as [|[[? [c|]]|]].
  - unfold handleLikeChange. destruct (discarded _ _); [done|].
    destruct (eventType p), (new p), (old p); repeat case_match; try done;
      unfold fetchDetails_begin; destruct id; try done; by destruct (falsy_string _).
  - by rewrite handleCommentChange_commentUpdate.
  - unfold handleViewChange. by repeat case_match.
Qed.

(** X9.  The view upsert waits for the first snapshot response, whatever
    that response is.  From the initial hooks, as long as no response has been
    handled, no render and no event makes the page send a view upsert.  The
    render after the first response sends it also when the response was a
    failure or found no article: the page then upserts the count 1 for an
    article it never held. *)
Theorem view_increment_waits_for_response es :
  ((∀ r, FetchDone r ∉ es) → viewIncrements (run id es initial).2 = 0%nat)
  ∧ (∀ (article : string) (r : Response (option NewsData.t)),
       id = Some article →
       article ≠ EmptyString →
       (∀ data, r ≠ Success (Some data)) →
       let answered := run id [FetchEffect; FetchDone r; Render] initial in
       newsItem answered.1 = None
       ∧ answered.2 = [SelectNews article; UpsertView article 1]).
Proof.
  split.
  - assert (∀ es s, (∀ r, FetchDone r ∉ es) → loading s = true →
              viewIncrements (run id es s).2 = 0%nat) as Hgen.
    { clear es. intros es. induction es as [|e es IH]; intros s Hes Hl; [done|].
      rewrite run_cons. simpl. rewrite viewIncrements_app.
      destruct (step_loading e s) as [Hl' ->]; [|done|].
      { intros r ->. apply (Hes r). by left. }
      rewrite IH; [done| |done]. intros r Hr. apply (Hes r). by right. }
    intros Hes. by apply Hgen.
  - intros article r -> Ha Hr. simpl.
    unfold fetchDetails_begin, incrementView_begin. simpl.
    rewrite bool_decide_eq_false_2 by done. simpl.
    destruct r as [message|[data|]]; [done| |done].
    by destruct (Hr data).
Qed.

(** X10.  The first load: the page asks for the snapshot, and at the render
    after a successful response it sends exactly one view upsert.  Its count
    is the Number sum of the snapshot's view count and 1: that count plus 1
    when it lies below 2^53, and 2^53 again when it is 2^53. *)
Theorem first_load_counts_view (article : string) (data : NewsData.t) :
  id = Some article →
  article ≠ EmptyString →
  let views := coerceViewCount (NewsData.views data) in
  (run id [FetchEffect; FetchDone (Success (Some data)); Render] initial).2
  = [SelectNews article; UpsertView article (JsNumber.add views 1)]
  ∧ (- JsNumber.limit ≤ views < JsNumber.limit → JsNumber.add views 1 = views + 1)
  ∧ (views = JsNumber.limit → JsNumber.add views 1 = views).
Proof.
  intros -> Ha. simpl. split_and!.
  - unfold fetchDetails_begin, incrementView_begin. simpl.
    by rewrite bool_decide_eq_false_2.
  - apply add_one_exact.
  - intros ->. apply add_one_limit.
Qed.

(** *** The snapshot *)

Lemma tallies_cons (r : LikeRecord.t) (rows : list LikeRecord.t) :
  initialLikes (r :: rows)
  = initialLikes rows + (if truthy (LikeRecord.is_like r) then 1 else 0)
  ∧ initialDislikes (r :: rows)
  = initialDislikes rows
    + (if decide (LikeRecord.is_like r = Bool false) then 1 else 0).
Proof.
  unfold initialLikes, initialDislikes. rewrite !filter_cons.
  destruct (LikeRecord.is_like r) as [[|]| |]; simpl;
    repeat case_decide; simpl; try done; lia.
Qed.

(** X11.  The tallies of a snapshot count each reaction row at most once:
    likes plus dislikes plus the rows whose polarity is neither true nor
    false is the number of rows, so the two tallies together never exceed
    it. *)
Theorem snapshot_tallies (rows : list LikeRecord.t) :
  initialLikes rows + initialDislikes rows
  + Z.of_nat (length (filter (λ r, ∀ b, LikeRecord.is_like r ≠ Bool b) rows))
  = Z.of_nat (length rows)
  ∧ initialLikes rows + initialDislikes rows ≤ Z.of_nat (length rows).
Proof.
  assert (initialLikes rows + initialDislikes rows
    + Z.of_nat (length (filter (λ r, ∀ b, LikeRecord.is_like r ≠ Bool b) rows))
    = Z.of_nat (length rows)) as Heq.
  { induction rows as [|r rows IH]; [done|].
    destruct (tallies_cons r rows) as [-> ->].
    rewrite filter_cons.
    destruct (LikeRecord.is_like r) as [[|]| |] eqn:Hr; simpl;
      repeat case_decide; simpl length; try done; lia. }
  split; [done|]. lia.
Qed.

(** A successful snapshot replaces what the page held: the article,
    the comments, both counters and the view count after it do not depend on
    what they were before, only the error and the view-increment flag are
    carried over. *)
Lemma snapshot_replaces_state (data : NewsData.t) s1 s2 :
  error s1 = error s2 →
  hasIncrementedView s1 = hasIncrementedView s2 →
  fetchDetails_resolve (Success (Some data)) s1
  = fetchDetails_resolve (Success (Some data)) s2.
Proof. intros He Hf. simpl. unfold setLoading. simpl. by rewrite He, Hf. Qed.

(** X12.  When the snapshot query finds no article, [fetchDetails] records
    "News article not found." and stops loading; the article, comments,
    counters and view count held before are kept. *)
Theorem fetch_not_found_keeps_state s :
  let s1 := (fetchDetails_begin id s).1 in
  let s2 := fetchDetails_resolve (Success None) s1 in
  error s2 = Some "News article not found."%string
  ∧ loading s2 = false
  ∧ newsItem s2 = newsItem s
  ∧ comments s2 = comments s
  ∧ likesCount s2 = likesCount s
  ∧ dislikesCount s2 = dislikesCount s
  ∧ viewCount s2 = viewCount s.
Proof.
  unfold fetchDetails_begin. destruct id as [i|]; [|done].
  by destruct (falsy_string _).
Qed.

(** *** View events *)

Lemma handleViewChange_viewUpdate payload s :
  handleViewChange id payload s
  = (match viewUpdate id payload with
     | Some count => setViewCount count s
     | None => s
     end, []).
Proof.
  unfold handleViewChange, viewUpdate, viewTarget.
  destruct (discarded _ _); [done|].
  destruct (eventType payload); destruct (new payload ≫= ViewRecord.count); done.
Qed.

(** X13.  The view counter is replaced wholesale: after any sequence of
    view events it is the value of the last event that set one (the count of
    its new row, or 0 for a bulk clear), or what it was when no event set
    one; nothing else in the state changes. *)
Theorem view_events_last_wins (events : list (Payload ViewRecord.t)) s :
  foldViews id events s
  = match last (omap (viewUpdate id) events) with
    | Some count => setViewCount count s
    | None => s
    end.
Proof.
  unfold foldViews. revert s.
  induction events as [|p events IH]; intros s; [done|].
  rewrite fmap_cons, run_cons. simpl.
  rewrite IH, handleViewChange_viewUpdate. simpl.
  destruct (viewUpdate id p) as [v|]; simpl; [|done].
  rewrite last_cons. unfold omap.
  by destruct (last (list_omap _ _ (viewUpdate id) events)).
Qed.

(** *** Reaction events *)

(** X14.  Insert and delete of one reaction row undo each other when they
    arrive in that order: the state is back as it was.  In the other order
    the counter of the row's polarity ends at least at 1: a delete seen
    while the counter is 0 is lost, and the insert that follows leaves the
    counter one too high. *)
Theorem insert_delete_round_trip (article : string) (r : LikeRecord.t) s :
  id = Some article →
  article ≠ EmptyString →
  LikeRecord.news_id r = Some article →
  0 ≤ likesCount s →
  0 ≤ dislikesCount s →
  let insert := {| eventType := INSERT; new := Some r; old := None |} in
  let delete := {| eventType := DELETE; new := None; old := Some r |} in
  foldLikes id [insert; delete] s = s
  ∧ foldLikes id [delete; insert] s
    = if truthy (LikeRecord.is_like r)
      then setLikesCount (λ prev, Z.max prev 1) s
      else setDislikesCount (λ prev, Z.max prev 1) s.
Proof.
  intros -> Ha Hr Hl Hd. simpl.
  unfold foldLikes. simpl. unfold handleLikeChange. simpl. rewrite Hr. simpl.
  unfold discarded. simpl.
  rewrite bool_decide_eq_false_2 by done.
  rewrite bool_decide_eq_true_2 by done. simpl.
  destruct s as [ni cs l d v lo er fl]; simpl in *.
  destruct (truthy (LikeRecord.is_like r)); simpl;
    unfold setLikesCount, setDislikesCount; simpl;
    split; f_equal; lia.
Qed.

(** X15.  An UPDATE event for the viewed article that carries both rows
    leaves the state alone exactly when the two rows have the same
    [is_like]; an old row that lacks the field never has. *)
Theorem update_noop_iff_same_polarity (article : string) (n o : LikeRecord.t) s :
  id = Some article →
  article ≠ EmptyString →
  LikeRecord.news_id n = Some article →
  let update := {| eventType := UPDATE; new := Some n; old := Some o |} in
  (handleLikeChange id update s).1 = s
  ↔ LikeRecord.is_like o = LikeRecord.is_like n.
Proof.
  intros -> Ha Hn. simpl.
  unfold handleLikeChange. simpl. rewrite Hn. simpl.
  unfold discarded. simpl.
  rewrite bool_decide_eq_false_2 by done.
  rewrite bool_decide_eq_true_2 by done. simpl.
  unfold strict_eq. case_bool_decide as Heq; simpl; [done|].
  split; [|done]. intros Hs. exfalso.
  destruct (truthy (LikeRecord.is_like n)); simpl in Hs.
  - apply (f_equal likesCount) in Hs. simpl in Hs. lia.
  - apply (f_equal dislikesCount) in Hs. simpl in Hs. lia.
Qed.

End LoopMore.

(** ** The paragraphs of the article *)

Section Paragraphs.
Implicit Types (l piece : list Ascii.ascii) (ps : list (list Ascii.ascii)).

Lemma splitLineFeeds_nonempty inRun l : splitLineFeeds inRun l ≠ [].
Proof.
  revert inRun. induction l as [|c l IH]; intros inRun; simpl; [done|].
  destruct (isLineFeed c); [destruct inRun; [apply IH|done]|].
  by destruct (splitLineFeeds false l).
Qed.

Lemma splitLineFeeds_concat inRun l :
  concat (splitLineFeeds inRun l) = filter (λ c, isLineFeed c = false) l.
Proof.
  revert inRun. induction l as [|c l IH]; intros inRun; simpl; [done|].
  rewrite filter_cons. destruct (isLineFeed c) eqn:Hc; simpl.
  - destruct inRun; simpl; apply IH.
  - rewrite <- (IH false).
    pose proof (splitLineFeeds_nonempty false l).
    by destruct (splitLineFeeds false l).
Qed.

Lemma splitLineFeeds_pieces inRun l :
  Forall (Forall (λ c, isLineFeed c = false)) (splitLineFeeds inRun l).
Proof.
  revert inRun. induction l as [|c l IH]; intros inRun; simpl.
  - by repeat constructor.
  - destruct (isLineFeed c) eqn:Hc.
    + destruct inRun; [apply IH|]. constructor; [constructor|apply IH].
    + specialize (IH false). destruct (splitLineFeeds false l) as [|p ps].
      * by repeat constructor.
      * apply Forall_cons in IH as [Hp Hps]. by repeat constructor.
Qed.

Lemma concat_filter_nonempty ps :
  concat (filter (λ piece, piece ≠ []) ps) = concat ps.
Proof.
  induction ps as [|p ps IH]; [done|].
  destruct (decide (p = [])) as [->|Hne].
  - rewrite filter_cons_False by (intros H; by apply H). exact IH.
  - rewrite filter_cons_True by done. simpl. f_equal. exact IH.
Qed.

(** X16.  The paragraphs shown for an article text are its maximal runs of
    characters other than line feeds: no paragraph is empty, none contains a
    line feed, and together, in order, they are the text with its line feeds
    removed.  A text of line feeds only, or an empty one, has no
    paragraph. *)
Theorem paragraphsOf_spec l :
  Forall (λ piece, piece ≠ [] ∧ Forall (λ c, isLineFeed c = false) piece)
    (paragraphsOf l)
  ∧ concat (paragraphsOf l) = filter (λ c, isLineFeed c = false) l
  ∧ (Forall (λ c, isLineFeed c = true) l → paragraphsOf l = []).
Proof.
  unfold paragraphsOf. split_and!.
  - apply Forall_forall. intros p [Hp Hin]%list_elem_of_filter. split; [done|].
    pose proof (splitLineFeeds_pieces false l) as Hall.
    rewrite Forall_forall in Hall. by apply Hall.
  - by rewrite concat_filter_nonempty, splitLineFeeds_concat.
  - intros Hl.
    assert (concat (filter (λ piece, piece ≠ []) (splitLineFeeds false l)) = []) as Hc.
    { rewrite concat_filter_nonempty, splitLineFeeds_concat.
      induction Hl as [|c l Hc Hl IH]; [done|].
      rewrite filter_cons, decide_False; [done|]. by rewrite Hc. }
    destruct (filter _ (splitLineFeeds false l)) as [|p ps] eqn:Hf; [done|].
    assert (p ∈ filter (λ piece, piece ≠ []) (splitLineFeeds false l)) as Hp
      by (rewrite Hf; by left).
    apply list_elem_of_filter in Hp as [Hp _].
    simpl in Hc. by apply app_eq_nil in Hc as [-> _].
Qed.

Lemma splitLineFeeds_app_piece p l :
  p ≠ [] →
  Forall (λ c, isLineFeed c = false) p →
  splitLineFeeds false (p ++ lineFeed :: l)
  = p :: splitLineFeeds true l.
Proof.
  intros Hne Hp. induction Hp as [|c p Hc Hp IH]; [done|].
  simpl. rewrite Hc. destruct p as [|d p].
  - by simpl.
  - by rewrite IH.
Qed.

Lemma splitLineFeeds_true_piece p l :
  p ≠ [] →
  Forall (λ c, isLineFeed c = false) p →
  splitLineFeeds true (p ++ l) = splitLineFeeds false (p ++ l).
Proof. intros Hne Hp. destruct Hp as [|c p Hc Hp]; [done|]. simpl. by rewrite Hc. Qed.

Lemma splitLineFeeds_piece p :
  Forall (λ c, isLineFeed c = false) p → splitLineFeeds false p = [p].
Proof.
  induction 1 as [|c p Hc Hp IH]; [done|]. simpl. by rewrite Hc, IH.
Qed.

(** X17.  Round trip: a text written as paragraphs (each non-empty and
    without line feed) separated by single line feeds is shown as exactly
    those paragraphs. *)
Theorem paragraphsOf_join ps :
  Forall (λ piece, piece ≠ [] ∧ Forall (λ c, isLineFeed c = false) piece) ps →
  paragraphsOf (joinLineFeed ps) = ps.
Proof.
  unfold paragraphsOf. induction 1 as [|p ps [Hne Hp] Hps IH]; [done|].
  destruct ps as [|q ps].
  - simpl. rewrite splitLineFeeds_piece by done.
    by rewrite filter_cons, decide_True.
  - change (joinLineFeed (p :: q :: ps))
      with (p ++ lineFeed :: joinLineFeed (q :: ps)).
    rewrite splitLineFeeds_app_piece by done.
    rewrite filter_cons, decide_True by done. f_equal.
    assert (splitLineFeeds true (joinLineFeed (q :: ps))
            = splitLineFeeds false (joinLineFeed (q :: ps))) as ->; [|exact IH].
    apply Forall_cons in Hps as [[Hq1 Hq2] _].
    destruct ps as [|r ps].
    + simpl. rewrite <- (app_nil_r q). by apply splitLineFeeds_true_piece.
    + change (joinLineFeed (q :: r :: ps))
        with (q ++ lineFeed :: joinLineFeed (r :: ps)).
      by apply splitLineFeeds_true_piece.
Qed.

End Paragraphs.

(** ** Trimming *)

Section Trim.
Import JsString.
Implicit Types (s n : JsString.t) (c : N).

Lemma trimStart_split s : ∃ pre, s = pre ++ trimStart s ∧ blank pre.
Proof.
  induction s as [|c s (pre & Hs & Hpre)]; simpl.
  - exists []. split; [done|constructor].
  - destruct (isWhiteSpace c) eqn:Hc.
    + exists (c :: pre). split; [by rewrite Hs at 1|by constructor].
    + exists []. split; [done|constructor].
Qed.

Lemma trimStart_head s c : head (trimStart s) = Some c → isWhiteSpace c = false.
Proof.
  induction s as [|d s IH]; simpl; [done|].
  destruct (isWhiteSpace d) eqn:Hd; [done|]. simpl. by intros [= <-].
Qed.

Lemma trimStart_id s :
  (∀ c, head s = Some c → isWhiteSpace c = false) → trimStart s = s.
Proof. destruct s as [|d s]; simpl; [done|]. intros H. by rewrite (H d). Qed.

Lemma trimStart_blank s : blank s → trimStart s = [].
Proof. induction 1 as [|c s Hc Hs IH]; simpl; [done|]. by rewrite Hc. Qed.

Lemma trimEnd_split s : ∃ post, s = trimEnd s ++ post ∧ blank post.
Proof.
  unfold trimEnd. destruct (trimStart_split (reverse s)) as (pre & Hs & Hpre).
  exists (reverse pre). split; [|by apply Forall_reverse].
  by rewrite <- reverse_app, <- Hs, reverse_involutive.
Qed.

Lemma trimEnd_last s c : last (trimEnd s) = Some c → isWhiteSpace c = false.
Proof. unfold trimEnd. rewrite last_reverse. apply trimStart_head. Qed.

Lemma trimEnd_id s :
  (∀ c, last s = Some c → isWhiteSpace c = false) → trimEnd s = s.
Proof.
  intros H. unfold trimEnd. rewrite trimStart_id; [apply reverse_involutive|].
  intros c. rewrite head_reverse. apply H.
Qed.

Lemma trimEnd_head s c :
  (∀ d, head s = Some d → isWhiteSpace d = false) →
  head (trimEnd s) = Some c → isWhiteSpace c = false.
Proof.
  intros Hs Hc. apply Hs. destruct (trimEnd_split s) as (post & Heq & _).
  rewrite Heq. destruct (trimEnd s); [done|]. by simpl in *.
Qed.

Lemma trim_trimmedFrom s : trimmedFrom (trim s) s.
Proof.
  unfold trimmedFrom, trim. split_and!.
  - destruct (trimStart_split s) as (pre & Hs & Hpre).
    destruct (trimEnd_split (trimStart s)) as (post & Ht & Hpost).
    exists pre, post. split_and!; [|done|done]. by rewrite <- Ht.
  - intros c. apply trimEnd_head. apply trimStart_head.
  - apply trimEnd_last.
Qed.

Lemma trim_blank s : trim s = [] ↔ blank s.
Proof.
  split.
  - intros Ht. destruct (trim_trimmedFrom s) as [(pre & post & Hs & Hpre & Hpost) _].
    rewrite Hs, Ht. by apply Forall_app.
  - intros Hs. unfold trim. by rewrite trimStart_blank.
Qed.

Lemma trim_idemp s : trim (trim s) = trim s.
Proof.
  destruct (trim_trimmedFrom s) as (_ & Hhead & Hlast).
  unfold trim at 1. rewrite trimStart_id by done. by apply trimEnd_id.
Qed.

Lemma falsy_trim s : falsy (trim s) = true ↔ blank s.
Proof. rewrite <- trim_blank. by destruct (trim s). Qed.

End Trim.

(** ** What the reader does on the guest page *)

Section Reader.
Import Detail Forms.
Variable id : option string.
Variable article : string.
Hypothesis id_article : id = Some article.
Hypothesis article_nonempty : article ≠ EmptyString.
Implicit Types (p : State * Form).

Lemma id_truthy : falsy_string id = false.
Proof. rewrite id_article. simpl. by rewrite bool_decide_eq_false_2. Qed.

(** X18.  A comment whose name or text is blank (empty, or white space and
    line breaks only) is refused: the page sends nothing, shows "Please enter
    your name and comment.", and keeps the typed text and everything else as
    it was. *)
Theorem blank_comment_refused p :
  blank (userName (commentForm p.2)) ∨ blank (text (commentForm p.2)) →
  handleCommentSubmit_begin id p
  = ((p.1, setCommentError (Some "Please enter your name and comment."%string) p.2), []).
Proof.
  intros Hb. unfold handleCommentSubmit_begin.
  rewrite id_truthy, id_article.
  assert (JsString.falsy (JsString.trim (userName (commentForm p.2)))
          || JsString.falsy (JsString.trim (text (commentForm p.2))) = true) as ->; [|done].
  apply orb_true_iff. by rewrite !falsy_trim.
Qed.

(** X19.  Otherwise the page sends exactly one comment insert, for the
    viewed article, with the name and the text stripped of the white space
    around them: what is sent is not empty, does not start or end with white
    space, and is what was typed up to white space on both sides. *)
Theorem comment_sent_trimmed p :
  ¬ blank (userName (commentForm p.2)) →
  ¬ blank (text (commentForm p.2)) →
  ∃ name body,
    (handleCommentSubmit_begin id p).2 = [InsertComment article name body]
    ∧ name ≠ [] ∧ trimmedFrom name (userName (commentForm p.2))
    ∧ body ≠ [] ∧ trimmedFrom body (text (commentForm p.2)).
Proof.
  intros Hn Ht. unfold handleCommentSubmit_begin.
  rewrite id_truthy, id_article.
  assert (JsString.falsy (JsString.trim (userName (commentForm p.2)))
          || JsString.falsy (JsString.trim (text (commentForm p.2))) = false) as ->.
  { apply orb_false_iff. split; apply not_true_is_false; by rewrite falsy_trim. }
  eexists _, _. split; [done|]. split_and!.
  - by rewrite trim_blank.
  - apply trim_trimmedFrom.
  - by rewrite trim_blank.
  - apply trim_trimmedFrom.
Qed.

(** X20.  Submitting a comment never touches the reconciler: at neither
    phase does it change the article, the comments, the counters, [loading]
    or [error], so the new comment appears only when the stream delivers it.
    A failed submit keeps the name and text as typed and shows the message; a
    successful one empties both fields; either way the form is enabled
    again. *)
Theorem comment_submit_outcome (message : string) p :
  (handleCommentSubmit_begin id p).1.1 = p.1
  ∧ commentForm (handleCommentSubmit_begin id p).1.2 = commentForm p.2
  ∧ (∀ r, (handleCommentSubmit_resolve r p).1 = p.1
          ∧ isSubmittingComment (handleCommentSubmit_resolve r p).2 = false)
  ∧ commentForm (handleCommentSubmit_resolve (Failure message) p).2 = commentForm p.2
  ∧ commentError (handleCommentSubmit_resolve (Failure message) p).2 = Some message
  ∧ commentForm (handleCommentSubmit_resolve (Success ()) p).2
    = {| userName := []; text := [] |}.
Proof.
  clear id_article. split_and!; try done.
  - unfold handleCommentSubmit_begin. destruct id as [i|]; [|done].
    destruct (falsy_string _); [done|]. by destruct (_ || _).
  - unfold handleCommentSubmit_begin. destruct id as [i|]; [|done].
    destruct (falsy_string _); [done|]. by destruct (_ || _).
  - by intros [m|[]].
Qed.

(** X21.  A click on Like or Dislike sends exactly one insert, for the
    viewed article, with the chosen polarity and a guest identifier; neither
    the click nor its response changes a counter.  The counter of the chosen
    polarity goes up by exactly 1, and the other stays, when the stream
    delivers the inserted row. *)
Theorem like_click_counts_through_stream
    (isLike : bool) (fresh : string) (r : Response ()) (row : LikeRecord.t)
    (payload : Payload LikeRecord.t) p :
  eventType payload = INSERT →
  new payload = Some row →
  LikeRecord.news_id row = Some article →
  LikeRecord.is_like row = Bool isLike →
  let clicked := handleLikeAction_begin id isLike fresh p in
  let answered := handleLikeAction_resolve r clicked.1 in
  let echoed := (handleLikeChange id payload answered.1).1 in
  clicked.2 = [InsertLike article isLike (generateUserId fresh)]
  ∧ sameData p.1 clicked.1.1
  ∧ sameData p.1 answered.1
  ∧ isLiking answered.2 = false
  ∧ likesCount echoed = likesCount p.1 + (if isLike then 1 else 0)
  ∧ dislikesCount echoed = dislikesCount p.1 + (if isLike then 0 else 1).
Proof.
  intros He Hn Ha Hl. simpl.
  unfold handleLikeAction_begin. rewrite id_truthy, id_article. simpl.
  unfold handleLikeChange. rewrite He, Hn. simpl. rewrite Ha. simpl.
  unfold discarded. simpl.
  rewrite bool_decide_eq_false_2 by done.
  rewrite bool_decide_eq_true_2 by done. simpl. rewrite Hl.
  unfold sameData. destruct r as [m|[]], isLike; simpl; split_and!; try done; lia.
Qed.

(** Guest identifiers: two different draws give two different
    identifiers, so every click inserts a row under a user of its own. *)
Lemma generateUserId_injective (fresh fresh' : string) :
  generateUserId fresh = generateUserId fresh' → fresh = fresh'.
Proof. unfold generateUserId. cbn. by intros [=]. Qed.

(** X22.  What a failed fetch shows.  While the request is out the page
    shows the spinner, even over an article already loaded.  When it fails,
    an article loaded before is shown again with its counters and comments
    as they were and the message as a warning; without one the message is
    shown alone; an empty message shows neither warning nor error. *)
Theorem failed_fetch_display (message : string) (s : State) :
  let s1 := (fetchDetails_begin id s).1 in
  let s2 := fetchDetails_resolve (Failure message) s1 in
  render id s1 = Spinner
  ∧ render id s2
    = match newsItem s with
      | Some item =>
          Article item
            (if bool_decide (message = EmptyString) then None else Some message)
            (viewCount s) (likesCount s) (dislikesCount s) (comments s)
      | None =>
          if bool_decide (message = EmptyString) then Blank else ErrorAlert message
      end.
Proof.
  simpl. unfold fetchDetails_begin, render.
  rewrite id_truthy, id_article. simpl.
  split; [done|]. destruct (newsItem s); by case_bool_decide.
Qed.

End Reader.

(** * Further properties of the signed-in page *)

(** ** Display names *)

Section Names.
Import UserProfile.

Lemma truthyString_nonempty (s : option JsString.t) (d : JsString.t) :
  truthyString s = Some d → d ≠ [] ∧ s = Some d.
Proof. destruct s as [[|c s]|]; simpl; [done| |done]. by intros [= <-]. Qed.

Lemma extractName_nonempty (u : User) :
  ∃ d, extractName (Some u) = Some d ∧ d ≠ [].
Proof.
  unfold extractName.
  destruct (truthyString (JsString.trim <$> full_name u)) as [d|] eqn:H1; simpl.
  { exists d. split; [done|]. by apply truthyString_nonempty in H1 as [? _]. }
  destruct (truthyString (email u)) as [d|] eqn:H2; simpl.
  { exists d. split; [done|]. by apply truthyString_nonempty in H2 as [? _]. }
  destruct (truthyString (phone u)) as [d|] eqn:H3; simpl.
  { exists d. split; [done|]. by apply truthyString_nonempty in H3 as [? _]. }
  eexists. split; [done|]. done.
Qed.

(** X23.  A signed-in user always has a display name: it is never empty
    (a blank [full_name], a missing e-mail and a missing phone fall back to
    "User " and the start of the identifier), it does not depend on the
    fallback, which is used for a missing user only, and an avatar URL is
    always found for the user. *)
Theorem display_name_never_empty
    (generateAvatarUrl : JsString.t → JsString.t) (u : User) (fallback : JsString.t) :
  getUserDisplayName (Some u) fallback ≠ []
  ∧ getUserDisplayName (Some u) fallback = getUserDisplayName (Some u) anonymous
  ∧ getUserAvatarUrl generateAvatarUrl (Some u) ≠ None
  ∧ getUserDisplayName None fallback = fallback.
Proof.
  destruct (extractName_nonempty u) as (d & Hd & Hne).
  unfold getUserDisplayName, getUserAvatarUrl. rewrite Hd. simpl.
  split_and!; try done.
  destruct (truthyString (avatar_url u)); [done|].
  destruct d; [done|]. done.
Qed.

(** X24.  The avatar of a comment depends on the author name only up to the
    white space around it, and a missing or blank name gets the avatar of
    "Anonymous". *)
Theorem avatar_from_trimmed_name
    (generateAvatarUrl : JsString.t → JsString.t) (name : JsString.t) :
  getAvatarUrlFromName generateAvatarUrl (Some name)
  = getAvatarUrlFromName generateAvatarUrl (Some (JsString.trim name))
  ∧ (blank name →
     getAvatarUrlFromName generateAvatarUrl (Some name)
     = generateAvatarUrl anonymous)
  ∧ getAvatarUrlFromName generateAvatarUrl None = generateAvatarUrl anonymous.
Proof.
  unfold getAvatarUrlFromName. simpl. rewrite trim_idemp. split_and!; try done.
  intros Hb. apply trim_blank in Hb. by rewrite Hb.
Qed.

End Names.

(** ** The event loop of the signed-in page *)

Section AuthLoop.
Import DetailAuth.
Variable id : option string.
Variable userId : option string.
Implicit Types (s : State) (e : Step) (es : list Step).

Lemma auth_run_cons e es s :
  run id userId (e :: es) s
  = ((run id userId es (step id userId e s).1).1,
     (step id userId e s).2 ++ (run id userId es (step id userId e s).1).2).
Proof.
  simpl. destruct (step id userId e s) as [s1 out1]. simpl.
  by destruct (run id userId es s1) as [s2 out2].
Qed.

Lemma auth_fetchDetails_begin_keeps s :
  let s' := (fetchDetails_begin id s).1 in
  userReaction s' = userReaction s
  ∧ hasIncrementedView s' = hasIncrementedView s
  ∧ authViewIncrements (fetchDetails_begin id s).2 = 0%nat.
Proof.
  unfold fetchDetails_begin. destruct id; [|done]. by destruct (falsy_string _).
Qed.

Lemma auth_callFetchDetailsRef_keeps s :
  let s' := (callFetchDetailsRef id s).1 in
  userReaction s' = userReaction s
  ∧ hasIncrementedView s' = hasIncrementedView s
  ∧ authViewIncrements (callFetchDetailsRef id s).2 = 0%nat.
Proof.
  unfold callFetchDetailsRef. destruct (fetchDetailsRef s); [|done].
  apply auth_fetchDetails_begin_keeps.
Qed.

Lemma auth_handleLikeChange_flag payload s :
  hasIncrementedView (handleLikeChange id userId payload s).1 = hasIncrementedView s
  ∧ authViewIncrements (handleLikeChange id userId payload s).2 = 0%nat.
Proof.
  unfold handleLikeChange. destruct (discarded _ _); [done|].
  destruct (eventType payload), (new payload), (old payload);
    repeat case_match; try done.
  all: match goal with
       | |- context [callFetchDetailsRef id ?s'] =>
           destruct (auth_callFetchDetailsRef_keeps s') as (_ & -> & ->)
       end; done.
Qed.

Lemma auth_handleCommentChange_flag payload s :
  hasIncrementedView (handleCommentChange id payload s).1 = hasIncrementedView s
  ∧ (handleCommentChange id payload s).2 = [].
Proof.
  unfold handleCommentChange. destruct (discarded _ _); [done|].
  destruct (eventType payload), (new payload), (old payload); try done;
    by destruct (_ && _).
Qed.

Lemma auth_handleViewChange_flag payload s :
  hasIncrementedView (handleViewChange id payload s).1 = hasIncrementedView s
  ∧ (handleViewChange id payload s).2 = [].
Proof.
  unfold handleViewChange. destruct (discarded _ _); [done|].
  destruct (eventType payload); try done;
    by destruct (new payload ≫= ViewRecord.count).
Qed.

(** A render changes the hooks as the view-increment effect does, and then
    the value the subscribed callback reads. *)
Lemma auth_commit_begin s :
  commit id s
  = (setCapturedPendingCommentId
       (pendingCommentId (incrementViewCount_begin id s).1)
       (incrementViewCount_begin id s).1,
     (incrementViewCount_begin id s).2).
Proof. unfold commit. by destruct (incrementViewCount_begin id s). Qed.


Lemma auth_step_budget e s :
  (authViewIncrements (step id userId e s).2 + authBudget (step id userId e s).1
   ≤ authBudget s)%nat.
Proof.
  unfold authBudget. destruct e as [| |r| |r|p|p|p]; simpl.
  - lia.
  - destruct (falsy_string id); simpl; [lia|].
    destruct (auth_callFetchDetailsRef_keeps s) as (_ & -> & ->). lia.
  - destruct r as [|[data|]]; simpl; lia.
  - rewrite auth_commit_begin. simpl.
    unfold incrementViewCount_begin. destruct id; [|simpl; lia].
    destruct (falsy_string _), (loading s), (hasIncrementedView s) eqn:Hf;
      simpl; rewrite ?Hf; lia.
  - destruct r as [|[[? [v|]]|]]; simpl; lia.
  - destruct (auth_handleLikeChange_flag p s) as [-> ->]. lia.
  - destruct (auth_handleCommentChange_flag p s) as [-> ->]. simpl. lia.
  - destruct (auth_handleViewChange_flag p s) as [-> ->]. simpl. lia.
Qed.

(** X25.  The signed-in page, too, calls the view-increment function at
    most once while the article stays the same, whatever happens.  When the
    response carries no count the page adds 1, as Numbers add, to the view
    count it holds when the response arrives: that count plus 1 below 2^53,
    and no change at 2^53. *)
Theorem auth_view_increment_once es s :
  (authViewIncrements (run id userId es s).2 ≤ 1)%nat
  ∧ (∀ data s',
       data ≫= views = None →
       let after := viewCount (incrementViewCount_resolve (Success data) s') in
       after = JsNumber.add (viewCount s') 1
       ∧ (- JsNumber.limit ≤ viewCount s' < JsNumber.limit → after = viewCount s' + 1)
       ∧ (viewCount s' = JsNumber.limit → after = viewCount s')).
Proof.
  split.
  - assert (authViewIncrements (run id userId es s).2
            + authBudget (run id userId es s).1 ≤ authBudget s)%nat as H.
    { revert s. induction es as [|e es IH]; intros s; [simpl; lia|].
      rewrite auth_run_cons. simpl.
      pose proof (auth_step_budget e s). specialize (IH (step id userId e s).1).
      unfold authViewIncrements in *. rewrite filter_app, length_app. lia. }
    unfold authBudget in H. destruct (hasIncrementedView s); lia.
  - intros data s' Hd. simpl. rewrite Hd. simpl. split_and!.
    + done.
    + apply add_one_exact.
    + intros ->. apply add_one_limit.
Qed.

Lemma auth_step_signed_out e s :
  falsy_string userId = true →
  userReaction s = None →
  userReaction (step id userId e s).1 = None.
Proof.
  intros Hu Hs.
  assert (∀ user_id, ownedByViewer userId user_id = false) as Hown
    by (intros ?; unfold ownedByViewer; by rewrite Hu).
  destruct e as [| |r| |r|p|p|p]; simpl.
  - done.
  - destruct (falsy_string id); [done|].
    by destruct (auth_callFetchDetailsRef_keeps s) as (-> & _).
  - destruct r as [|[data|]]; simpl; [done| |done].
    unfold userLike. by rewrite Hu.
  - rewrite auth_commit_begin. simpl.
    unfold incrementViewCount_begin. destruct id; [|done]. by case_match.
  - by destruct r as [|[[? [v|]]|]].
  - unfold handleLikeChange. destruct (discarded _ _); [done|].
    destruct (eventType p), (new p), (old p);
      rewrite ?Hown; repeat case_match; try done.
    all: match goal with
         | |- context [callFetchDetailsRef id ?s'] =>
             by destruct (auth_callFetchDetailsRef_keeps s') as (-> & _)
         end.
  - unfold handleCommentChange. destruct (discarded _ _); [done|].
    destruct (eventType p), (new p), (old p); repeat case_match; done.
  - unfold handleViewChange. destruct (discarded _ _); [done|].
    destruct (eventType p); repeat case_match; done.
Qed.

(** X26.  Without a signed-in user the page never shows a reaction of the
    viewer: from the initial hooks, no snapshot and no event of the stream
    sets [userReaction]. *)
Theorem signed_out_no_userReaction es :
  falsy_string userId = true →
  userReaction (run id userId es initial).1 = None.
Proof.
  intros Hu.
  assert (∀ es s, userReaction s = None →
            userReaction (run id userId es s).1 = None) as Hgen.
  { clear es. intros es. induction es as [|e es IH]; intros s Hs; [done|].
    rewrite auth_run_cons. simpl. by apply IH, auth_step_signed_out. }
  by apply Hgen.
Qed.

End AuthLoop.

(** ** What the signed-in reader does *)

Section AuthReader.
Import DetailAuth AuthForms.
Variable id : option string.
Variable userId : option string.
Variable user : option UserProfile.User.
Variable article viewer : string.
Hypothesis id_article : id = Some article.
Hypothesis article_nonempty : article ≠ EmptyString.
Implicit Types (p : State * Form).

Lemma auth_id_truthy : falsy_string id = false.
Proof. rewrite id_article. simpl. by rewrite bool_decide_eq_false_2. Qed.

(** X27.  A click on Like or Dislike by the signed-in viewer looks the
    viewer's row up and then: deletes it when it has the clicked polarity
    (the reaction is taken back), updates it when it has the other one,
    inserts one when there is none.  When the write succeeds [userReaction]
    is what the viewer now has; the counters are left to the stream. *)
Theorem like_action_toggles (isLike : bool) (existing : ExistingLike) p :
  userId = Some viewer →
  viewer ≠ EmptyString →
  let lookedUp := SelectLike article viewer in
  let done r := (r, setIsLiking false p.2) in
  handleLikeAction id userId isLike (Success None) (Success ()) p
  = (done (setUserReaction (Some (reactionOfBool isLike)) (setError None p.1)),
     [lookedUp; InsertLike article viewer isLike])
  ∧ (existing_is_like existing = Bool isLike →
     handleLikeAction id userId isLike (Success (Some existing)) (Success ()) p
     = (done (setUserReaction None (setError None p.1)),
        [lookedUp; DeleteLike (existing_id existing)]))
  ∧ (existing_is_like existing ≠ Bool isLike →
     handleLikeAction id userId isLike (Success (Some existing)) (Success ()) p
     = (done (setUserReaction (Some (reactionOfBool isLike)) (setError None p.1)),
        [lookedUp; UpdateLike (existing_id existing) isLike])).
Proof.
  intros Hu Hv. simpl.
  unfold handleLikeAction, handleLikeAction_begin, handleLikeAction_lookup.
  rewrite auth_id_truthy, id_article, Hu. simpl.
  rewrite bool_decide_eq_false_2 by done. simpl.
  split_and!; [done| |].
  - intros He. unfold strict_eq. by rewrite bool_decide_eq_true_2.
  - intros He. unfold strict_eq. by rewrite bool_decide_eq_false_2.
Qed.

(** X28.  The click never changes the article, the comments, a counter or
    the view count, whatever the two responses are; and when the lookup or
    the write fails, or nobody is signed in, [userReaction] stays what it
    was. *)
Theorem like_action_keeps_data
    (isLike : bool) (lookup : Response (option ExistingLike)) (write : Response ()) p :
  let after := (handleLikeAction id userId isLike lookup write p).1.1 in
  newsItem after = newsItem p.1
  ∧ comments after = comments p.1
  ∧ likesCount after = likesCount p.1
  ∧ dislikesCount after = dislikesCount p.1
  ∧ viewCount after = viewCount p.1
  ∧ ((∃ m, lookup = Failure m) ∨ (∃ m, write = Failure m)
     ∨ falsy_string userId = true →
     userReaction after = userReaction p.1).
Proof.
  clear id_article. simpl.
  unfold handleLikeAction, handleLikeAction_begin, handleLikeAction_lookup.
  destruct id as [i|]; [|by split_and!].
  destruct (falsy_string (Some i)); [by destruct userId; split_and!|].
  destruct userId as [u|]; simpl; [|by split_and!].
  destruct (bool_decide (u = EmptyString)) eqn:Hu; simpl; [by split_and!|].
  destruct lookup as [m|[existing|]]; simpl.
  - by split_and!.
  - destruct (strict_eq _ _), write as [m|[]]; simpl; split_and!; try done;
      intros [[m' [=]]|[[m' [=]]|[=]]].
  - destruct write as [m|[]]; simpl; split_and!; try done;
      intros [[m' [=]]|[[m' [=]]|[=]]].
Qed.


(** X30.  A signed-in reader is never stopped by the name check: with a
    text that is not blank the comment goes out under the display name. *)
Theorem signed_in_comment_sent (u : UserProfile.User) p :
  user = Some u →
  ¬ blank (commentText p.2) →
  (handleCommentSubmit_begin id user p).2
  = [InsertComment article
       (UserProfile.getUserDisplayName (Some u) UserProfile.anonymous)
       (JsString.trim (commentText p.2))].
Proof.
  intros -> Ht. unfold handleCommentSubmit_begin, resolvedName.
  rewrite auth_id_truthy, id_article.
  destruct (extractName_nonempty u) as (d & Hd & Hne).
  unfold UserProfile.getUserDisplayName. rewrite Hd. simpl.
  destruct d as [|c d]; [done|]. simpl.
  destruct (JsString.falsy (JsString.trim (commentText p.2))) eqn:Hf; [|done].
  apply falsy_trim in Hf. done.
Qed.

End AuthReader.

(** ** Worked instances of the further properties *)

Section MoreInstances.
Import Sample.

Lemma sortCommentsByDate_spec_witness :
  let l := [comment "c1" 1; comment "c2" 1; comment "c3" 4] in
  StronglySorted byDate l ∧ sortCommentsByDate l = l.
Proof.
  intros l.
  assert (StronglySorted byDate l) as H
    by (repeat constructor; unfold byDate; simpl; lia).
  exact (conj H (proj2 (proj2 (proj2 (sortCommentsByDate_spec l))) H)).
Defined.

Lemma upsertComment_last_wins_witness :
  let n := comment "c2" 5 in
  let n' := comment "c2" 0 in
  let l := [comment "c1" 1; comment "c3" 4] in
  NewsComment.id n = NewsComment.id n'
  ∧ upsertComment n' (upsertComment n l) = upsertComment n' l.
Proof.
  intros n n' l.
  assert (NewsComment.id n = NewsComment.id n') as H by reflexivity.
  exact (conj H (upsertComment_last_wins n n' l H)).
Defined.

Lemma removeComment_removes_witness :
  let o := comment "c9" 0 in
  let l := [comment "c1" 1; comment "c3" 4] in
  (NewsComment.id o ∉ commentIds l) ∧ removeComment o l = l.
Proof.
  intros o l.
  assert (NewsComment.id o ∉ commentIds l) as H.
  { simpl. rewrite !not_elem_of_cons. split_and!; try discriminate.
    apply not_elem_of_nil. }
  exact (conj H (proj2 (proj2 (removeComment_removes o l)) H)).
Defined.

Lemma insert_then_delete_witness :
  let n := comment "c2" 2 in
  let l := [comment "c1" 1; comment "c3" 4] in
  StronglySorted byDate l
  ∧ (NewsComment.id n ∉ commentIds l)
  ∧ removeComment n (upsertComment n l) = l.
Proof.
  intros n l.
  assert (StronglySorted byDate l) as H1
    by (repeat constructor; unfold byDate; simpl; lia).
  assert (NewsComment.id n ∉ commentIds l) as H2.
  { simpl. rewrite !not_elem_of_cons. split_and!; try discriminate.
    apply not_elem_of_nil. }
  exact (conj H1 (conj H2 (proj2 (insert_then_delete n l H1) H2))).
Defined.

End MoreInstances.

Section LoopInstances.
Import Sample.

Lemma requests_only_for_viewed_article_witness :
  let es := [Detail.FetchEffect; Detail.Render;
             Detail.LikeEvent truncateLikes; Detail.Render] in
  falsy_string None = true ∧ (Detail.run None es (loaded 1 1 1 [])).2 = [].
Proof.
  intros es.
  assert (falsy_string None = true) as H by reflexivity.
  exact (conj H (proj2 (requests_only_for_viewed_article None es (loaded 1 1 1 [])) H)).
Defined.

Lemma event_without_article_discarded_witness :
  let e := Detail.LikeEvent {| eventType := TRUNCATE; new := None; old := None |} in
  let s := loaded 3 2 7 [] in
  eventTarget e = Some None
  ∧ falsy_string None = true
  ∧ Detail.step (Some article) e s = (s, []).
Proof.
  intros e s.
  assert (eventTarget e = Some None) as H1 by reflexivity.
  assert (falsy_string None = true) as H2 by reflexivity.
  exact (conj H1 (conj H2
    (event_without_article_discarded (Some article) e None s H1 H2))).
Defined.

Lemma view_increment_waits_for_response_witness :
  let viewEvent := Detail.ViewEvent
    {| eventType := UPDATE;
       new := Some {| ViewRecord.news_id := Some article; ViewRecord.count := Some 10 |};
       old := None |} in
  let es := [Detail.FetchEffect; Detail.Render; viewEvent; Detail.Render] in
  let answered :=
    Detail.run (Some article)
      [Detail.FetchEffect; Detail.FetchDone (Failure "timeout"); Detail.Render]
      Detail.initial in
  (∀ r, Detail.FetchDone r ∉ es)
  ∧ viewIncrements (Detail.run (Some article) es Detail.initial).2 = 0%nat
  ∧ article ≠ EmptyString
  ∧ Detail.newsItem answered.1 = None
  ∧ answered.2 = [Detail.SelectNews article; Detail.UpsertView article 1].
Proof.
  intros viewEvent es answered.
  assert (∀ r, Detail.FetchDone r ∉ es) as H.
  { intros r Hr. unfold es in Hr. rewrite !elem_of_cons in Hr.
    destruct Hr as [Hr|[Hr|[Hr|[Hr|Hr]]]]; try discriminate Hr.
    by apply elem_of_nil in Hr. }
  assert (article ≠ EmptyString) as Ha by (vm_compute; discriminate).
  pose proof (view_increment_waits_for_response (Some article) es) as [H1 H2].
  split; [exact H|]. split; [exact (H1 H)|]. split; [exact Ha|].
  apply (H2 article (Failure "timeout") eq_refl Ha). intros data. discriminate.
Defined.

Lemma first_load_counts_view_witness :
  let data := viewed 41 in
  let views := coerceViewCount (Detail.NewsData.views data) in
  Some article = Some article
  ∧ article ≠ EmptyString
  ∧ (Detail.run (Some article)
       [Detail.FetchEffect; Detail.FetchDone (Success (Some data)); Detail.Render]
       Detail.initial).2
    = [Detail.SelectNews article; Detail.UpsertView article (JsNumber.add views 1)]
  ∧ JsNumber.add views 1 = 42.
Proof.
  intros data views.
  assert (article ≠ EmptyString) as Ha by (vm_compute; discriminate).
  destruct (first_load_counts_view (Some article) article data eq_refl Ha)
    as (H1 & H2 & _).
  split; [exact eq_refl|]. split; [exact Ha|]. split; [exact H1|].
  apply H2. vm_compute. split; [discriminate|reflexivity].
Defined.

(** At 2^53 the count the page upserts is the snapshot's count itself. *)
Example first_load_at_limit :
  (Detail.run (Some article)
     [Detail.FetchEffect; Detail.FetchDone (Success (Some (viewed (2 ^ 53)))); Detail.Render]
     Detail.initial).2
  = [Detail.SelectNews article; Detail.UpsertView article (2 ^ 53)].
Proof. vm_compute. reflexivity. Qed.

Lemma insert_delete_round_trip_witness :
  let r := reaction "r1" (Bool true) in
  let s := loaded 0 1 0 [] in
  let insert := {| eventType := INSERT; new := Some r; old := None |} in
  let delete := {| eventType := DELETE; new := None; old := Some r |} in
  article ≠ EmptyString
  ∧ 0 ≤ Detail.likesCount s
  ∧ 0 ≤ Detail.dislikesCount s
  ∧ foldLikes (Some article) [insert; delete] s = s
  ∧ foldLikes (Some article) [delete; insert] s
    = Detail.setLikesCount (λ prev, Z.max prev 1) s.
Proof.
  intros r s insert delete.
  assert (article ≠ EmptyString) as Ha by (vm_compute; discriminate).
  assert (0 ≤ Detail.likesCount s) as H1 by (simpl; lia).
  assert (0 ≤ Detail.dislikesCount s) as H2 by (simpl; lia).
  exact (conj Ha (conj H1 (conj H2
    (insert_delete_round_trip (Some article) article r s eq_refl Ha eq_refl H1 H2)))).
Defined.

Lemma update_noop_iff_same_polarity_witness :
  let n := reaction "r1" (Bool true) in
  let o := reaction "r1" Undefined in
  let s := loaded 1 0 0 [] in
  article ≠ EmptyString
  ∧ ((Detail.handleLikeChange (Some article)
        {| eventType := UPDATE; new := Some n; old := Some o |} s).1 = s
     ↔ Detail.LikeRecord.is_like o = Detail.LikeRecord.is_like n).
Proof.
  intros n o s.
  assert (article ≠ EmptyString) as Ha by (vm_compute; discriminate).
  exact (conj Ha
    (update_noop_iff_same_polarity (Some article) article n o s eq_refl Ha eq_refl)).
Defined.

Lemma paragraphsOf_spec_witness :
  let l := [lineFeed; lineFeed] in
  Forall (λ c, isLineFeed c = true) l ∧ paragraphsOf l = [].
Proof.
  intros l.
  assert (Forall (λ c, isLineFeed c = true) l) as H
    by (repeat constructor).
  exact (conj H (proj2 (proj2 (paragraphsOf_spec l)) H)).
Defined.

Lemma paragraphsOf_join_witness :
  let a := Ascii.ascii_of_nat 97 in
  let b := Ascii.ascii_of_nat 98 in
  let ps := [[a]; [b; a]] in
  Forall (λ piece, piece ≠ [] ∧ Forall (λ c, isLineFeed c = false) piece) ps
  ∧ paragraphsOf (joinLineFeed ps) = ps.
Proof.
  intros a b ps.
  assert (Forall (λ piece, piece ≠ [] ∧ Forall (λ c, isLineFeed c = false) piece) ps)
    as H by (repeat constructor; discriminate).
  exact (conj H (paragraphsOf_join ps H)).
Defined.

End LoopInstances.

Section ReaderInstances.
Import Sample.

Lemma blank_comment_refused_witness :
  let form := {| Forms.commentError := None; Forms.isLiking := false;
                 Forms.isSubmittingComment := false;
                 Forms.commentForm :=
                   {| Forms.userName := [32; 9]%N; Forms.text := [104; 105]%N |} |} in
  let p := (loaded 0 0 0 [], form) in
  article ≠ EmptyString
  ∧ (blank (Forms.userName (Forms.commentForm p.2))
     ∨ blank (Forms.text (Forms.commentForm p.2)))
  ∧ Forms.handleCommentSubmit_begin (Some article) p
    = ((p.1, Forms.setCommentError
               (Some "Please enter your name and comment."%string) p.2), []).
Proof.
  intros form p.
  assert (article ≠ EmptyString) as Ha by (vm_compute; discriminate).
  assert (blank (Forms.userName (Forms.commentForm p.2))
          ∨ blank (Forms.text (Forms.commentForm p.2))) as H
    by (left; repeat constructor).
  exact (conj Ha (conj H
    (blank_comment_refused (Some article) article eq_refl Ha p H))).
Defined.

Lemma comment_sent_trimmed_witness :
  let form := {| Forms.commentError := None; Forms.isLiking := false;
                 Forms.isSubmittingComment := false;
                 Forms.commentForm :=
                   {| Forms.userName := [32; 65; 110; 110; 32]%N;
                      Forms.text := [104; 105; 10]%N |} |} in
  let p := (loaded 0 0 0 [], form) in
  article ≠ EmptyString
  ∧ ¬ blank (Forms.userName (Forms.commentForm p.2))
  ∧ ¬ blank (Forms.text (Forms.commentForm p.2))
  ∧ ∃ name body,
      (Forms.handleCommentSubmit_begin (Some article) p).2
      = [Forms.InsertComment article name body]
      ∧ name ≠ [] ∧ trimmedFrom name (Forms.userName (Forms.commentForm p.2))
      ∧ body ≠ [] ∧ trimmedFrom body (Forms.text (Forms.commentForm p.2)).
Proof.
  intros form p.
  assert (article ≠ EmptyString) as Ha by (vm_compute; discriminate).
  assert (¬ blank (Forms.userName (Forms.commentForm p.2))) as H1.
  { intros H. apply Forall_cons in H as [_ H].
    apply Forall_cons in H as [H _]. discriminate H. }
  assert (¬ blank (Forms.text (Forms.commentForm p.2))) as H2.
  { intros H. apply Forall_cons in H as [H _]. discriminate H. }
  exact (conj Ha (conj H1 (conj H2
    (comment_sent_trimmed (Some article) article eq_refl Ha p H1 H2)))).
Defined.

(** What goes out for " Ann " and "hi" followed by a line feed. *)
Example comment_sent_trimmed_values :
  (Forms.handleCommentSubmit_begin (Some article)
     (loaded 0 0 0 [],
      Forms.handleCommentInput "text" [104; 105; 10]%N
        (Forms.handleCommentInput "userName" [32; 65; 110; 110; 32]%N
           Forms.initial))).2
  = [Forms.InsertComment article [65; 110; 110]%N [104; 105]%N].
Proof. reflexivity. Qed.

Lemma like_click_counts_through_stream_witness :
  let row := reaction "r7" (Bool false) in
  let p := (loaded 4 2 0 [], Forms.initial) in
  let clicked := Forms.handleLikeAction_begin (Some article) false "u-1" p in
  let answered := Forms.handleLikeAction_resolve (Success ()) clicked.1 in
  let echoed := (Detail.handleLikeChange (Some article) (insertLike row) answered.1).1 in
  article ≠ EmptyString
  ∧ clicked.2 = [Forms.InsertLike article false (Forms.generateUserId "u-1")]
  ∧ sameData p.1 clicked.1.1
  ∧ sameData p.1 answered.1
  ∧ Forms.isLiking answered.2 = false
  ∧ Detail.likesCount echoed = Detail.likesCount p.1 + 0
  ∧ Detail.dislikesCount echoed = Detail.dislikesCount p.1 + 1.
Proof.
  intros row p clicked answered echoed.
  assert (article ≠ EmptyString) as Ha by (vm_compute; discriminate).
  exact (conj Ha
    (like_click_counts_through_stream (Some article) article eq_refl Ha
       false "u-1" (Success ()) row (insertLike row) p
       eq_refl eq_refl eq_refl eq_refl)).
Defined.

Lemma failed_fetch_display_witness :
  let s := loaded 4 2 9 [comment "c1" 1] in
  let s1 := (Detail.fetchDetails_begin (Some article) s).1 in
  let s2 := Detail.fetchDetails_resolve (Failure "timeout") s1 in
  article ≠ EmptyString
  ∧ Forms.render (Some article) s1 = Forms.Spinner
  ∧ Forms.render (Some article) s2 = Forms.ErrorAlert "timeout".
Proof.
  intros s s1 s2.
  assert (article ≠ EmptyString) as Ha by (vm_compute; discriminate).
  exact (conj Ha
    (failed_fetch_display (Some article) article eq_refl Ha "timeout" s)).
Defined.

End ReaderInstances.

Section AuthInstances.
Import Sample.

Lemma avatar_from_trimmed_name_witness :
  let generateAvatarUrl := λ name : JsString.t, (63 :: name)%N in
  let name := [32; 10; 32]%N in
  blank name
  ∧ UserProfile.getAvatarUrlFromName generateAvatarUrl (Some name)
    = generateAvatarUrl UserProfile.anonymous.
Proof.
  intros generateAvatarUrl name.
  assert (blank name) as H by (repeat constructor).
  exact (conj H
    (proj1 (proj2 (avatar_from_trimmed_name generateAvatarUrl name)) H)).
Defined.

Lemma auth_view_increment_once_witness :
  let viewEvent := DetailAuth.ViewEvent
    {| eventType := UPDATE;
       new := Some {| ViewRecord.news_id := Some article; ViewRecord.count := Some 10 |};
       old := None |} in
  let es := [DetailAuth.RefEffect; DetailAuth.FetchEffect;
             DetailAuth.FetchDone (Failure "timeout"); DetailAuth.Render;
             viewEvent; DetailAuth.Render] in
  let ran := DetailAuth.run (Some article) None es DetailAuth.initial in
  let data := Some {| DetailAuth.newsId := article; DetailAuth.views := None |} in
  let after :=
    DetailAuth.viewCount (DetailAuth.incrementViewCount_resolve (Success data) ran.1) in
  (authViewIncrements ran.2 ≤ 1)%nat
  ∧ data ≫= DetailAuth.views = None
  ∧ after = JsNumber.add (DetailAuth.viewCount ran.1) 1
  ∧ after = DetailAuth.viewCount ran.1 + 1.
Proof.
  intros viewEvent es ran data after.
  pose proof (auth_view_increment_once (Some article) None es DetailAuth.initial)
    as [H1 H2].
  destruct (H2 data ran.1 eq_refl) as (H3 & H4 & _).
  split; [exact H1|]. split; [exact eq_refl|]. split; [exact H3|].
  apply H4. vm_compute. split; [discriminate|reflexivity].
Defined.

(** Evaluated: one call goes out, and the fallback turns the count 10 of the
    stream into 11, and leaves 2^53 as it is. *)
Example auth_view_fallback :
  let viewEvent count := DetailAuth.ViewEvent
    {| eventType := UPDATE;
       new := Some {| ViewRecord.news_id := Some article; ViewRecord.count := Some count |};
       old := None |} in
  let es count := [DetailAuth.RefEffect; DetailAuth.FetchEffect;
             DetailAuth.FetchDone (Failure "timeout"); DetailAuth.Render;
             viewEvent count; DetailAuth.Render;
             DetailAuth.IncrementDone (Success None)] in
  let ran count := DetailAuth.run (Some article) None (es count) DetailAuth.initial in
  (ran 10).2 = [DetailAuth.SelectNews article; DetailAuth.InvokeIncrementView article]
  ∧ DetailAuth.viewCount (ran 10).1 = 11
  ∧ DetailAuth.viewCount (ran (2 ^ 53)).1 = 2 ^ 53.
Proof. split_and!; vm_compute; reflexivity. Qed.

Lemma signed_out_no_userReaction_witness :
  let mine : Payload DetailAuth.LikeRecord.t :=
    {| eventType := INSERT; new := Some (authReaction "r1" "" (Bool true));
       old := None |} in
  let es := [DetailAuth.RefEffect; DetailAuth.LikeEvent mine] in
  falsy_string (Some EmptyString) = true
  ∧ DetailAuth.userReaction
      (DetailAuth.run (Some article) (Some EmptyString) es DetailAuth.initial).1
    = None.
Proof.
  intros mine es.
  assert (falsy_string (Some EmptyString) = true) as H by reflexivity.
  exact (conj H
    (signed_out_no_userReaction (Some article) (Some EmptyString) es H)).
Defined.

Lemma like_action_toggles_witness :
  let form := {| AuthForms.commentError := None; AuthForms.isLiking := false;
                 AuthForms.isSubmittingComment := false;
                 AuthForms.commentText := []; AuthForms.guestName := [] |} in
  let p := (authLoaded 1 0 (Some DetailAuth.like), form) in
  let existing := {| AuthForms.existing_id := "r1";
                     AuthForms.existing_is_like := Bool true |} in
  article ≠ EmptyString
  ∧ "u1"%string ≠ EmptyString
  ∧ AuthForms.existing_is_like existing = Bool true
  ∧ AuthForms.handleLikeAction (Some article) (Some "u1"%string) true
      (Success (Some existing)) (Success ()) p
    = ((DetailAuth.setUserReaction None (DetailAuth.setError None p.1),
        AuthForms.setIsLiking false p.2),
       [AuthForms.SelectLike article "u1"; AuthForms.DeleteLike "r1"]).
Proof.
  intros form p existing.
  assert (article ≠ EmptyString) as Ha by (vm_compute; discriminate).
  assert ("u1"%string ≠ EmptyString) as Hv by discriminate.
  exact (conj Ha (conj Hv (conj eq_refl
    (proj1 (proj2 (like_action_toggles (Some article) (Some "u1"%string)
                     article "u1" eq_refl Ha true existing p eq_refl Hv))
       eq_refl)))).
Defined.

Lemma like_action_keeps_data_witness :
  let form := {| AuthForms.commentError := None; AuthForms.isLiking := false;
                 AuthForms.isSubmittingComment := false;
                 AuthForms.commentText := []; AuthForms.guestName := [] |} in
  let p := (authLoaded 1 0 (Some DetailAuth.like), form) in
  let lookup : Response (option AuthForms.ExistingLike) := Success None in
  let write : Response () := Failure "denied" in
  let after :=
    (AuthForms.handleLikeAction (Some article) (Some "u1"%string) false
       lookup write p).1.1 in
  ((∃ m, lookup = Failure m) ∨ (∃ m, write = Failure m)
   ∨ falsy_string (Some "u1"%string) = true)
  ∧ DetailAuth.userReaction after = DetailAuth.userReaction p.1.
Proof.
  intros form p lookup write after.
  assert ((∃ m, lookup = Failure m) ∨ (∃ m, write = Failure m)
          ∨ falsy_string (Some "u1"%string) = true) as H
    by (right; left; by exists "denied"%string).
  pose proof (like_action_keeps_data (Some article) (Some "u1"%string)
                false lookup write p) as (_ & _ & _ & _ & _ & Hkeep).
  exact (conj H (Hkeep H)).
Defined.


(** Evaluated: the three orders leave the same list; only the first enables
    the form again. *)
Example posted_comment_orders :
  let c := comment "c7" 5 in
  let waiting := DetailAuth.setIsAwaitingCommentAck true (authLoaded 0 0 None) in
  let answer s :=
    (AuthForms.handleCommentSubmit_resolve None (Success (Some c))
       (s, AuthForms.Build_Form None false true [104; 105]%N [65]%N)).1 in
  let render s := (DetailAuth.commit (Some article) s).1 in
  let echo s := (DetailAuth.handleCommentChange (Some article) (insertComment c) s).1 in
  let shown s := (DetailAuth.comments s, DetailAuth.isAwaitingCommentAck s) in
  shown (echo (render (answer waiting))) = ([c], false)
  ∧ shown (render (echo (answer waiting))) = ([c], true)
  ∧ shown (render (answer (echo waiting))) = ([c], true).
Proof. split_and!; reflexivity. Qed.

Lemma signed_in_comment_sent_witness :
  let u := {| UserProfile.id := [97; 98; 99; 100; 101; 102; 103; 104]%N;
              UserProfile.email := None; UserProfile.phone := None;
              UserProfile.full_name := Some [32; 32]%N;
              UserProfile.avatar_url := None |} in
  let form := {| AuthForms.commentError := None; AuthForms.isLiking := false;
                 AuthForms.isSubmittingComment := false;
                 AuthForms.commentText := [32; 104; 105]%N;
                 AuthForms.guestName := [] |} in
  let p := (authLoaded 0 0 None, form) in
  article ≠ EmptyString
  ∧ ¬ blank (AuthForms.commentText p.2)
  ∧ (AuthForms.handleCommentSubmit_begin (Some article) (Some u) p).2
    = [AuthForms.InsertComment article
         (UserProfile.getUserDisplayName (Some u) UserProfile.anonymous)
         (JsString.trim (AuthForms.commentText p.2))].
Proof.
  intros u form p.
  assert (article ≠ EmptyString) as Ha by (vm_compute; discriminate).
  assert (¬ blank (AuthForms.commentText p.2)) as H.
  { intros Hb. apply Forall_cons in Hb as [_ Hb].
    apply Forall_cons in Hb as [Hb _]. discriminate Hb. }
  exact (conj Ha (conj H
    (signed_in_comment_sent (Some article) (Some u) article eq_refl Ha u p eq_refl H))).
Defined.

(** The user of that instance, who has a blank name and neither e-mail nor
    phone, posts as "User abcdef". *)
Example display_name_fallback :
  UserProfile.getUserDisplayName
    (Some {| UserProfile.id := [97; 98; 99; 100; 101; 102; 103; 104]%N;
             UserProfile.email := None; UserProfile.phone := None;
             UserProfile.full_name := Some [32; 32]%N;
             UserProfile.avatar_url := None |}) UserProfile.anonymous
  = [85; 115; 101; 114; 32; 97; 98; 99; 100; 101; 102]%N.
Proof. reflexivity. Qed.

End AuthInstances.
